(** * Al-Minar client (minarAPI/static/js/app.js): session, submission and display logic

    A shallow embedding of the parts of [app.js] that handle the token
    session ([Auth], [authFetch]), the masjid report submission
    ([submitMasjidReport]), the public badge verification page
    ([initVerify]), the badge list of the detail page ([initDetail]) and the
    display helpers ([confidenceBadgeHTML], [masjidCardHTML], [escHTML]).

    Conventions.
    - A JavaScript value that the client receives as JSON is a [JSVal];
      numbers are the integers (the confidence levels, status codes and
      identifiers of this API), printed in decimal as JavaScript prints
      them below 10^21; fractional numbers are outside the model.  An
      object is the list of its own members in enumeration order, each
      key once.
    - A string is a sequence of code units; an [ascii] stands for the code
      unit of the same number, so code unit 160 is the no-break space.
      Code units from 256 on behave in every function below like any other
      ordinary character.
    - A value is converted to a string, to a property key or to a date by
      the conversions of the language, which end in a [TypeError] on an
      object that has an own [toString] member: a member read from JSON is
      never callable, and neither the inherited nor an own [valueOf] gives
      a primitive.
    - The page is served over http or https, so that [window.location.origin]
      is a base against which every endpoint below [/api/] resolves; a
      request holds the address as the client writes it, before that
      resolution.
    - Effects (localStorage, fetch, exceptions) are threaded through the
      monad [M] over a [World]. *)

From Stdlib Require Import ZArith String Ascii List Bool Lia.
From Stdlib Require Import DecimalString DecimalZ DecimalPos.
From stdpp Require Import base option gmap strings list.

Local Open Scope Z_scope.
Local Open Scope string_scope.

(** ** Values *)

#[warnings="-register-all"]
Inductive JSVal : Type :=
| JUndefined
| JNull
| JBool (b : bool)
| JNum (n : Z)
| JStr (s : string)
| JArr (items : list JSVal)
| JObj (fields : list (string * JSVal)).

(** What a [throw] carries.  [NetworkError] is the rejection of [fetch] when
    no response arrives; [TypeError] a property read on [null] or
    [undefined], a call of what is no function, or a conversion that
    fails; [SyntaxError] a body or stored text that is not JSON;
    [ErrorMsg m] is [new Error(m)]. *)
Inductive JSError : Type :=
| NetworkError
| TypeError
| SyntaxError
| ErrorMsg (msg : string).

Inductive Result (A : Type) : Type :=
| Ok (a : A)
| Throw (e : JSError).
Arguments Ok {A} a.
Arguments Throw {A} e.

(** The double quote, which a template needs around attribute values. *)
Definition dq : string := String (ascii_of_nat 34) EmptyString.

(** [Number.prototype.toString] on an integer. *)
Definition string_of_Z (n : Z) : string := NilZero.string_of_int (Z.to_int n).

(** ToBoolean. *)
Definition truthy (v : JSVal) : bool :=
  match v with
  | JUndefined | JNull => false
  | JBool b => b
  | JNum n => negb (n =? 0)%Z
  | JStr s => negb (String.eqb s "")
  | JArr _ | JObj _ => true
  end.

(** [v == null]: true for [null] and [undefined] only. *)
Definition nullish (v : JSVal) : bool :=
  match v with
  | JUndefined | JNull => true
  | _ => false
  end.

(** ** Exceptions in pure code *)

#[export] Instance Result_ret : MRet Result := fun _ a => Ok a.
#[export] Instance Result_bind : MBind Result :=
  fun _ _ f r => match r with Ok a => f a | Throw e => Throw e end.

(** Own property of an object built by an object literal or [JSON.parse]. *)
Fixpoint own (fields : list (string * JSVal)) (k : string) : option JSVal :=
  match fields with
  | [] => None
  | (k', v) :: rest => if String.eqb k' k then Some v else own rest k
  end.

(** ToString.  An array joins its elements with commas, [null] and
    [undefined] elements giving the empty string, and fails where an
    element fails.  A plain object gives [[object Object]] through the
    inherited [toString]; with an own [toString] member, which is no
    function, the conversion is a [TypeError]. *)
Fixpoint ToString (v : JSVal) : Result string :=
  match v with
  | JUndefined => Ok "undefined"
  | JNull => Ok "null"
  | JBool true => Ok "true"
  | JBool false => Ok "false"
  | JNum n => Ok (string_of_Z n)
  | JStr s => Ok s
  | JArr items =>
      (fix join (l : list JSVal) : Result string :=
         match l with
         | [] => Ok ""
         | x :: rest =>
             match (if nullish x then Ok "" else ToString x) with
             | Throw e => Throw e
             | Ok s =>
                 match rest with
                 | [] => Ok s
                 | _ =>
                     match join rest with
                     | Throw e => Throw e
                     | Ok t => Ok (s ++ "," ++ t)
                     end
                 end
             end
         end) items
  | JObj fields =>
      match own fields "toString" with
      | Some _ => Throw TypeError
      | None => Ok "[object Object]"
      end
  end.

(** ToPrimitive, through which [new Date(v)] reads its argument, fails
    exactly where ToString does; the date made from [v] is kept as [v]. *)
Definition new_Date (v : JSVal) : Result JSVal :=
  _ ← ToString v; Ok v.

(** [a || b] and [a ?? b]. *)
Definition js_or (a b : JSVal) : JSVal := if truthy a then a else b.
Definition js_coalesce (a b : JSVal) : JSVal := if nullish a then b else a.

(** The names every plain object inherits from [Object.prototype]. *)
Definition Object_prototype_names : list string :=
  [ "constructor"; "__defineGetter__"; "__defineSetter__"; "hasOwnProperty";
    "__lookupGetter__"; "__lookupSetter__"; "isPrototypeOf";
    "propertyIsEnumerable"; "toString"; "valueOf"; "__proto__";
    "toLocaleString" ].

Definition inherited_name (k : string) : bool :=
  existsb (String.eqb k) Object_prototype_names.

(** [v.k] for a key [k] that no prototype defines (every key the client
    reads by name is such a key): the own property of an object,
    [undefined] on any other value, and a [TypeError] on [null] and
    [undefined]. *)
Definition getProp (v : JSVal) (k : string) : Result JSVal :=
  match v with
  | JUndefined | JNull => Throw TypeError
  | JObj fields => Ok (default JUndefined (own fields k))
  | _ => Ok JUndefined
  end.

(** [v?.k]. *)
Definition getOpt (v : JSVal) (k : string) : JSVal :=
  match v with
  | JObj fields => default JUndefined (own fields k)
  | _ => JUndefined
  end.

(** ** confidenceBadgeHTML (lines 77-86) *)

Definition badge_entry (c i l : string) : JSVal :=
  JObj [("cls", JStr c); ("icon", JStr i); ("label", JStr l)].

(** The object literal [map]. *)
Definition badge_map : list (string * JSVal) :=
  [ ("0", badge_entry "c0" "fas fa-circle" "Community Reported");
    ("1", badge_entry "c1" "fas fa-users" "Community Confirmed");
    ("2", badge_entry "c2" "fas fa-check-circle" "Verified");
    ("3", badge_entry "c3" "fas fa-shield-alt" "Actively Maintained") ].

(** What [obj[key]] finds on a plain object: an own property, a member of
    [Object.prototype] (a built-in function, or the prototype itself for
    [__proto__]), or nothing. *)
Inductive Member : Type :=
| Own (v : JSVal)
| Inherited (name : string)
| NoMember.

Definition member (fields : list (string * JSVal)) (key : string) : Member :=
  match own fields key with
  | Some v => Own v
  | None => if inherited_name key then Inherited key else NoMember
  end.

(** [map[level] || map[0]]: the level is converted to a property key; a
    built-in is truthy, so it is kept. *)
Definition badge_info (level : JSVal) : Result Member :=
  key ← ToString level;
  Ok (match member badge_map key with
      | Own v => if truthy v then Own v else member badge_map "0"
      | Inherited name => Inherited name
      | NoMember => member badge_map "0"
      end).

(** [info.k] inside the template: the built-ins have no [cls], [icon] or
    [label], which the template prints as [undefined]. *)
Definition info_text (info : Member) (k : string) : Result string :=
  match info with
  | Own v => ToString (getOpt v k)
  | Inherited _ | NoMember => ToString JUndefined
  end.

Definition badge_markup (c i l : string) : string :=
  "<span class=" ++ dq ++ "confidence-badge " ++ c ++ dq ++ "><i class="
  ++ dq ++ i ++ dq ++ "></i> " ++ l ++ "</span>".

Definition confidenceBadgeHTML (level : JSVal) : Result string :=
  info ← badge_info level;
  c ← info_text info "cls";
  i ← info_text info "icon";
  l ← info_text info "label";
  Ok (badge_markup c i l).

(** The markup of each of the four levels. *)
Definition level_markup (n : Z) : string :=
  if (n =? 1)%Z then badge_markup "c1" "fas fa-users" "Community Confirmed"
  else if (n =? 2)%Z then badge_markup "c2" "fas fa-check-circle" "Verified"
  else if (n =? 3)%Z then badge_markup "c3" "fas fa-shield-alt" "Actively Maintained"
  else badge_markup "c0" "fas fa-circle" "Community Reported".

(** ** escHTML (lines 117-121) *)

(** The fragment serialisation of one code unit of a text node. *)
Definition escapeChar (c : ascii) : string :=
  if Ascii.eqb c "&" then "&amp;"
  else if Ascii.eqb c "<" then "&lt;"
  else if Ascii.eqb c ">" then "&gt;"
  else if Ascii.eqb c (ascii_of_nat 160) then "&nbsp;"
  else String c EmptyString.

(** [innerHTML] of an element whose only child is a text node. *)
Fixpoint serializeText (s : string) : string :=
  match s with
  | EmptyString => EmptyString
  | String c rest => escapeChar c ++ serializeText rest
  end.

(** [d.textContent = s || ''; return d.innerHTML]: the setter converts
    its value to a string. *)
Definition escHTML (s : JSVal) : Result string :=
  text ← ToString (js_or s (JStr ""));
  Ok (serializeText text).




(** Does the code unit [c] occur in [s]? *)
Fixpoint occurs (c : ascii) (s : string) : bool :=
  match s with
  | EmptyString => false
  | String c' rest => Ascii.eqb c c' || occurs c rest
  end.

(** ** The confidence level of a masjid record *)

(** [cr ? cr.confidenceLevel : 0] with [cr = m.confidence_record]
    (masjidCardHTML, lines 90-92). *)
Definition masjidCardHTML_level (m : JSVal) : Result JSVal :=
  cr ← getProp m "confidence_record";
  if truthy cr then getProp cr "confidenceLevel" else Ok (JNum 0).

(** [(m.confidence_record && m.confidence_record.confidenceLevel != null)
      ? m.confidence_record.confidenceLevel : 0]
    (lines 228, 247, 276 and 319). *)
Definition level_guarded (m : JSVal) : Result JSVal :=
  cr ← getProp m "confidence_record";
  present ← (if truthy cr
             then l ← getProp cr "confidenceLevel"; Ok (negb (nullish l))
             else Ok false);
  if present : bool
  then cr' ← getProp m "confidence_record"; getProp cr' "confidenceLevel"
  else Ok (JNum 0).

(** [m.confidence_record?.confidenceLevel ?? 0] (lines 487 and 519). *)
Definition level_chained (m : JSVal) : Result JSVal :=
  cr ← getProp m "confidence_record";
  Ok (js_coalesce (getOpt cr "confidenceLevel") (JNum 0)).

(** The confidence filter of searchMasjids: does the chip list contain
    [String(level)]?  (lines 228-229, and 487-488 in the second copy). *)
Definition keeps_level (chips : list string) (level : JSVal) : Result bool :=
  key ← ToString level; Ok (existsb (String.eqb key) chips).

(** Does the record stay in the list?  The filter runs only when a chip
    is active ([confidenceLevels.length > 0], lines 226 and 485); with no
    chip active every record stays and no level is read. *)
Definition searchMasjids_filter (chips : list string) (m : JSVal) : Result bool :=
  match chips with
  | [] => Ok true
  | _ => level ← level_guarded m; keeps_level chips level
  end.

Definition searchMasjids_filter' (chips : list string) (m : JSVal) : Result bool :=
  match chips with
  | [] => Ok true
  | _ => level ← level_chained m; keeps_level chips level
  end.

(** ** masjidCardHTML (lines 88-115) *)

(** JavaScript's [\s] among the code units below 256. *)
Definition is_space (c : ascii) : bool :=
  let n := nat_of_ascii c in
  (Nat.leb 9 n && Nat.leb n 13) || Nat.eqb n 32 || Nat.eqb n 160.

Fixpoint drop_spaces (s : string) : string :=
  match s with
  | String c rest => if is_space c then drop_spaces rest else s
  | EmptyString => EmptyString
  end.

Fixpoint all_spaces (s : string) : bool :=
  match s with
  | String c rest => is_space c && all_spaces rest
  | EmptyString => true
  end.

(** Removing the match of [,\s*$]: the comma after which only spaces
    follow, with those spaces. *)
Fixpoint strip_trailing_comma (s : string) : string :=
  match s with
  | EmptyString => EmptyString
  | String c rest =>
      if Ascii.eqb c "," && all_spaces rest then EmptyString
      else String c (strip_trailing_comma rest)
  end.

(** [.replace(/(^,\s*|,\s*$)/g, '')]. *)
Definition strip_commas (s : string) : string :=
  match s with
  | String c rest =>
      if Ascii.eqb c "," then strip_trailing_comma (drop_spaces rest)
      else strip_trailing_comma s
  | EmptyString => EmptyString
  end.

(** The values the card template interpolates, in the order of the
    template; the markup between them is fixed text. *)
Record Card : Type := {
  card_name : string;
  card_badge : string;
  card_city : string;
  card_desc : string;
  card_active : bool;
  card_id : string
}.

(** [`${loc.city || ''}, ${loc.country || ''}`.replace(...)]: the line
    of a location, each part converted as the template reaches it. *)
Definition location_line (loc : JSVal) : Result string :=
  c ← getProp loc "city";
  city ← ToString (js_or c (JStr ""));
  k ← getProp loc "country";
  country ← ToString (js_or k (JStr ""));
  Ok (strip_commas (city ++ ", " ++ country)).

Definition masjidCardHTML (m : JSVal) : Result Card :=
  loc ← getProp m "location_record";
  city ← (if truthy loc then location_line loc else Ok "Location unknown");
  level ← masjidCardHTML_level m;
  description ← getProp m "description";
  let desc := js_or description (JStr "No description available.") in
  name ← getProp m "name";
  name_html ← escHTML name;
  badge ← confidenceBadgeHTML level;
  city_html ← escHTML (JStr city);
  desc_html ← escHTML desc;
  isActive ← getProp m "isActive";
  masjidID ← getProp m "masjidID";
  id ← ToString masjidID;
  Ok {| card_name := name_html;
        card_badge := badge;
        card_city := city_html;
        card_desc := desc_html;
        card_active := truthy isActive;
        card_id := id |}.

(** ** Map popup of searchMasjids (line 248; lines 520-527 in the second copy) *)

Record Popup : Type := {
  popup_name : string;
  popup_city : string;
  popup_country : string;
  popup_badge : string;
  popup_id : string
}.

Definition popup_with (level : JSVal) (m loc : JSVal) : Result Popup :=
  name ← getProp m "name";
  name_html ← escHTML name;
  c ← getProp loc "city";
  city_html ← escHTML (js_or c (JStr ""));
  k ← getProp loc "country";
  country_html ← escHTML (js_or k (JStr ""));
  badge ← confidenceBadgeHTML level;
  masjidID ← getProp m "masjidID";
  id ← ToString masjidID;
  Ok {| popup_name := name_html;
        popup_city := city_html;
        popup_country := country_html;
        popup_badge := badge;
        popup_id := id |}.

Definition searchMasjids_popup (m loc : JSVal) : Result Popup :=
  level ← level_guarded m; popup_with level m loc.

Definition searchMasjids_popup' (m loc : JSVal) : Result Popup :=
  level ← level_chained m; popup_with level m loc.

(** ** Detail page: the confidence badge (lines 276-278) *)

Definition initDetail_confidence (m : JSVal) : Result string :=
  level ← level_guarded m; confidenceBadgeHTML level.

(** ** Verify list (lines 318-328) *)

Record VerifyItem : Type := {
  item_name : string;
  item_id_text : string;
  item_badge : string;
  item_link_id : string
}.

Definition initVerify_item (m : JSVal) : Result VerifyItem :=
  level ← level_guarded m;
  name ← getProp m "name";
  name_html ← escHTML name;
  masjidID ← getProp m "masjidID";
  id_html ← escHTML masjidID;
  badge ← confidenceBadgeHTML level;
  id ← ToString masjidID;
  Ok {| item_name := name_html;
        item_id_text := id_html;
        item_badge := badge;
        item_link_id := id |}.

(** ** Detail page: the badge list (lines 606-617) *)

Record BadgeRow : Type := {
  row_shield : string;
  row_icon : string;
  row_label : string;
  row_id : string;
  row_issued : JSVal;
  row_expires : option JSVal
}.

(** [b.isActive && !b.isRevoked], the test the row makes three times. *)
Definition badge_shown_valid (b : JSVal) : Result bool :=
  isActive ← getProp b "isActive";
  if truthy isActive
  then isRevoked ← getProp b "isRevoked"; Ok (negb (truthy isRevoked))
  else Ok false.

(** [String(b.badgeID)] and the two [new Date(...)] convert their
    argument, so an identifier or a date that cannot be converted ends the
    row in a [TypeError]. *)
Definition initDetail_badge_row (b : JSVal) : Result BadgeRow :=
  v1 ← badge_shown_valid b;
  v2 ← badge_shown_valid b;
  v3 ← badge_shown_valid b;
  badgeID ← getProp b "badgeID";
  id ← ToString badgeID;
  issueDate ← getProp b "issueDate";
  issued ← new_Date issueDate;
  expiryDate ← getProp b "expiryDate";
  expires ← (if truthy expiryDate
             then d ← new_Date expiryDate; Ok (Some d)
             else Ok None);
  Ok {| row_shield := if v1 : bool then "gold" else "";
        row_icon := if v2 : bool then "fa-certificate" else "fa-times-circle";
        row_label := if v3 : bool then "Valid" else "Revoked";
        row_id := String.substring 0 8 id;
        row_issued := issued;
        row_expires := expires |}.

(** The badge of the data model, and the rule of effective validity as the
    specification words it: [active && !revoked && (expiry is absent ||
    expiry > now)], times in milliseconds. *)
Record Badge : Type := {
  badge_id : string;
  badge_active : bool;
  badge_revoked : bool;
  badge_issued : Z;
  badge_expiry : option Z
}.

Definition spec_effective_validity (b : Badge) (now : Z) : bool :=
  badge_active b && negb (badge_revoked b)
  && match badge_expiry b with None => true | Some t => (now <? t)%Z end.

(** The record of a badge as the badges endpoint sends it; a time is sent
    as its milliseconds, which [new Date] reads as it reads a date text. *)
Definition badge_json (b : Badge) : JSVal :=
  JObj [ ("badgeID", JStr (badge_id b));
         ("isActive", JBool (badge_active b));
         ("isRevoked", JBool (badge_revoked b));
         ("issueDate", JNum (badge_issued b));
         ("expiryDate", match badge_expiry b with
                        | None => JNull
                        | Some t => JNum t
                        end) ].

(** ** The page of a badge verification (lines 654-686) *)

(** The content of the body element: fixed markup, or the details of a
    verified badge, whose dates the template formats for the locale. *)
Inductive VerifyBody : Type :=
| BodyText (html : string)
| BodyDetails (masjid : string) (issued expires : option JSVal) (masjidID : string).

Record VerifyPage : Type := {
  icon_class : string;
  icon_html : string;
  title_text : string;
  title_class : string;
  body_html : VerifyBody
}.

Definition icon (name : string) : string :=
  "<i class=" ++ dq ++ "fas " ++ name ++ dq ++ "></i>".

Definition page_verified (masjid : string) (issued expires : option JSVal)
           (masjidID : string) : VerifyPage :=
  {| icon_class := "verify-icon valid";
     icon_html := icon "fa-check";
     title_text := "Badge Verified";
     title_class := "verify-title text-success fw-bold fs-4";
     body_html := BodyDetails masjid issued expires masjidID |}.

(** The template of the details (lines 664-669), which converts the name,
    the two dates and the identifier as it reaches them. *)
Definition verified_details (data : JSVal) : Result VerifyPage :=
  masjid ← getProp data "masjid";
  masjid_html ← escHTML masjid;
  issuedAt ← getProp data "issuedAt";
  issued ← (if truthy issuedAt then d ← new_Date issuedAt; Ok (Some d) else Ok None);
  expiresAt ← getProp data "expiresAt";
  expires ← (if truthy expiresAt then d ← new_Date expiresAt; Ok (Some d) else Ok None);
  masjidID ← getProp data "masjidID";
  id ← ToString masjidID;
  Ok (page_verified masjid_html issued expires id).

Definition page_invalid : VerifyPage :=
  {| icon_class := "verify-icon invalid";
     icon_html := icon "fa-times";
     title_text := "Badge Invalid";
     title_class := "verify-title text-danger fw-bold fs-4";
     body_html :=
       BodyText "<p>This badge is <strong>no longer valid</strong>. It may have been revoked or expired.</p>" |}.

Definition page_not_found : VerifyPage :=
  {| icon_class := "verify-icon invalid";
     icon_html := icon "fa-question";
     title_text := "Badge Not Found";
     title_class := "verify-title text-danger fw-bold fs-4";
     body_html := BodyText "<p>No badge was found with this token.</p>" |}.

(** ** The report form and its alert (lines 1046-1059 and 1136-1149) *)

(** The form as read: the texts trimmed, the coordinates through
    [parseFloat] ([None] for [NaN]). *)
Record ReportForm : Type := {
  report_name : string;
  report_desc : string;
  report_city : string;
  report_country : string;
  report_region : string;
  report_lat : option Z;
  report_lng : option Z
}.

(** What the alert box shows when the submission ends: the request to fill
    in the required fields, the success text of an admin or of a user
    (around the escaped name), or the message of the caught error. *)
Inductive ReportAlert : Type :=
| MissingFields
| Added (name_html : string)
| Reported (name_html : string)
| Failed (e : JSError).

(** [Object.values(errData).flat().join(' ') || 'Failed to create masjid.']
    (line 1083).  The fields of a [JObj] are kept in enumeration order. *)
Definition Object_values (v : JSVal) : Result (list JSVal) :=
  match v with
  | JUndefined | JNull => Throw TypeError
  | JObj fields => Ok (map snd fields)
  | JArr items => Ok items
  | JStr s => Ok (map (fun c => JStr (String c EmptyString)) (list_ascii_of_string s))
  | _ => Ok []
  end.

Definition flat (l : list JSVal) : list JSVal :=
  concat (map (fun x => match x with JArr xs => xs | _ => [x] end) l).

Fixpoint join (sep : string) (l : list JSVal) : Result string :=
  match l with
  | [] => Ok ""
  | x :: rest =>
      s ← (if nullish x then Ok "" else ToString x);
      match rest with
      | [] => Ok s
      | _ => t ← join sep rest; Ok (s ++ sep ++ t)
      end
  end.

Definition creation_error (errData : JSVal) : Result string :=
  vals ← Object_values errData;
  msg ← join " " (flat vals);
  Ok (if truthy (JStr msg) then msg else "Failed to create masjid.").

(** ** The world of the client: localStorage and the network *)

(** Which function of the client issued a [fetch]. *)
Inductive Caller : Type :=
| ByAuthFetch
| ByRefreshToken
| ByApiFetch.

(** A request as [fetch] receives it.  [body] is the value given to
    [JSON.stringify]; [query] holds the search parameters of a [URL]. *)
Record Request : Type := {
  url : string;
  query : list (string * string);
  method : string;
  headers : gmap string string;
  body : option JSVal
}.

(** A response: its status, and the result of [res.json()] ([None] when
    the body is not JSON). *)
Record Response : Type := {
  status : Z;
  json : option JSVal
}.

Definition ok (r : Response) : bool := (200 <=? status r)%Z && (status r <=? 299)%Z.

Inductive FetchOutcome : Type :=
| NoResponse
| Responded (r : Response).

Definition Event : Type := Caller * Request.

Record World : Type := {
  storage : gmap string string;
  log : list Event
}.

Definition M (A : Type) : Type := World -> Result A * World.

#[export] Instance M_ret : MRet M := fun _ a w => (Ok a, w).
#[export] Instance M_bind : MBind M :=
  fun _ _ f m w =>
    match m w with
    | (Ok a, w') => f a w'
    | (Throw e, w') => (Throw e, w')
    end.

Definition throw {A : Type} (e : JSError) : M A := fun w => (Throw e, w).

(** [try { m } catch (e) { h e }]. *)
Definition try_catch {A : Type} (m : M A) (h : JSError -> M A) : M A :=
  fun w =>
    match m w with
    | (Ok a, w') => (Ok a, w')
    | (Throw e, w') => h e w'
    end.

(** A pure computation that may throw, run inside [M]. *)
Definition lift {A : Type} (r : Result A) : M A := fun w => (r, w).

Definition getItem (k : string) : M (option string) :=
  fun w => (Ok (storage w !! k), w).

Definition setItem (k v : string) : M unit :=
  fun w => (Ok tt, {| storage := <[k := v]> (storage w); log := log w |}).

Definition removeItem (k : string) : M unit :=
  fun w => (Ok tt, {| storage := delete k (storage w); log := log w |}).

(** [localStorage.setItem(k, v)] for any value: the value is converted to
    a string first, and nothing is stored when that fails. *)
Definition setItem_value (k : string) (v : JSVal) : M unit :=
  text ← lift (ToString v); setItem k text.

(** The value of [localStorage.getItem]: a string, or [null]. *)
Definition stored (o : option string) : JSVal :=
  match o with
  | Some s => JStr s
  | None => JNull
  end.

(** The text of a value of [getItem] where a string is built from it:
    the stored string, and [null] as a template prints it. *)
Definition stored_text (o : option string) : string := default "null" o.

(** [getItem(k) || d] for a string [d]. *)
Definition stored_or (o : option string) (d : string) : string :=
  if truthy (stored o) then stored_text o else d.

(** The options object of a [fetch]; a missing member is [None]. *)
Record Options : Type := {
  opt_method : option string;
  opt_headers : option (gmap string string);
  opt_body : option JSVal
}.

Definition request_of (u : string) (o : Options) : Request :=
  {| url := u;
     query := [];
     method := default "GET" (opt_method o);
     headers := default ∅ (opt_headers o);
     body := opt_body o |}.

(** [options.headers[k] = v]. *)
Definition set_header (k v : string) (o : Options) : Options :=
  {| opt_method := opt_method o;
     opt_headers := Some (<[k := v]> (default ∅ (opt_headers o)));
     opt_body := opt_body o |}.

Definition json_headers : gmap string string :=
  {[ "Content-Type" := "application/json" ]}.

Definition post_json (b : JSVal) : Options :=
  {| opt_method := Some "POST";
     opt_headers := Some json_headers;
     opt_body := Some b |}.

(** The server answers a request knowing what was sent before it. *)
Definition Server : Type := list Event -> Request -> FetchOutcome.

Definition fetch (server : Server) (c : Caller) (rq : Request) : M Response :=
  fun w =>
    let w' := {| storage := storage w; log := log w ++ [(c, rq)] |} in
    match server (log w) rq with
    | NoResponse => (Throw NetworkError, w')
    | Responded r => (Ok r, w')
    end.

(** [res.json()]. *)
Definition res_json (r : Response) : M JSVal :=
  match json r with
  | Some v => mret v
  | None => throw SyntaxError
  end.

(** The request of [Auth.refreshToken] (lines 36-40). *)
Definition refresh_request (refresh : string) : Request :=
  request_of "/api/token/refresh/" (post_json (JObj [("refresh", JStr refresh)])).

(** ** Auth (lines 11-48) *)

Module Auth.

Definition getAccess : M (option string) := getItem "al_access".
Definition getRefresh : M (option string) := getItem "al_refresh".

(** [JSON_parse] is [JSON.parse] on a stored text; [None] is a
    [SyntaxError]. *)
Definition getUser (JSON_parse : string -> option JSVal) : M JSVal :=
  u ← getItem "al_user";
  match JSON_parse (stored_or u "null") with
  | Some v => mret v
  | None => throw SyntaxError
  end.

(** [JSON_stringify] is [JSON.stringify] on the user record. *)
Definition save (JSON_stringify : JSVal -> string) (access refresh user : JSVal) : M unit :=
  _ ← setItem_value "al_access" access;
  _ ← setItem_value "al_refresh" refresh;
  setItem "al_user" (JSON_stringify user).

Definition clear : M unit :=
  _ ← removeItem "al_access";
  _ ← removeItem "al_refresh";
  removeItem "al_user".

Definition isLoggedIn : M bool :=
  a ← getAccess; mret (truthy (stored a)).

Definition refreshToken (server : Server) : M bool :=
  refresh ← getRefresh;
  if negb (truthy (stored refresh)) then mret false
  else
    try_catch
      (res ← fetch server ByRefreshToken (refresh_request (stored_text refresh));
       if negb (ok res) then _ ← clear; mret false
       else
         data ← res_json res;
         access ← lift (getProp data "access");
         _ ← setItem_value "al_access" access;
         new_refresh ← lift (getProp data "refresh");
         _ ← (if truthy new_refresh
              then setItem_value "al_refresh" new_refresh
              else mret tt);
         mret true)
      (fun _ => _ ← clear; mret false).

End Auth.

Section Client.

Variable server : Server.
Variable JSON_parse : string -> option JSVal.

(** ** authFetch (lines 51-64) *)

(** The options after lines 52-54: a headers object exists, and it
    carries the stored access token when there is one. *)
Definition with_token (token : option string) (options : Options) : Options :=
  let options :=
    match opt_headers options with
    | Some _ => options
    | None => {| opt_method := opt_method options;
                 opt_headers := Some ∅;
                 opt_body := opt_body options |}
    end in
  if truthy (stored token)
  then set_header "Authorization" ("Bearer " ++ stored_text token) options
  else options.

Definition authFetch (u : string) (options : Options) : M Response :=
  token ← Auth.getAccess;
  let options := with_token token options in
  res ← fetch server ByAuthFetch (request_of u options);
  refresh ← (if (status res =? 401)%Z then Auth.getRefresh else mret None);
  if (status res =? 401)%Z && truthy (stored refresh) then
    refreshed ← Auth.refreshToken server;
    if refreshed : bool then
      access ← Auth.getAccess;
      let options :=
        set_header "Authorization" ("Bearer " ++ stored_text access) options in
      fetch server ByAuthFetch (request_of u options)
    else mret res
  else mret res.

(** ** apiFetch (lines 67-75) *)

(** Is the parameter set?  Not when its value is [undefined], [null] or
    the empty string (line 70). *)
Definition param_given (v : JSVal) : bool :=
  match v with
  | JUndefined | JNull => false
  | JStr s => negb (String.eqb s "")
  | _ => true
  end.

(** The search parameters that are set, in the order of the entries of
    [params] (an object, so the keys differ); [searchParams.set] converts
    each value to a string, and throws where that fails. *)
Fixpoint search_params (params : list (string * JSVal)) : Result (list (string * string)) :=
  match params with
  | [] => Ok []
  | (k, v) :: rest =>
      if param_given v
      then text ← ToString v; q ← search_params rest; Ok ((k, text) :: q)
      else search_params rest
  end.

(** The request of apiFetch: a GET without headers, to the endpoint with
    its search parameters. *)
Definition api_request (endpoint : string) (q : list (string * string)) : Request :=
  {| url := endpoint; query := q; method := "GET"; headers := ∅; body := None |}.

(** The endpoints of this client all begin with [/api/] ([API], line 6),
    and [new URL(endpoint, window.location.origin)] accepts every such
    address. *)
Definition apiFetch (endpoint : string) (params : list (string * JSVal)) : M JSVal :=
  q ← lift (search_params params);
  res ← fetch server ByApiFetch (api_request endpoint q);
  if negb (ok res) then throw (ErrorMsg ("API " ++ string_of_Z (status res)))
  else res_json res.

(** ** Verify page (lines 646-688) *)

Definition initVerify (card : option string) : M (option VerifyPage) :=
  match card with
  | None => mret None
  | Some token =>
      if negb (truthy (JStr token)) then mret None
      else
        try_catch
          (data ← apiFetch ("/api/verify/" ++ token ++ "/") [];
           valid ← lift (getProp data "valid");
           if truthy valid then
             page ← lift (verified_details data); mret (Some page)
           else mret (Some page_invalid))
          (fun _ => mret (Some page_not_found))
  end.

(** ** submitMasjidReport (lines 1043-1155) *)

Definition masjid_body (isAdmin : bool) (f : ReportForm) : JSVal :=
  JObj [ ("name", JStr (report_name f));
         ("description", js_or (JStr (report_desc f)) JNull);
         ("isActive", JBool isAdmin) ].

Definition location_body (masjidID : JSVal) (lat lng : Z) (f : ReportForm) : JSVal :=
  JObj [ ("masjid", masjidID);
         ("latitude", JNum lat);
         ("longitude", JNum lng);
         ("city", JStr (report_city f));
         ("country", JStr (report_country f));
         ("region", js_or (JStr (report_region f)) JNull) ].

Definition signal_body (isAdmin : bool) (masjidID user : JSVal) : JSVal :=
  JObj ([ ("masjid", masjidID);
          ("signalType", JStr (if isAdmin then "ADMIN_VERIFY" else "ACTIVE"));
          ("sourceType", JStr (if isAdmin then "ADMIN" else "USER"));
          ("description",
            JStr (if isAdmin then "Masjid admin direct submission"
                  else "Community report — initial signal")) ]
        ++ (if truthy (getOpt user "username")
            then [("user", getOpt user "username")]
            else [])).

Definition admin_link_body (masjidID user : JSVal) : JSVal :=
  JObj [ ("user", getOpt user "username");
         ("masjid", masjidID);
         ("verifiedIdentity", JBool false) ].

Definition submitMasjidReport (isAdmin : bool) (f : ReportForm) : M ReportAlert :=
  match report_lat f, report_lng f with
  | Some lat, Some lng =>
      if negb (truthy (JStr (report_name f)))
         || negb (truthy (JStr (report_city f)))
         || negb (truthy (JStr (report_country f)))
      then mret MissingFields
      else
        try_catch
          (masjidRes ← authFetch "/api/masjids/" (post_json (masjid_body isAdmin f));
           _ ← (if negb (ok masjidRes)
                then msg ← lift (creation_error (default (JObj []) (json masjidRes)));
                     throw (ErrorMsg msg)
                else mret tt);
           masjid ← res_json masjidRes;
           masjidID ← lift (getProp masjid "masjidID");
           locRes ← authFetch "/api/location-records/"
                      (post_json (location_body masjidID lat lng f));
           user ← Auth.getUser JSON_parse;
           _ ← authFetch "/api/signals/" (post_json (signal_body isAdmin masjidID user));
           _ ← (if isAdmin && truthy (getOpt user "username")
                then _ ← authFetch "/api/masjid-admins/"
                           (post_json (admin_link_body masjidID user));
                     mret tt
                else mret tt);
           name_html ← lift (escHTML (JStr (report_name f)));
           mret (if isAdmin then Added name_html else Reported name_html))
          (fun e => mret (Failed e))
  | _, _ => mret MissingFields
  end.

End Client.

(** ** Scenarios *)

(** The stored identity of a logged-in user, and a reading of the two
    texts the scenarios store. *)
Definition amina_text : string :=
  "{" ++ dq ++ "username" ++ dq ++ ":" ++ dq ++ "amina" ++ dq ++ "}".

Definition parse_known (s : string) : option JSVal :=
  if String.eqb s "null" then Some JNull
  else if String.eqb s amina_text then Some (JObj [("username", JStr "amina")])
  else None.

Definition session (access refresh : string) : World :=
  {| storage := {[ "al_access" := access; "al_refresh" := refresh; "al_user" := amina_text ]};
     log := [] |}.

Definition answer (code : Z) (data : JSVal) : FetchOutcome :=
  Responded {| status := code; json := Some data |}.

(** No network. *)
Definition offline : list Event -> Request -> FetchOutcome :=
  fun _ _ => NoResponse.

(** Every request is accepted and answered with the created record. *)
Definition accepting : list Event -> Request -> FetchOutcome :=
  fun _ _ => answer 201 (JObj [("masjidID", JNum 7)]).

(** The access token has expired: the first request is refused, the
    refresh is granted, later requests are accepted. *)
Definition expired_then_renewed : list Event -> Request -> FetchOutcome :=
  fun past _ =>
    match past with
    | [] => answer 401 (JObj [("detail", JStr "Token expired")])
    | [_] => answer 200 (JObj [("access", JStr "access-2")])
    | _ => answer 201 (JObj [("masjidID", JNum 7)])
    end.

(** Both tokens have expired: the request and the refresh are refused. *)
Definition expired_for_good : list Event -> Request -> FetchOutcome :=
  fun _ _ => answer 401 (JObj [("detail", JStr "Token expired")]).

(** A verification endpoint that knows one badge, revoked, and answers
    any other token with the not-found status. *)
Definition verify_server : list Event -> Request -> FetchOutcome :=
  fun _ rq =>
    if String.eqb (url rq) "/api/verify/revoked-badge/"
    then answer 200 (JObj [("valid", JBool false)])
    else answer 404 (JObj [("detail", JStr "Not found.")]).

Definition al_noor : ReportForm :=
  {| report_name := "Al-Noor";
     report_desc := "";
     report_city := "Doha";
     report_country := "QA - State of Qatar";
     report_region := "";
     report_lat := Some 25;
     report_lng := Some 51 |}.

(** The requests a run adds to the log. *)
Definition sent {A : Type} (m : M A) (w : World) : list Event :=
  drop (length (log w)) (log (m w).2).

(** A member of the body of a request. *)
Definition field (rq : Request) (k : string) : JSVal :=
  match body rq with
  | Some b => getOpt b k
  | None => JUndefined
  end.

Definition same_caller (c c' : Caller) : bool :=
  match c, c' with
  | ByAuthFetch, ByAuthFetch | ByRefreshToken, ByRefreshToken | ByApiFetch, ByApiFetch => true
  | _, _ => false
  end.

(** How many of the requests were issued by [c]. *)
Definition calls_by (c : Caller) (evs : list Event) : nat :=
  length (List.filter (fun e => same_caller c e.1) evs).

(** A record without a confidence level: [confidence_record] is missing,
    [undefined] or [null], or it is an object whose [confidenceLevel] is
    [null] or missing. *)
Definition lacks_confidence (m : JSVal) : bool :=
  match m with
  | JObj fields =>
      match own fields "confidence_record" with
      | None | Some JUndefined | Some JNull => true
      | Some (JObj cr) =>
          match own cr "confidenceLevel" with
          | None | Some JNull => true
          | Some _ => false
          end
      | Some _ => false
      end
  | _ => false
  end.

(** ** Notions the statements use *)

(** The storage after [Auth.clear]. *)
Definition cleared (st : gmap string string) : gmap string string :=
  delete "al_user" (delete "al_refresh" (delete "al_access" st)).

(** The tokens a body grants: the text of its [access] member and, when
    its [refresh] member is truthy, the text of that one.  [Throw] on
    [null] and where a member cannot be converted to a string. *)
Definition granted_tokens (data : JSVal) : Result (string * option string) :=
  access ← getProp data "access";
  a ← ToString access;
  new_refresh ← getProp data "refresh";
  r ← (if truthy new_refresh then t ← ToString new_refresh; Ok (Some t) else Ok None);
  Ok (a, r).

(** The tokens of a granted refresh: the response is ok, its body is JSON
    other than [null], and the tokens it carries can be stored.  [None]
    when no response arrives, when the status is not ok, and when the body
    or a token in it cannot be read. *)
Definition refresh_data (o : FetchOutcome) : option (string * option string) :=
  match o with
  | NoResponse => None
  | Responded r =>
      if ok r then
        match json r with
        | Some data =>
            match granted_tokens data with
            | Ok tokens => Some tokens
            | Throw _ => None
            end
        | None => None
        end
      else None
  end.

(** The storage after a granted refresh. *)
Definition renewed (tokens : string * option string) (st : gmap string string) :
  gmap string string :=
  let st' := <["al_access" := tokens.1]> st in
  match tokens.2 with
  | Some r => <["al_refresh" := r]> st'
  | None => st'
  end.

(** The request authFetch issues first, and the one it issues after a
    granted refresh. *)
Definition first_request (u : string) (options : Options) (w : World) : Request :=
  request_of u (with_token (storage w !! "al_access") options).

Definition retry_request (u : string) (options : Options) (w : World) (access : string) :
  Request :=
  request_of u
    (set_header "Authorization" ("Bearer " ++ access)
       (with_token (storage w !! "al_access") options)).

Definition logged (w : World) (evs : list Event) (st : gmap string string) : World :=
  {| storage := st; log := log w ++ evs |}.

(** What authFetch may send: the request first, then at most the refresh,
    then at most the request once more. *)
Inductive authFetch_trace (u : string) (options : Options) (w : World) :
  list Event -> Prop :=
| trace_once :
    authFetch_trace u options w [(ByAuthFetch, first_request u options w)]
| trace_refresh_failed rt :
    authFetch_trace u options w
      [(ByAuthFetch, first_request u options w); (ByRefreshToken, refresh_request rt)]
| trace_retried rt access :
    authFetch_trace u options w
      [(ByAuthFetch, first_request u options w); (ByRefreshToken, refresh_request rt);
       (ByAuthFetch, retry_request u options w access)].

(** The lookup that initVerify sends for a token. *)
Definition verify_request (token : string) : Request :=
  api_request ("/api/verify/" ++ token ++ "/") [].

(** What a request of a submission by [isAdmin] must carry: the masjid is
    created with [isActive] equal to [isAdmin], and the signal has the type
    and the source the role gives it. *)
Definition submission_event (isAdmin : bool) (e : Event) : Prop :=
  (url e.2 = "/api/masjids/" -> field e.2 "isActive" = JBool isAdmin)
  /\ (url e.2 = "/api/signals/" ->
      field e.2 "signalType" = JStr (if isAdmin then "ADMIN_VERIFY" else "ACTIVE")
      /\ field e.2 "sourceType" = JStr (if isAdmin then "ADMIN" else "USER")).

(** Was a request sent to [u]? *)
Definition sent_to (u : string) (evs : list Event) : Prop :=
  Exists (fun e => url e.2 = u) evs.

(** [sends P need m]: whatever the world, [m] only adds to the log, every
    request it adds satisfies [P], and when [m] returns normally a request
    was sent to each address of [need]. *)
Definition sends {A : Type} (P : Event -> Prop) (need : list string) (m : M A) : Prop :=
  forall w, exists evs,
    log (m w).2 = (log w ++ evs)%list
    /\ Forall P evs
    /\ (forall a, (m w).1 = Ok a -> Forall (fun u => sent_to u evs) need).

(** ** Further parts of the client *)

(** [v === s] for a string [s]. *)
Definition strict_eq_string (v : JSVal) (s : string) : bool :=
  match v with
  | JStr t => String.eqb t s
  | _ => false
  end.

(** [v === 0]. *)
Definition strict_eq_zero (v : JSVal) : bool :=
  match v with
  | JNum n => (n =? 0)%Z
  | _ => false
  end.

(** [v.length]: the number of elements or code units, the own property of
    an object, [undefined] on a number or a boolean. *)
Definition js_length (v : JSVal) : Result JSVal :=
  match v with
  | JUndefined | JNull => Throw TypeError
  | JArr items => Ok (JNum (Z.of_nat (length items)))
  | JStr s => Ok (JNum (Z.of_nat (String.length s)))
  | JObj fields => Ok (default JUndefined (own fields "length"))
  | _ => Ok JUndefined
  end.

(** [data.results || data] (lines 162, 219, 311, 464 and 1166). *)
Definition results_of (data : JSVal) : Result JSVal :=
  r ← getProp data "results"; Ok (js_or r data).

(** [v.slice(0, n).map(f)]: only an array has both methods; on any other
    value the call is a [TypeError]. *)
Definition slice_map {A : Type} (n : nat) (f : JSVal -> Result A) (v : JSVal) :
  Result (list A) :=
  match v with
  | JArr items => mapM f (take n items)
  | _ => Throw TypeError
  end.

(** [v.map(f)]. *)
Definition array_map {A : Type} (f : JSVal -> Result A) (v : JSVal) : Result (list A) :=
  match v with
  | JArr items => mapM f items
  | _ => Throw TypeError
  end.

(** *** The info table of the detail page (lines 279-295) *)

(** A cell of the table: markup, or a date the page formats for the
    locale. *)
Inductive Cell : Type :=
| CellHTML (html : string)
| CellDate (v : JSVal).

(** The rows as line 294 appends them.  The array of line 280 is built
    first, which converts the website address and the date; the loop then
    converts each cell as it concatenates it.  When a conversion throws,
    the page shows its error text in place of the whole container. *)
Definition initDetail_rows (m loc : JSVal) : Result (list (string * Cell)) :=
  masjidID ← getProp m "masjidID";
  name ← getProp m "name";
  masjid_type ← getProp m "masjid_type";
  country ← getProp loc "country";
  city ← getProp loc "city";
  address ← getProp loc "address";
  madhab ← getProp m "madhab";
  contactInfo ← getProp m "contactInfo";
  websiteURL ← getProp m "websiteURL";
  website ← (if truthy websiteURL
             then href ← escHTML websiteURL;
                  text ← escHTML websiteURL;
                  Ok ("<a href=" ++ dq ++ href ++ dq ++ " target="
                      ++ dq ++ "_blank" ++ dq ++ ">" ++ text ++ "</a>")
             else Ok "N/A");
  created_at ← getProp m "created_at";
  added ← (if truthy created_at
           then d ← new_Date created_at; Ok (CellDate d)
           else Ok (CellHTML "N/A"));
  id_cell ← ToString masjidID;
  name_cell ← ToString name;
  type_cell ← ToString (js_or masjid_type (JStr "N/A"));
  country_cell ← ToString (js_or country (JStr "N/A"));
  city_cell ← ToString (js_or city (JStr "N/A"));
  address_cell ← ToString (js_or address (JStr "N/A"));
  madhab_cell ← ToString (js_or madhab (JStr "N/A"));
  contact_cell ← ToString (js_or contactInfo (JStr "N/A"));
  Ok [ ("Masjid ID", CellHTML id_cell);
       ("Name", CellHTML name_cell);
       ("Type", CellHTML type_cell);
       ("Country", CellHTML country_cell);
       ("City", CellHTML city_cell);
       ("Address", CellHTML address_cell);
       ("Madhab", CellHTML madhab_cell);
       ("Contact", CellHTML contact_cell);
       ("Website", CellHTML website);
       ("Added", added) ].

(** The markup appended for a row whose cell is markup (line 294). *)
Definition row_html (label cell : string) : string :=
  "<tr><th>" ++ label ++ "</th><td>" ++ cell ++ "</td></tr>".

(** *** Pending masjids (lines 1158-1227) *)

Record PendingCard : Type := {
  pending_name : string;
  pending_city : string;
  pending_desc : string;
  pending_id : string
}.

(** The section stays hidden, or is revealed with its cards; when
    rendering throws after the reveal the grid is left as it was. *)
Inductive PendingSection : Type :=
| PendingHidden
| PendingShown (cards : list PendingCard)
| PendingBroken.

Definition pending_card (m : JSVal) : Result PendingCard :=
  loc ← getProp m "location_record";
  city ← (if truthy loc then location_line loc else Ok "Unknown");
  name ← getProp m "name";
  name_html ← escHTML name;
  city_html ← escHTML (JStr city);
  description ← getProp m "description";
  desc_html ← escHTML (js_or description (JStr "No description."));
  masjidID ← getProp m "masjidID";
  id ← ToString masjidID;
  Ok {| pending_name := name_html;
        pending_city := city_html;
        pending_desc := desc_html;
        pending_id := id |}.

(** The state of a verify button after its click (lines 1213-1218). *)
Inductive VerifyButton : Type :=
| ButtonVerified
| ButtonFailed.

Definition corroboration_body (masjidId : string) (user : JSVal) : JSVal :=
  JObj [ ("masjid", JStr masjidId);
         ("signalType", JStr "ACTIVE");
         ("sourceType", JStr "USER");
         ("description", JStr "Community verification signal");
         ("user", js_or (getOpt user "username") JNull) ].

(** *** Featured masjids (lines 157-166) *)

(** [initScrollAnimations], which this list and the pending list call
    last, only registers the new cards with the browser's
    [IntersectionObserver]; it is taken to return. *)

Inductive Featured : Type :=
| FeaturedCards (cards : list Card)
| FeaturedUnavailable.

(** *** The report page (lines 933-988) *)

Inductive ReportPage : Type :=
| AuthWall
| ReportFormFor (isAdmin : bool) (pending : option PendingSection).

Section Pages.

Variable server : Server.
Variable JSON_parse : string -> option JSVal.

Definition loadPendingMasjids : M PendingSection :=
  try_catch
    (data ← apiFetch server "/api/masjids/"
              [("isActive", JBool false); ("ordering", JStr "-created_at")];
     masjids ← lift (results_of data);
     len ← lift (js_length masjids);
     if strict_eq_zero len then mret PendingHidden
     else
       try_catch
         (cards ← lift (slice_map 6 pending_card masjids); mret (PendingShown cards))
         (fun _ => mret PendingBroken))
    (fun _ => mret PendingHidden).

(** The click on a verify button (lines 1195-1220). *)
Definition verify_pending_click (masjidId : string) : M VerifyButton :=
  user ← Auth.getUser JSON_parse;
  try_catch
    (_ ← authFetch server "/api/signals/" (post_json (corroboration_body masjidId user));
     mret ButtonVerified)
    (fun _ => mret ButtonFailed).

Definition loadFeatured : M Featured :=
  try_catch
    (data ← apiFetch server "/api/masjids/"
              [("page_size", JNum 6); ("ordering", JStr "-created_at")];
     masjids ← lift (results_of data);
     cards ← lift (array_map masjidCardHTML masjids);
     mret (FeaturedCards cards))
    (fun _ => mret FeaturedUnavailable).

(** initReport on the report page: the role is read from the stored user;
    a user who is no admin is shown the pending masjids. *)
Definition initReport : M ReportPage :=
  user ← Auth.getUser JSON_parse;
  logged ← Auth.isLoggedIn;
  if negb logged then mret AuthWall
  else
    let isAdmin := strict_eq_string (getOpt user "accountType") "masjid_admin" in
    if isAdmin then mret (ReportFormFor true None)
    else pending ← loadPendingMasjids; mret (ReportFormFor false (Some pending)).

(** The report page from its load to the end of a submission. *)
Definition report_then_submit (f : ReportForm) : M (option ReportAlert) :=
  page ← initReport;
  match page with
  | AuthWall => mret None
  | ReportFormFor isAdmin _ =>
      alert ← submitMasjidReport server JSON_parse isAdmin f; mret (Some alert)
  end.

End Pages.

(** *** Notions for the statements on these parts *)

(** The code units the serialisation of a text node rewrites. *)
Definition needs_escape (c : ascii) : bool :=
  Ascii.eqb c "&" || Ascii.eqb c "<" || Ascii.eqb c ">"
  || Ascii.eqb c (ascii_of_nat 160).

Fixpoint plain_text (s : string) : bool :=
  match s with
  | EmptyString => true
  | String c rest => negb (needs_escape c) && plain_text rest
  end.

(** What the location line of a card reads for a city [c] and a country
    [k] without commas: both, or the one that is there. *)
Definition city_line (c k : string) : string :=
  if String.eqb c "" then drop_spaces k
  else if all_spaces k then c
  else c ++ ", " ++ k.

(** Can the value be converted to a string? *)
Definition converts (v : JSVal) : bool :=
  match ToString v with
  | Ok _ => true
  | Throw _ => false
  end.

(** The two list requests of the report page and of the home page. *)
Definition pending_request : Request :=
  api_request "/api/masjids/" [("isActive", "false"); ("ordering", "-created_at")].

Definition featured_request : Request :=
  api_request "/api/masjids/" [("page_size", "6"); ("ordering", "-created_at")].

(** An object that cannot be converted: its [toString] member, read from
    JSON, is no function. *)
Definition unprintable : JSVal := JObj [("toString", JNum 1)].

(** The test of line 1054: a required text is empty or a coordinate is
    not a number. *)
Definition incomplete (f : ReportForm) : bool :=
  negb (truthy (JStr (report_name f)))
  || negb (truthy (JStr (report_city f)))
  || negb (truthy (JStr (report_country f)))
  || match report_lat f with None => true | Some _ => false end
  || match report_lng f with None => true | Some _ => false end.

(** The requests a submission sends when no answer is a 401. *)
Definition submission_requests (isAdmin : bool) (f : ReportForm) (lat lng : Z)
           (masjidID user : JSVal) (w : World) : list Event :=
  [ (ByAuthFetch, first_request "/api/masjids/" (post_json (masjid_body isAdmin f)) w);
    (ByAuthFetch, first_request "/api/location-records/"
                    (post_json (location_body masjidID lat lng f)) w);
    (ByAuthFetch, first_request "/api/signals/"
                    (post_json (signal_body isAdmin masjidID user)) w) ]
  ++ (if isAdmin && truthy (getOpt user "username")
      then [(ByAuthFetch, first_request "/api/masjid-admins/"
                            (post_json (admin_link_body masjidID user)) w)]
      else []).

(** The text [Auth.getUser] parses in a world. *)
Definition user_text (w : World) : string :=
  stored_or (storage w !! "al_user") "null".

(** *** More scenarios *)

(** Every request is refused as a bad request. *)
Definition refusing : list Event -> Request -> FetchOutcome :=
  fun _ _ => answer 400 (JObj [("name", JArr [JStr "This field is required."])]).

(** A list endpoint with eight masjids awaiting verification. *)
Definition eight_pending : list Event -> Request -> FetchOutcome :=
  fun _ _ =>
    answer 200
      (JArr (map (fun n => JObj [("masjidID", JNum n); ("name", JStr "Masjid <b>")])
                 [1; 2; 3; 4; 5; 6; 7; 8]%Z)).

(** The refresh is granted and the request is refused all the same. *)
Definition refused_again : list Event -> Request -> FetchOutcome :=
  fun past _ =>
    match past with
    | [_] => answer 200 (JObj [("access", JStr "access-2")])
    | _ => answer 401 (JObj [("detail", JStr "Token expired")])
    end.

(** A list endpoint with one masjid whose name cannot be converted. *)
Definition one_unprintable : list Event -> Request -> FetchOutcome :=
  fun _ _ => answer 200 (JArr [JObj [("masjidID", JNum 1); ("name", unprintable)]]).

(** Nobody is logged in. *)
Definition anonymous : World := {| storage := ∅; log := [] |}.

(** Every request is answered with a fresh access token. *)
Definition granting : list Event -> Request -> FetchOutcome :=
  fun _ _ => answer 200 (JObj [("access", JStr "access-2")]).

(** The stored identity of a masjid admin, and a reading of the stored
    texts that knows it. *)
Definition admin_text : string :=
  "{" ++ dq ++ "username" ++ dq ++ ":" ++ dq ++ "bilal" ++ dq ++ ","
  ++ dq ++ "accountType" ++ dq ++ ":" ++ dq ++ "masjid_admin" ++ dq ++ "}".

Definition bilal : JSVal :=
  JObj [("username", JStr "bilal"); ("accountType", JStr "masjid_admin")].

Definition parse_roles (s : string) : option JSVal :=
  if String.eqb s "null" then Some JNull
  else if String.eqb s amina_text then Some (JObj [("username", JStr "amina")])
  else if String.eqb s admin_text then Some bilal
  else None.

Definition stringify_roles (v : JSVal) : string :=
  if strict_eq_string (getOpt v "accountType") "masjid_admin" then admin_text
  else amina_text.

(** A logged-in masjid admin. *)
Definition admin_session : World :=
  {| storage := {[ "al_access" := "access-1"; "al_refresh" := "refresh-1";
                   "al_user" := admin_text ]};
     log := [] |}.

(** A rendering of the one record the scenarios store. *)
Definition stringify_known (v : JSVal) : string := amina_text.

(** * Facts about the display helpers *)

Lemma string_of_Z_parses (n : Z) :
  NilZero.int_of_string (string_of_Z n) = Some (Z.to_int n).
Proof.
  unfold string_of_Z. apply NilZero.isi; destruct n; simpl; try discriminate;
    intros H; injection H; apply Unsigned.to_uint_nonnil.
Qed.

Lemma string_of_Z_inj (a b : Z) : string_of_Z a = string_of_Z b -> a = b.
Proof.
  intros H. apply DecimalZ.to_int_inj.
  pose proof (string_of_Z_parses a) as Ha. rewrite H, string_of_Z_parses in Ha.
  congruence.
Qed.

Lemma eqb_false_of_not_In (k : string) (l : list string) :
  ~ In k l -> existsb (String.eqb k) l = false.
Proof.
  induction l as [|x l IH]; intros H; simpl; [reflexivity|].
  destruct (String.eqb_spec k x) as [-> | _].
  - exfalso. apply H. now left.
  - apply IH. intros Hin. apply H. now right.
Qed.

Lemma own_None (fields : list (string * JSVal)) (k : string) :
  ~ In k (map fst fields) -> own fields k = None.
Proof.
  induction fields as [|[k' v] fields IH]; intros H; [reflexivity|].
  cbn [own]. destruct (String.eqb_spec k' k) as [-> | _].
  - exfalso. apply H. now left.
  - apply IH. intros Hin. apply H. now right.
Qed.

(** Reading a result back through the binds that gave it. *)
Ltac bind_inv H :=
  repeat match type of H with
  | mbind _ ?r = Ok _ =>
      let E := fresh "E" in
      destruct r eqn:E; [cbn [mbind Result_bind] in H | discriminate H]
  end.

(** A key that is none of the four levels and no inherited name falls back
    to the entry of level 0. *)
Lemma badge_info_fallback (level : JSVal) (key : string) :
  ToString level = Ok key ->
  ~ In key ["0"; "1"; "2"; "3"] ->
  ~ In key Object_prototype_names ->
  confidenceBadgeHTML level = Ok (level_markup 0).
Proof.
  intros Hk Hown Hproto. unfold confidenceBadgeHTML, badge_info, member.
  rewrite Hk. cbn [mbind Result_bind].
  rewrite (own_None badge_map key Hown).
  unfold inherited_name. rewrite (eqb_false_of_not_In _ _ Hproto). reflexivity.
Qed.

Lemma badge_of_key (level : JSVal) (n : Z) :
  (0 <= n <= 3)%Z -> ToString level = Ok (string_of_Z n) ->
  confidenceBadgeHTML level = Ok (level_markup n).
Proof.
  intros Hn Hk. unfold confidenceBadgeHTML, badge_info. rewrite Hk.
  assert (n = 0 \/ n = 1 \/ n = 2 \/ n = 3)%Z as [-> | [-> | [-> | ->]]] by lia;
    reflexivity.
Qed.

Lemma badge_of_other_number (n : Z) :
  ~ (0 <= n <= 3)%Z -> confidenceBadgeHTML (JNum n) = Ok (level_markup 0).
Proof.
  intros Hn. apply (badge_info_fallback (JNum n) (string_of_Z n) eq_refl); simpl.
  - intros [H | [H | [H | [H | []]]]];
      [ change "0" with (string_of_Z 0) in H | change "1" with (string_of_Z 1) in H
      | change "2" with (string_of_Z 2) in H | change "3" with (string_of_Z 3) in H ];
      apply string_of_Z_inj in H; lia.
  - intros H.
    repeat (destruct H as [H | H];
            [ pose proof (string_of_Z_parses n) as P; rewrite <- H in P; discriminate P |]).
    destruct H.
Qed.

Lemma badge_unconvertible (level : JSVal) (e : JSError) :
  ToString level = Throw e -> confidenceBadgeHTML level = Throw e.
Proof. intros H. unfold confidenceBadgeHTML, badge_info. now rewrite H. Qed.

Lemma ToString_own_toString (fields : list (string * JSVal)) :
  own fields "toString" <> None -> ToString (JObj fields) = Throw TypeError.
Proof. intros H. cbn [ToString]. now destruct (own fields "toString"). Qed.

(** C9 (as amended).  [confidenceBadgeHTML] looks the level up by its
    property key.  A level whose key is one of 0, 1, 2, 3 gets the markup
    of exactly that level, and every other level whose key is not a name
    inherited from [Object.prototype] gets the markup of level 0; among
    those are [undefined], [null], the booleans and every number outside
    0..3.  A level that cannot be converted to a key, such as an object
    with an own [toString] member, makes the function throw. *)
Theorem confidenceBadgeHTML_by_key :
  (forall level n, (0 <= n <= 3)%Z -> ToString level = Ok (string_of_Z n) ->
     confidenceBadgeHTML level = Ok (level_markup n))
  /\ (forall level key,
        ToString level = Ok key ->
        ~ In key ["0"; "1"; "2"; "3"] ->
        ~ In key Object_prototype_names ->
        confidenceBadgeHTML level = Ok (level_markup 0))
  /\ (forall level e, ToString level = Throw e -> confidenceBadgeHTML level = Throw e)
  /\ (forall fields, own fields "toString" <> None ->
        confidenceBadgeHTML (JObj fields) = Throw TypeError)
  /\ confidenceBadgeHTML JUndefined = Ok (level_markup 0)
  /\ confidenceBadgeHTML JNull = Ok (level_markup 0)
  /\ (forall b, confidenceBadgeHTML (JBool b) = Ok (level_markup 0))
  /\ (forall n, ~ (0 <= n <= 3)%Z -> confidenceBadgeHTML (JNum n) = Ok (level_markup 0))
  /\ (forall n, (0 <= n <= 3)%Z -> confidenceBadgeHTML (JNum n) = Ok (level_markup n)).
Proof.
  split; [apply badge_of_key|]. split; [apply badge_info_fallback|].
  split; [apply badge_unconvertible|].
  split; [intros fields H; apply badge_unconvertible; now apply ToString_own_toString|].
  split; [reflexivity|]. split; [reflexivity|].
  split; [intros []; reflexivity|].
  split; [apply badge_of_other_number|].
  intros n Hn. now apply badge_of_key.
Qed.

(** C9 (as stated) fails: the level ["constructor"] is outside 0..3, yet
    [map[level]] finds the inherited [Object.prototype.constructor], which
    is truthy, and the markup printed is that of no level. *)
Lemma confidenceBadgeHTML_inherited_key :
  ~ (forall level : JSVal,
       ~ In level [JNum 0; JNum 1; JNum 2; JNum 3] ->
       confidenceBadgeHTML level = Ok (level_markup 0)).
Proof.
  intros H. specialize (H (JStr "constructor")).
  assert (~ In (JStr "constructor") [JNum 0; JNum 1; JNum 2; JNum 3]) as Hout.
  { simpl. intros [E | [E | [E | [E | []]]]]; discriminate E. }
  specialize (H Hout). vm_compute in H. discriminate H.
Qed.

(** ** escHTML *)

Lemma occurs_app (c : ascii) (a b : string) :
  occurs c (a ++ b) = occurs c a || occurs c b.
Proof.
  induction a as [|x a IH]; simpl; [reflexivity|].
  rewrite IH. apply orb_assoc.
Qed.

Lemma escapeChar_no_angle (c : ascii) :
  occurs "<" (escapeChar c) = false /\ occurs ">" (escapeChar c) = false.
Proof.
  unfold escapeChar.
  destruct (Ascii.eqb_spec c "&"); [split; reflexivity|].
  destruct (Ascii.eqb_spec c "<"); [split; reflexivity|].
  destruct (Ascii.eqb_spec c ">"); [split; reflexivity|].
  destruct (Ascii.eqb_spec c (ascii_of_nat 160)); [split; reflexivity|].
  cbn [occurs]. split; rewrite orb_false_r; apply Ascii.eqb_neq; congruence.
Qed.

Lemma serializeText_no_angle (s : string) :
  occurs "<" (serializeText s) = false /\ occurs ">" (serializeText s) = false.
Proof.
  induction s as [|c s [IHl IHg]]; simpl; [split; reflexivity|].
  rewrite !occurs_app, IHl, IHg.
  destruct (escapeChar_no_angle c) as [-> ->]. split; reflexivity.
Qed.

Lemma length_app_string (a b : string) :
  String.length (a ++ b) = (String.length a + String.length b)%nat.
Proof. induction a as [|c a IH]; [reflexivity | simpl; congruence]. Qed.


Lemma escHTML_string (s : string) : escHTML (JStr s) = Ok (serializeText s).
Proof. unfold escHTML, js_or. destruct s; reflexivity. Qed.

Lemma escHTML_no_angle (v : JSVal) (html : string) :
  escHTML v = Ok html -> occurs "<" html = false /\ occurs ">" html = false.
Proof.
  unfold escHTML. intros H. bind_inv H. injection H as <-.
  apply serializeText_no_angle.
Qed.

Lemma escHTML_truthy (v : JSVal) :
  truthy v = true -> escHTML v = (text ← ToString v; Ok (serializeText text)).
Proof. intros H. unfold escHTML, js_or. now rewrite H. Qed.



(** ** The confidence level shown for a record *)

Lemma truthy_not_nullish (v : JSVal) : truthy v = true -> nullish v = false.
Proof. destruct v; simpl; congruence. Qed.

Lemma getProp_ok (v : JSVal) (k : string) :
  nullish v = false -> getProp v k = Ok (getOpt v k).
Proof. destruct v; simpl; intros H; try discriminate H; reflexivity. Qed.

Lemma level_guarded_lacks (m : JSVal) :
  lacks_confidence m = true -> level_guarded m = Ok (JNum 0).
Proof.
  destruct m as [| | | | | |fields]; try discriminate. unfold level_guarded.
  cbn [lacks_confidence getProp mbind Result_bind].
  destruct (own fields "confidence_record") as [[| | | | | |cr]|]; intros H;
    try discriminate H; try reflexivity.
  cbn. destruct (own cr "confidenceLevel") as [[]|]; try discriminate H; reflexivity.
Qed.

Lemma level_chained_lacks (m : JSVal) :
  lacks_confidence m = true -> level_chained m = Ok (JNum 0).
Proof.
  destruct m as [| | | | | |fields]; try discriminate. unfold level_chained.
  cbn [lacks_confidence getProp mbind Result_bind].
  destruct (own fields "confidence_record") as [[| | | | | |cr]|]; intros H;
    try discriminate H; try reflexivity.
  cbn. destruct (own cr "confidenceLevel") as [[]|]; try discriminate H; reflexivity.
Qed.

Lemma masjidCardHTML_level_lacks (m : JSVal) :
  lacks_confidence m = true ->
  exists level, masjidCardHTML_level m = Ok level
                /\ confidenceBadgeHTML level = Ok (level_markup 0).
Proof.
  destruct m as [| | | | | |fields]; try discriminate. unfold masjidCardHTML_level.
  cbn [lacks_confidence getProp mbind Result_bind].
  destruct (own fields "confidence_record") as [[| | | | | |cr]|]; intros H;
    try discriminate H; try (now exists (JNum 0)).
  cbn. destruct (own cr "confidenceLevel") as [[]|]; try discriminate H;
    eexists; (split; [reflexivity|]); reflexivity.
Qed.

Lemma popup_with_badge (level m loc : JSVal) (p : Popup) (html : string) :
  confidenceBadgeHTML level = Ok html ->
  popup_with level m loc = Ok p -> popup_badge p = html.
Proof.
  intros Hb H. unfold popup_with in H. bind_inv H. injection H as <-.
  cbn [popup_badge]. congruence.
Qed.

Lemma lacks_confidence_object (m : JSVal) :
  lacks_confidence m = true -> nullish m = false.
Proof. destruct m; simpl; congruence. Qed.

Lemma keeps_level_0 (chips : list string) :
  keeps_level chips (JNum 0) = Ok (existsb (String.eqb "0") chips).
Proof. reflexivity. Qed.

(** C8.  A record whose [confidence_record] is absent (or [null]), or
    whose [confidenceLevel] is [null] (or missing), is shown with the badge
    of level 0, Community Reported, wherever it is shown: on every card,
    map popup (both copies of searchMasjids) and verify item built for it,
    and on the detail page.  When a confidence chip is active, the filter
    of the explore page treats the record as level 0 too. *)
Theorem missing_confidence_shows_level_0 (m : JSVal) :
  lacks_confidence m = true ->
  (forall c, masjidCardHTML m = Ok c -> card_badge c = level_markup 0)
  /\ (forall loc p, searchMasjids_popup m loc = Ok p -> popup_badge p = level_markup 0)
  /\ (forall loc p, searchMasjids_popup' m loc = Ok p -> popup_badge p = level_markup 0)
  /\ initDetail_confidence m = Ok (level_markup 0)
  /\ (forall it, initVerify_item m = Ok it -> item_badge it = level_markup 0)
  /\ (forall chips, chips <> [] ->
        searchMasjids_filter chips m = Ok (existsb (String.eqb "0") chips)
        /\ searchMasjids_filter' chips m = Ok (existsb (String.eqb "0") chips))
  /\ level_markup 0
     = "<span class=" ++ dq ++ "confidence-badge c0" ++ dq ++ "><i class=" ++ dq
       ++ "fas fa-circle" ++ dq ++ "></i> Community Reported</span>".
Proof.
  intros H. pose proof (level_guarded_lacks m H) as Hg.
  pose proof (level_chained_lacks m H) as Hc.
  destruct (masjidCardHTML_level_lacks m H) as (level & Hl & Hb).
  assert (confidenceBadgeHTML (JNum 0) = Ok (level_markup 0)) as H0 by reflexivity.
  split; [|split; [|split; [|split; [|split; [|split; [|reflexivity]]]]]].
  - intros c E. unfold masjidCardHTML in E. rewrite Hl in E. bind_inv E.
    injection E as <-. cbn [card_badge]. congruence.
  - intros loc p E. unfold searchMasjids_popup in E. rewrite Hg in E.
    cbn [mbind Result_bind] in E. exact (popup_with_badge _ _ _ _ _ H0 E).
  - intros loc p E. unfold searchMasjids_popup' in E. rewrite Hc in E.
    cbn [mbind Result_bind] in E. exact (popup_with_badge _ _ _ _ _ H0 E).
  - unfold initDetail_confidence. rewrite Hg. reflexivity.
  - intros it E. unfold initVerify_item in E. rewrite Hg in E.
    cbn [mbind Result_bind] in E. bind_inv E. injection E as <-.
    cbn [item_badge]. congruence.
  - intros chips Hchips. unfold searchMasjids_filter, searchMasjids_filter'.
    rewrite Hg, Hc. destruct chips as [|c chips]; [contradiction|].
    split; apply keeps_level_0.
Qed.

(** A venue as the list endpoint sends it before any signal was scored. *)
Lemma missing_confidence_witness :
  lacks_confidence (JObj [("masjidID", JNum 7); ("name", JStr "Al-Noor");
                          ("confidence_record", JNull)]) = true
  /\ initDetail_confidence (JObj [("masjidID", JNum 7); ("name", JStr "Al-Noor");
                                  ("confidence_record", JNull)])
     = Ok (level_markup 0)
  /\ (exists c,
        masjidCardHTML (JObj [("masjidID", JNum 7); ("name", JStr "Al-Noor");
                              ("confidence_record", JNull)]) = Ok c
        /\ card_badge c = level_markup 0).
Proof.
  split; [reflexivity|].
  destruct (missing_confidence_shows_level_0
              (JObj [("masjidID", JNum 7); ("name", JStr "Al-Noor");
                     ("confidence_record", JNull)]) eq_refl)
    as (Hcard & _ & _ & Hdetail & _).
  split; [exact Hdetail|].
  eexists. split; [reflexivity|]. apply Hcard. reflexivity.
Defined.

(** ** The badge list of the detail page *)

Lemma new_Date_converts (v : JSVal) : converts v = true -> new_Date v = Ok v.
Proof. unfold converts, new_Date. now destruct (ToString v). Qed.

Lemma badge_json_row (b : Badge) :
  exists row, initDetail_badge_row (badge_json b) = Ok row
    /\ row_label row =
         (if badge_active b && negb (badge_revoked b) then "Valid" else "Revoked")
    /\ row_shield row =
         (if badge_active b && negb (badge_revoked b) then "gold" else "")
    /\ row_icon row =
         (if badge_active b && negb (badge_revoked b)
          then "fa-certificate" else "fa-times-circle").
Proof.
  destruct b as [id [] [] issued [expiry|]]; unfold initDetail_badge_row; cbn;
    try destruct (expiry =? 0)%Z; cbn; eexists; (split; [reflexivity|]);
    repeat split.
Qed.

(** C6 (as amended).  Every row the badge list builds shows its badge as
    Valid exactly when the [isActive] flag is truthy and the [isRevoked]
    flag is not; the expiry date and the current time play no part in it
    (the expiry date is only printed), so a revoked badge is shown as
    Revoked whatever its expiry.  A row is built for every object whose
    identifier and dates can be converted, among them every badge of the
    data model. *)
Theorem badge_row_decided_by_flags :
  (forall (fields : list (string * JSVal)) (row : BadgeRow),
     initDetail_badge_row (JObj fields) = Ok row ->
     row_label row =
       (if truthy (getOpt (JObj fields) "isActive")
           && negb (truthy (getOpt (JObj fields) "isRevoked"))
        then "Valid" else "Revoked"))
  /\ (forall fields : list (string * JSVal),
        converts (getOpt (JObj fields) "badgeID") = true ->
        converts (getOpt (JObj fields) "issueDate") = true ->
        converts (getOpt (JObj fields) "expiryDate") = true ->
        exists row, initDetail_badge_row (JObj fields) = Ok row)
  /\ (forall b : Badge,
        exists row, initDetail_badge_row (badge_json b) = Ok row
          /\ row_label row =
               (if badge_active b && negb (badge_revoked b) then "Valid" else "Revoked")
          /\ row_shield row =
               (if badge_active b && negb (badge_revoked b) then "gold" else "")
          /\ row_icon row =
               (if badge_active b && negb (badge_revoked b)
                then "fa-certificate" else "fa-times-circle"))
  /\ (forall b : Badge, badge_revoked b = true ->
        exists row, initDetail_badge_row (badge_json b) = Ok row
          /\ row_label row = "Revoked").
Proof.
  split; [|split; [|split]].
  - intros fields row. unfold initDetail_badge_row, badge_shown_valid.
    cbn [getProp getOpt mbind Result_bind].
    destruct (truthy (default JUndefined (own fields "isActive")));
      cbn [mbind Result_bind andb]; intros H; bind_inv H; now injection H as <-.
  - intros fields Hid Hissue Hexpiry. unfold initDetail_badge_row, badge_shown_valid.
    cbn [getProp getOpt mbind Result_bind] in *.
    rewrite (new_Date_converts _ Hissue), (new_Date_converts _ Hexpiry).
    unfold converts in Hid.
    destruct (ToString (default JUndefined (own fields "badgeID"))); [|discriminate Hid].
    destruct (truthy (default JUndefined (own fields "isActive")));
      destruct (truthy (default JUndefined (own fields "expiryDate")));
      cbn [mbind Result_bind]; eexists; reflexivity.
  - intros b. destruct (badge_json_row b) as (row & -> & Hl & Hs & Hi). now exists row.
  - intros b H. destruct (badge_json_row b) as (row & -> & Hl & _). exists row.
    split; [reflexivity|]. rewrite Hl, H. now destruct (badge_active b).
Qed.

(** C6 (as stated) fails: a badge that is active, not revoked, and whose
    expiry equals the current instant is invalid by the rule, and the badge
    list shows it as Valid. *)
Lemma badge_row_ignores_expiry :
  ~ (forall (b : Badge) (now : Z) (row : BadgeRow),
       initDetail_badge_row (badge_json b) = Ok row ->
       (row_label row = "Valid" <-> spec_effective_validity b now = true)).
Proof.
  intros H.
  pose (b := {| badge_id := "b-1"; badge_active := true; badge_revoked := false;
                badge_issued := 1000; badge_expiry := Some 2000 |}).
  destruct (initDetail_badge_row (badge_json b)) as [row|] eqn:E; [|discriminate E].
  destruct (H b 2000%Z row E) as [Hv _].
  injection E as <-. specialize (Hv eq_refl). discriminate Hv.
Qed.

(** * Facts about the session *)

Section Session.

Variable server : list Event -> Request -> FetchOutcome.

Lemma held_truthy (rt : string) : rt <> "" -> truthy (stored (Some rt)) = true.
Proof. intros H. simpl. apply negb_true_iff, String.eqb_neq, H. Qed.

Lemma clear_run (w : World) :
  Auth.clear w = (Ok tt, {| storage := cleared (storage w); log := log w |}).
Proof. reflexivity. Qed.

(** When a refresh is not granted. *)
Lemma refresh_data_None (o : FetchOutcome) :
  refresh_data o = None <->
  o = NoResponse
  \/ exists r, o = Responded r
       /\ (ok r = false \/ json r = None
           \/ exists data e, json r = Some data /\ granted_tokens data = Throw e).
Proof.
  unfold refresh_data. split.
  - destruct o as [|r]; [now left|]. intros H. right. exists r. split; [reflexivity|].
    destruct (ok r); [|now left]. right.
    destruct (json r) as [data|]; [|now left]. right.
    destruct (granted_tokens data) as [t|e] eqn:E; [discriminate H|]. now exists data, e.
  - intros [-> | (r & -> & [H | [H | (data & e & H & E)]])]; try reflexivity;
      try (rewrite H; now destruct (ok r)).
    rewrite H, E. now destruct (ok r).
Qed.

Lemma cleared_insert_access (a : string) (st : gmap string string) :
  cleared (<["al_access" := a]> st) = cleared st.
Proof. unfold cleared. now rewrite delete_insert_eq. Qed.

Lemma refreshToken_fails (w : World) (rt : string) :
  storage w !! "al_refresh" = Some rt -> rt <> "" ->
  refresh_data (server (log w) (refresh_request rt)) = None ->
  Auth.refreshToken server w
  = (Ok false, logged w [(ByRefreshToken, refresh_request rt)] (cleared (storage w))).
Proof.
  intros Hrt Hne Hfail.
  unfold Auth.refreshToken, Auth.getRefresh, getItem, mbind, M_bind.
  rewrite Hrt, (held_truthy rt Hne). change (stored_text (Some rt)) with rt. cbn [negb].
  unfold try_catch, fetch, refresh_data in *.
  destruct (server (log w) (refresh_request rt)) as [|r]; [reflexivity|].
  destruct (ok r); [|reflexivity]. cbn [negb]. unfold res_json.
  destruct (json r) as [data|]; [|reflexivity].
  unfold granted_tokens, setItem_value, lift, setItem, mret, M_ret, mbind, M_bind,
    Result_bind in *.
  destruct (getProp data "access") as [access|]; [|reflexivity].
  destruct (ToString access) as [a|]; [|reflexivity].
  unfold logged. cbn [storage log].
  destruct (getProp data "refresh") as [nr|];
    [|unfold Auth.clear, removeItem, mbind, M_bind; cbn [storage log];
      fold (cleared (<["al_access" := a]> (storage w)));
      now rewrite cleared_insert_access].
  destruct (truthy nr); [|discriminate Hfail].
  destruct (ToString nr); [discriminate Hfail|].
  unfold Auth.clear, removeItem, mbind, M_bind; cbn [storage log].
  fold (cleared (<["al_access" := a]> (storage w))).
  now rewrite cleared_insert_access.
Qed.

Lemma refreshToken_succeeds (w : World) (rt : string) (tokens : string * option string) :
  storage w !! "al_refresh" = Some rt -> rt <> "" ->
  refresh_data (server (log w) (refresh_request rt)) = Some tokens ->
  Auth.refreshToken server w
  = (Ok true, logged w [(ByRefreshToken, refresh_request rt)] (renewed tokens (storage w))).
Proof.
  intros Hrt Hne Hgrant.
  unfold Auth.refreshToken, Auth.getRefresh, getItem, mbind, M_bind.
  rewrite Hrt, (held_truthy rt Hne). change (stored_text (Some rt)) with rt. cbn [negb].
  unfold try_catch, fetch, refresh_data in *.
  destruct (server (log w) (refresh_request rt)) as [|r]; [discriminate Hgrant|].
  destruct (ok r); [|discriminate Hgrant]. cbn [negb]. unfold res_json.
  destruct (json r) as [data|]; [|discriminate Hgrant].
  unfold granted_tokens, setItem_value, lift, setItem, mret, M_ret, mbind, M_bind,
    Result_bind, renewed, logged in *.
  destruct (getProp data "access") as [access|]; [|discriminate Hgrant].
  destruct (ToString access) as [a|]; [|discriminate Hgrant].
  destruct (getProp data "refresh") as [nr|]; [|discriminate Hgrant].
  destruct (truthy nr).
  - destruct (ToString nr); [|discriminate Hgrant]. now injection Hgrant as <-.
  - now injection Hgrant as <-.
Qed.

Lemma logged_logged (w : World) (evs evs' : list Event) (st st' : gmap string string) :
  logged (logged w evs st) evs' st' = logged w (evs ++ evs') st'.
Proof. unfold logged. cbn [log]. now rewrite app_assoc. Qed.

Lemma sent_logged {A : Type} (m : M A) (w : World) (res : Result A)
      (evs : list Event) (st : gmap string string) :
  m w = (res, logged w evs st) -> sent m w = evs.
Proof.
  intros H. unfold sent. rewrite H. cbn [snd log logged].
  now rewrite drop_app_length.
Qed.

(** The four ways a call of authFetch can go. *)

Lemma authFetch_no_response (u : string) (options : Options) (w : World) :
  server (log w) (first_request u options w) = NoResponse ->
  authFetch server u options w
  = (Throw NetworkError, logged w [(ByAuthFetch, first_request u options w)] (storage w)).
Proof.
  intros H. unfold authFetch, Auth.getAccess, getItem, mbind, M_bind, fetch.
  fold (first_request u options w). now rewrite H.
Qed.

Lemma authFetch_plain (u : string) (options : Options) (w : World) (r : Response) :
  server (log w) (first_request u options w) = Responded r ->
  (status r =? 401)%Z && truthy (stored (storage w !! "al_refresh")) = false ->
  authFetch server u options w
  = (Ok r, logged w [(ByAuthFetch, first_request u options w)] (storage w)).
Proof.
  intros H Hno. unfold authFetch, Auth.getAccess, Auth.getRefresh, getItem, mbind, M_bind, fetch.
  fold (first_request u options w). rewrite H.
  destruct (status r =? 401)%Z; cbn [storage] in *; [|reflexivity].
  cbn [andb] in *. now rewrite Hno.
Qed.

Lemma authFetch_refresh_fails (u : string) (options : Options) (w : World)
      (r : Response) (rt : string) :
  server (log w) (first_request u options w) = Responded r ->
  status r = 401%Z ->
  storage w !! "al_refresh" = Some rt -> rt <> "" ->
  refresh_data (server (log w ++ [(ByAuthFetch, first_request u options w)])
                       (refresh_request rt)) = None ->
  authFetch server u options w
  = (Ok r, logged w [(ByAuthFetch, first_request u options w);
                     (ByRefreshToken, refresh_request rt)] (cleared (storage w))).
Proof.
  intros H H401 Hrt Hne Hfail.
  unfold authFetch, Auth.getAccess, Auth.getRefresh, getItem, mbind, M_bind, fetch.
  fold (first_request u options w). rewrite H, H401. cbn [Z.eqb Pos.eqb storage andb].
  rewrite Hrt, (held_truthy rt Hne).
  rewrite (refreshToken_fails _ rt) by assumption.
  unfold mret, M_ret, logged. cbn [storage log]. now rewrite <- app_assoc.
Qed.

Lemma renewed_access (tokens : string * option string) (st : gmap string string) :
  renewed tokens st !! "al_access" = Some tokens.1.
Proof.
  unfold renewed. destruct (tokens.2).
  - rewrite lookup_insert_ne by discriminate. apply lookup_insert_eq.
  - apply lookup_insert_eq.
Qed.

Lemma authFetch_retries (u : string) (options : Options) (w : World)
      (r : Response) (rt : string) (tokens : string * option string) :
  server (log w) (first_request u options w) = Responded r ->
  status r = 401%Z ->
  storage w !! "al_refresh" = Some rt -> rt <> "" ->
  refresh_data (server (log w ++ [(ByAuthFetch, first_request u options w)])
                       (refresh_request rt)) = Some tokens ->
  authFetch server u options w
  = (match server (log w ++ [(ByAuthFetch, first_request u options w);
                             (ByRefreshToken, refresh_request rt)])
                  (retry_request u options w tokens.1) with
     | NoResponse => Throw NetworkError
     | Responded r' => Ok r'
     end,
     logged w [(ByAuthFetch, first_request u options w);
               (ByRefreshToken, refresh_request rt);
               (ByAuthFetch, retry_request u options w tokens.1)]
            (renewed tokens (storage w))).
Proof.
  intros H H401 Hrt Hne Hgrant.
  unfold authFetch, Auth.getAccess, Auth.getRefresh, getItem, mbind, M_bind, fetch.
  fold (first_request u options w). rewrite H, H401. cbn [Z.eqb Pos.eqb storage andb].
  rewrite Hrt, (held_truthy rt Hne).
  rewrite (refreshToken_succeeds _ rt tokens) by assumption.
  unfold mbind, getItem, fetch, logged. cbn [storage log].
  rewrite renewed_access. change (stored_text (Some tokens.1)) with (tokens.1).
  fold (retry_request u options w tokens.1).
  rewrite <- app_assoc. cbn [app].
  destruct (server _ (retry_request u options w tokens.1));
    now rewrite <- app_assoc.
Qed.

Lemma authFetch_cases (u : string) (options : Options) (w : World) :
  exists res evs st,
    authFetch server u options w = (res, logged w evs st)
    /\ authFetch_trace u options w evs.
Proof.
  destruct (server (log w) (first_request u options w)) as [|r] eqn:H.
  { eexists _, _, _. split; [apply authFetch_no_response; exact H | constructor]. }
  destruct ((status r =? 401)%Z && truthy (stored (storage w !! "al_refresh"))) eqn:Hc.
  2:{ eexists _, _, _. split; [apply authFetch_plain; [exact H | exact Hc] | constructor]. }
  apply andb_true_iff in Hc as [H401 Hheld]. apply Z.eqb_eq in H401.
  destruct (storage w !! "al_refresh") as [rt|] eqn:Hrt; [|discriminate Hheld].
  assert (rt <> "") as Hne.
  { intros ->. discriminate Hheld. }
  destruct (refresh_data (server (log w ++ [(ByAuthFetch, first_request u options w)])
                                 (refresh_request rt))) as [tokens|] eqn:Hd.
  - eexists _, _, _. split; [apply (authFetch_retries u options w r rt tokens); assumption |].
    apply trace_retried.
  - eexists _, _, _. split; [apply (authFetch_refresh_fails u options w r rt); assumption |].
    apply trace_refresh_failed.
Qed.

Lemma cleared_lookup (st : gmap string string) :
  cleared st !! "al_access" = None /\ cleared st !! "al_refresh" = None
  /\ cleared st !! "al_user" = None.
Proof.
  unfold cleared. repeat split.
  - rewrite !lookup_delete_ne by discriminate. apply lookup_delete_eq.
  - rewrite lookup_delete_ne by discriminate. apply lookup_delete_eq.
  - apply lookup_delete_eq.
Qed.

(** C7.  When the first request of authFetch gets no response, the failure
    is thrown to the caller as it is: the request was sent once, no refresh
    was attempted, and the stored session is untouched. *)
Theorem authFetch_transport_failure (u : string) (options : Options) (w : World) :
  server (log w) (first_request u options w) = NoResponse ->
  authFetch server u options w
  = (Throw NetworkError, logged w [(ByAuthFetch, first_request u options w)] (storage w))
  /\ calls_by ByRefreshToken (sent (authFetch server u options) w) = 0%nat
  /\ calls_by ByAuthFetch (sent (authFetch server u options) w) = 1%nat.
Proof.
  intros H. pose proof (authFetch_no_response u options w H) as Hrun.
  rewrite (sent_logged _ _ _ _ _ Hrun). repeat split. exact Hrun.
Qed.

(** C3.  When the first response is a 401, a refresh token is held, and the
    refresh is not granted (no response, a status that is not ok, or a body
    that cannot be read or stored), authFetch returns the first response
    itself, and
    the session is gone: access token, refresh token and stored user are
    all removed.  Only the request and the one refresh were sent. *)
Theorem authFetch_refresh_failure_clears_session
        (u : string) (options : Options) (w : World) (r : Response) (rt : string) :
  server (log w) (first_request u options w) = Responded r ->
  status r = 401%Z ->
  storage w !! "al_refresh" = Some rt -> rt <> "" ->
  refresh_data (server (log w ++ [(ByAuthFetch, first_request u options w)])
                       (refresh_request rt)) = None ->
  (authFetch server u options w).1 = Ok r
  /\ storage (authFetch server u options w).2 !! "al_access" = None
  /\ storage (authFetch server u options w).2 !! "al_refresh" = None
  /\ storage (authFetch server u options w).2 !! "al_user" = None
  /\ sent (authFetch server u options) w
     = [(ByAuthFetch, first_request u options w); (ByRefreshToken, refresh_request rt)].
Proof.
  intros H H401 Hrt Hne Hfail.
  pose proof (authFetch_refresh_fails u options w r rt H H401 Hrt Hne Hfail) as Hrun.
  rewrite (sent_logged _ _ _ _ _ Hrun), Hrun. cbn [fst snd storage logged].
  destruct (cleared_lookup (storage w)) as (Ha & Hr & Hu). now repeat split.
Qed.

Lemma authFetch_trace_bounds (u : string) (options : Options) (w : World)
      (evs : list Event) :
  authFetch_trace u options w evs ->
  (calls_by ByRefreshToken evs <= 1)%nat /\ (calls_by ByAuthFetch evs <= 2)%nat.
Proof. intros []; cbn; lia. Qed.

(** C2.  A call of authFetch sends its request at most twice and calls the
    refresh endpoint at most once, whatever the server answers.  When the
    first response is a 401 and a refresh token is held, the refresh
    endpoint is called exactly once; when that refresh is granted (an ok
    answer whose tokens can be stored), the request is sent exactly once
    more, carrying the access token the refresh has just stored, and when
    it is not granted nothing more is sent. *)
Theorem authFetch_refreshes_once (u : string) (options : Options) (w : World) :
  log (authFetch server u options w).2 = (log w ++ sent (authFetch server u options) w)%list
  /\ (calls_by ByRefreshToken (sent (authFetch server u options) w) <= 1)%nat
  /\ (calls_by ByAuthFetch (sent (authFetch server u options) w) <= 2)%nat
  /\ (forall r rt,
        server (log w) (first_request u options w) = Responded r ->
        status r = 401%Z ->
        storage w !! "al_refresh" = Some rt -> rt <> "" ->
        calls_by ByRefreshToken (sent (authFetch server u options) w) = 1%nat
        /\ (forall access new_refresh,
              refresh_data (server (log w ++ [(ByAuthFetch, first_request u options w)])
                                   (refresh_request rt)) = Some (access, new_refresh) ->
              sent (authFetch server u options) w
              = [(ByAuthFetch, first_request u options w);
                 (ByRefreshToken, refresh_request rt);
                 (ByAuthFetch, retry_request u options w access)]
              /\ calls_by ByAuthFetch (sent (authFetch server u options) w) = 2%nat
              /\ storage (authFetch server u options w).2 !! "al_access" = Some access
              /\ headers (retry_request u options w access) !! "Authorization"
                 = Some ("Bearer " ++ access))
        /\ (refresh_data (server (log w ++ [(ByAuthFetch, first_request u options w)])
                                 (refresh_request rt)) = None ->
            sent (authFetch server u options) w
            = [(ByAuthFetch, first_request u options w);
               (ByRefreshToken, refresh_request rt)]))
  /\ (forall rt,
        url (refresh_request rt) = "/api/token/refresh/"
        /\ method (refresh_request rt) = "POST"
        /\ field (refresh_request rt) "refresh" = JStr rt).
Proof.
  destruct (authFetch_cases u options w) as (res & evs & st & Hrun & Htrace).
  pose proof (sent_logged _ _ _ _ _ Hrun) as Hsent.
  destruct (authFetch_trace_bounds u options w evs Htrace) as [Hb1 Hb2].
  split; [|split; [|split; [|split; [|now repeat split]]]].
  - rewrite Hsent, Hrun. reflexivity.
  - now rewrite Hsent.
  - now rewrite Hsent.
  - clear res evs st Hrun Htrace Hsent Hb1 Hb2. intros r rt H H401 Hrt Hne.
    destruct (refresh_data (server (log w ++ [(ByAuthFetch, first_request u options w)])
                                   (refresh_request rt))) as [tokens|] eqn:Hd.
    + pose proof (authFetch_retries u options w r rt tokens H H401 Hrt Hne Hd) as Hrun.
      rewrite (sent_logged _ _ _ _ _ Hrun), Hrun. cbn [snd storage logged].
      split; [reflexivity|]. split; [|discriminate].
      intros access new_refresh E. injection E as ->. cbn [fst].
      split; [reflexivity|]. split; [reflexivity|].
      split; [apply (renewed_access (access, new_refresh))|].
      unfold retry_request, request_of, set_header. cbn [headers opt_headers default].
      apply lookup_insert_eq.
    + pose proof (authFetch_refresh_fails u options w r rt H H401 Hrt Hne Hd) as Hrun.
      rewrite (sent_logged _ _ _ _ _ Hrun).
      split; [reflexivity|]. split; [discriminate | reflexivity].
Qed.

End Session.

(** The expired session that the refresh renews: the request goes out
    twice, the second time with the new access token. *)
Lemma authFetch_refreshes_once_witness :
  sent (authFetch expired_then_renewed "/api/signals/" (post_json JNull)) (session "access-1" "refresh-1")
  = [ (ByAuthFetch, first_request "/api/signals/" (post_json JNull) (session "access-1" "refresh-1"));
      (ByRefreshToken, refresh_request "refresh-1");
      (ByAuthFetch, retry_request "/api/signals/" (post_json JNull) (session "access-1" "refresh-1")
                      "access-2") ]
  /\ headers (retry_request "/api/signals/" (post_json JNull) (session "access-1" "refresh-1")
                "access-2") !! "Authorization"
     = Some "Bearer access-2".
Proof.
  destruct (authFetch_refreshes_once expired_then_renewed "/api/signals/" (post_json JNull)
              (session "access-1" "refresh-1")) as (_ & _ & _ & H & _).
  destruct (H {| status := 401; json := Some (JObj [("detail", JStr "Token expired")]) |}
              "refresh-1" eq_refl eq_refl eq_refl ltac:(discriminate)) as (_ & Hgrant & _).
  destruct (Hgrant "access-2" None eq_refl) as (Hs & _ & _ & Hh).
  split; [exact Hs | exact Hh].
Defined.

(** No network: the failure surfaces, nothing else is sent. *)
Lemma authFetch_transport_failure_witness :
  offline (log (session "access-1" "refresh-1"))
          (first_request "/api/signals/" (post_json JNull) (session "access-1" "refresh-1"))
  = NoResponse
  /\ (authFetch offline "/api/signals/" (post_json JNull) (session "access-1" "refresh-1")).1
     = Throw NetworkError
  /\ calls_by ByRefreshToken
       (sent (authFetch offline "/api/signals/" (post_json JNull)) (session "access-1" "refresh-1"))
     = 0%nat.
Proof.
  split; [reflexivity|].
  destruct (authFetch_transport_failure offline "/api/signals/" (post_json JNull)
              (session "access-1" "refresh-1") eq_refl) as (Hrun & Hn & _).
  split; [now rewrite Hrun | exact Hn].
Defined.

(** Both tokens expired: the refused refresh ends the session and the
    first 401 comes back. *)
Lemma authFetch_refresh_failure_witness :
  status {| status := 401; json := Some (JObj [("detail", JStr "Token expired")]) |} = 401%Z
  /\ (authFetch expired_for_good "/api/signals/" (post_json JNull)
        (session "access-1" "refresh-1")).1
     = Ok {| status := 401; json := Some (JObj [("detail", JStr "Token expired")]) |}
  /\ storage (authFetch expired_for_good "/api/signals/" (post_json JNull)
                (session "access-1" "refresh-1")).2 !! "al_user" = None.
Proof.
  split; [reflexivity|].
  destruct (authFetch_refresh_failure_clears_session expired_for_good "/api/signals/"
              (post_json JNull) (session "access-1" "refresh-1")
              {| status := 401; json := Some (JObj [("detail", JStr "Token expired")]) |}
              "refresh-1" eq_refl eq_refl eq_refl ltac:(discriminate) eq_refl)
    as (Hres & _ & _ & Hu & _).
  split; [exact Hres | exact Hu].
Defined.

(** * Facts about the verify page *)

Section Verify.

Variable server : list Event -> Request -> FetchOutcome.

Lemma token_truthy (token : string) : token <> "" -> truthy (JStr token) = true.
Proof. intros H. simpl. apply negb_true_iff, String.eqb_neq, H. Qed.

Lemma initVerify_failed (token : string) (w : World) :
  token <> "" ->
  match server (log w) (verify_request token) with
  | NoResponse => True
  | Responded r => ok r = false
  end ->
  (initVerify server (Some token) w).1 = Ok (Some page_not_found).
Proof.
  intros Ht H. unfold initVerify. rewrite (token_truthy token Ht). cbn [negb].
  unfold try_catch, apiFetch, lift, mbind, M_bind, fetch. cbn [search_params].
  fold (verify_request token).
  destruct (server (log w) (verify_request token)) as [|r]; [reflexivity|].
  rewrite H. reflexivity.
Qed.

Lemma initVerify_invalid (token : string) (w : World) (r : Response) (data : JSVal) :
  token <> "" ->
  server (log w) (verify_request token) = Responded r ->
  ok r = true -> json r = Some data -> nullish data = false ->
  truthy (getOpt data "valid") = false ->
  (initVerify server (Some token) w).1 = Ok (Some page_invalid).
Proof.
  intros Ht H Hok Hjson Hdata Hvalid. unfold initVerify.
  rewrite (token_truthy token Ht). cbn [negb].
  unfold try_catch, apiFetch, lift, mbind, M_bind, fetch. cbn [search_params].
  fold (verify_request token). rewrite H, Hok. cbn [negb]. unfold res_json.
  rewrite Hjson. unfold mret, M_ret, lift. rewrite (getProp_ok data) by assumption.
  now rewrite Hvalid.
Qed.

(** C4 (as amended).  Whenever the lookup is answered with a body whose
    [valid] member is not truthy, the page shown is the one fixed Badge
    Invalid page, which holds no venue data, whatever else the answer
    carries; two such lookups cannot be told apart.  A lookup that is
    refused (any status that is not ok, such as not-found) or gets no
    response shows the Badge Not Found page, which is a different page. *)
Theorem initVerify_pages (token : string) (w : World) :
  token <> "" ->
  (forall r data,
     server (log w) (verify_request token) = Responded r ->
     ok r = true -> json r = Some data -> nullish data = false ->
     truthy (getOpt data "valid") = false ->
     (initVerify server (Some token) w).1 = Ok (Some page_invalid))
  /\ (forall r,
        server (log w) (verify_request token) = Responded r -> ok r = false ->
        (initVerify server (Some token) w).1 = Ok (Some page_not_found))
  /\ (server (log w) (verify_request token) = NoResponse ->
      (initVerify server (Some token) w).1 = Ok (Some page_not_found))
  /\ body_html page_invalid
     = BodyText "<p>This badge is <strong>no longer valid</strong>. It may have been revoked or expired.</p>"
  /\ page_invalid <> page_not_found.
Proof.
  intros Ht. repeat split.
  - intros r data H Hok Hjson Hdata Hvalid.
    now apply (initVerify_invalid token w r data).
  - intros r H Hok. apply initVerify_failed; [assumption|]. now rewrite H.
  - intros H. apply initVerify_failed; [assumption|]. now rewrite H.
  - discriminate.
Qed.

End Verify.

(** A revoked badge and an unknown token at the same endpoint. *)
Lemma initVerify_pages_witness :
  "revoked-badge" <> ""
  /\ (initVerify verify_server (Some "revoked-badge") (session "" "")).1
     = Ok (Some page_invalid)
  /\ (initVerify verify_server (Some "no-such-token") (session "" "")).1
     = Ok (Some page_not_found).
Proof.
  split; [discriminate|]. split.
  - destruct (initVerify_pages verify_server "revoked-badge" (session "" "")
                ltac:(discriminate)) as (H & _).
    apply (H {| status := 200; json := Some (JObj [("valid", JBool false)]) |}
             (JObj [("valid", JBool false)])); reflexivity.
  - destruct (initVerify_pages verify_server "no-such-token" (session "" "")
                ltac:(discriminate)) as (_ & H & _).
    apply (H {| status := 404; json := Some (JObj [("detail", JStr "Not found.")]) |});
      reflexivity.
Defined.

(** C4 (as stated) fails: a token the server answers with the not-found
    status and a token whose badge it reports as not valid lead to two
    different pages, Badge Not Found and Badge Invalid. *)
Lemma initVerify_distinguishes_unknown_token :
  ~ (forall (server : list Event -> Request -> FetchOutcome)
            (unknown invalid : string) (w : World) (r1 r2 : Response),
       unknown <> "" -> invalid <> "" ->
       server (log w) (verify_request unknown) = Responded r1 -> status r1 = 404%Z ->
       server (log w) (verify_request invalid) = Responded r2 -> ok r2 = true ->
       json r2 = Some (JObj [("valid", JBool false)]) ->
       (initVerify server (Some unknown) w).1 = (initVerify server (Some invalid) w).1).
Proof.
  intros H.
  specialize (H verify_server "no-such-token" "revoked-badge" (session "" "")
                {| status := 404; json := Some (JObj [("detail", JStr "Not found.")]) |}
                {| status := 200; json := Some (JObj [("valid", JBool false)]) |}
                ltac:(discriminate) ltac:(discriminate)
                eq_refl eq_refl eq_refl eq_refl eq_refl).
  vm_compute in H. discriminate H.
Qed.

(** * Facts about the submission *)

Section Submission.

Variable server : list Event -> Request -> FetchOutcome.
Variable JSON_parse : string -> option JSVal.
Variable P : Event -> Prop.

Lemma sends_silent {A : Type} (m : M A) :
  (forall w, log (m w).2 = log w) -> sends P [] m.
Proof.
  intros H w. exists []. rewrite H, app_nil_r. repeat split; constructor.
Qed.

Lemma sends_ret {A : Type} (a : A) : sends P [] (mret a : M A).
Proof. now apply sends_silent. Qed.

Lemma sends_lift {A : Type} (r : Result A) : sends P [] (lift r).
Proof. now apply sends_silent. Qed.

Lemma sends_throw {A : Type} (e : JSError) (need : list string) :
  sends P need (throw e : M A).
Proof.
  intros w. exists []. cbn. rewrite app_nil_r. repeat split; [constructor|].
  intros a H. discriminate H.
Qed.

Lemma sends_res_json (r : Response) : sends P [] (res_json r).
Proof. unfold res_json. destruct (json r); [apply sends_ret | apply sends_throw]. Qed.

Lemma sends_getUser : sends P [] (Auth.getUser JSON_parse).
Proof.
  apply sends_silent. intros w. unfold Auth.getUser, mbind, M_bind, getItem.
  now destruct (JSON_parse _).
Qed.

Lemma sent_to_app (u : string) (evs evs' : list Event) :
  sent_to u evs \/ sent_to u evs' -> sent_to u (evs ++ evs').
Proof. unfold sent_to. intros H. now apply Exists_app. Qed.

Lemma sends_bind {A B : Type} (m : M A) (f : A -> M B) (n1 n2 : list string) :
  sends P n1 m -> (forall a, sends P n2 (f a)) -> sends P (n1 ++ n2) (m ≫= f).
Proof.
  intros Hm Hf w. destruct (Hm w) as (evs1 & Hlog1 & Hall1 & Hneed1).
  unfold mbind, M_bind. destruct (m w) as [[a|e] w1] eqn:E; cbn [fst snd] in *.
  - destruct (Hf a w1) as (evs2 & Hlog2 & Hall2 & Hneed2).
    exists (evs1 ++ evs2)%list. split; [|split].
    + now rewrite Hlog2, Hlog1, app_assoc.
    + now apply Forall_app.
    + intros b Hb. apply Forall_app. split.
      * eapply Forall_impl; [apply (Hneed1 a eq_refl)|].
        intros u Hu. apply sent_to_app. now left.
      * eapply Forall_impl; [apply (Hneed2 b Hb)|].
        intros u Hu. apply sent_to_app. now right.
  - exists evs1. split; [assumption|]. split; [assumption|].
    intros b Hb. discriminate Hb.
Qed.

Lemma sends_weaken {A : Type} (m : M A) (need : list string) :
  sends P need m -> sends P [] m.
Proof.
  intros H w. destruct (H w) as (evs & Hlog & Hall & _).
  exists evs. split; [assumption|]. split; [assumption|]. intros _ _. constructor.
Qed.

Lemma with_token_body (token : option string) (options : Options) :
  opt_body (with_token token options) = opt_body options.
Proof.
  unfold with_token. destruct (opt_headers options), (truthy (stored token)); reflexivity.
Qed.

(** authFetch sends the request to [u], and besides it only a refresh and
    the same request again. *)
Lemma sends_authFetch (u : string) (options : Options) :
  (forall rt, P (ByRefreshToken, refresh_request rt)) ->
  (forall rq, url rq = u -> body rq = opt_body options -> P (ByAuthFetch, rq)) ->
  sends P [u] (authFetch server u options).
Proof.
  intros Hrefresh Hrequest w.
  destruct (authFetch_cases server u options w) as (res & evs & st & Hrun & Htrace).
  exists evs. rewrite Hrun. cbn [fst snd log logged]. split; [reflexivity|].
  assert (P (ByAuthFetch, first_request u options w)) as Hfirst.
  { apply Hrequest; [reflexivity | apply with_token_body]. }
  assert (sent_to u [(ByAuthFetch, first_request u options w)]) as Hto.
  { constructor. reflexivity. }
  destruct Htrace as [|rt|rt data].
  - split; [repeat constructor; assumption|]. intros _ _. repeat constructor.
  - split; [repeat constructor; auto|]. intros _ _. repeat constructor.
  - split; [|intros _ _; repeat constructor].
    repeat constructor; auto. apply Hrequest; [reflexivity | apply with_token_body].
Qed.

Lemma sends_then {A B : Type} (m : M A) (f : A -> M B) (need : list string) :
  sends P [] m -> (forall a, sends P need (f a)) -> sends P need (m ≫= f).
Proof. intros Hm Hf. now apply (sends_bind m f [] need). Qed.

End Submission.

Section Report.

Variable server : list Event -> Request -> FetchOutcome.
Variable JSON_parse : string -> option JSVal.
Variable isAdmin : bool.

Lemma submission_event_refresh (rt : string) :
  submission_event isAdmin (ByRefreshToken, refresh_request rt).
Proof. split; intros H; discriminate H. Qed.

Lemma submission_event_other (c : Caller) (rq : Request) (u : string) :
  url rq = u -> u <> "/api/masjids/" -> u <> "/api/signals/" ->
  submission_event isAdmin (c, rq).
Proof. intros Hu H1 H2. split; cbn [snd]; intros H; congruence. Qed.

Lemma submission_event_masjid (c : Caller) (rq : Request) (f : ReportForm) :
  url rq = "/api/masjids/" -> body rq = Some (masjid_body isAdmin f) ->
  submission_event isAdmin (c, rq).
Proof.
  intros Hu Hb. split; cbn [snd]; intros H.
  - unfold field. rewrite Hb. reflexivity.
  - rewrite Hu in H. discriminate H.
Qed.

Lemma submission_event_signal (c : Caller) (rq : Request) (masjidID user : JSVal) :
  url rq = "/api/signals/" -> body rq = Some (signal_body isAdmin masjidID user) ->
  submission_event isAdmin (c, rq).
Proof.
  intros Hu Hb. split; cbn [snd]; intros H.
  - rewrite Hu in H. discriminate H.
  - unfold field. rewrite Hb. split; reflexivity.
Qed.

Lemma sent_of_log {A : Type} (m : M A) (w : World) (evs : list Event) :
  log (m w).2 = (log w ++ evs)%list -> sent m w = evs.
Proof. intros H. unfold sent. rewrite H. apply drop_app_length. Qed.

(** Every request of a submission is as the role requires, and a
    submission that ends with a success alert has sent the masjid and the
    signal. *)
Lemma submitMasjidReport_sends (f : ReportForm) (w : World) :
  exists evs,
    log (submitMasjidReport server JSON_parse isAdmin f w).2 = (log w ++ evs)%list
    /\ Forall (submission_event isAdmin) evs
    /\ (forall n,
          (submitMasjidReport server JSON_parse isAdmin f w).1 = Ok (Added n)
          \/ (submitMasjidReport server JSON_parse isAdmin f w).1 = Ok (Reported n) ->
          sent_to "/api/masjids/" evs /\ sent_to "/api/signals/" evs).
Proof.
  assert (forall a : ReportAlert, a = MissingFields ->
            exists evs, log w = (log w ++ evs)%list
              /\ Forall (submission_event isAdmin) evs
              /\ (forall n, Ok a = Ok (Added n) \/ Ok a = Ok (Reported n) ->
                    sent_to "/api/masjids/" evs /\ sent_to "/api/signals/" evs))
    as Hmissing.
  { intros a ->. exists []. rewrite app_nil_r. repeat split; try constructor;
      destruct H as [H | H]; discriminate H. }
  unfold submitMasjidReport.
  destruct (report_lat f) as [lat|]; [|now apply Hmissing].
  destruct (report_lng f) as [lng|]; [|now apply Hmissing].
  match goal with |- context [if ?c then _ else _] => destruct c end;
    [now apply Hmissing|].
  clear Hmissing.
  match goal with
  | |- context [try_catch ?b ?h] =>
      assert (sends (submission_event isAdmin)
                ["/api/masjids/"; "/api/location-records/"; "/api/signals/"] b) as Hbody
  end.
  { apply (sends_bind _ _ _ ["/api/masjids/"] ["/api/location-records/"; "/api/signals/"]).
    { apply sends_authFetch; [apply submission_event_refresh|].
      intros rq Hu Hb. now apply (submission_event_masjid _ rq f). }
    intros masjidRes. apply sends_then.
    { destruct (negb (ok masjidRes)); [|apply sends_ret].
      apply sends_then; [apply sends_lift | intros msg; apply sends_throw]. }
    intros _. apply sends_then; [apply sends_res_json|].
    intros masjid. apply sends_then; [apply sends_lift|].
    intros masjidID.
    apply (sends_bind _ _ _ ["/api/location-records/"] ["/api/signals/"]).
    { apply sends_authFetch; [apply submission_event_refresh|].
      intros rq Hu Hb. apply (submission_event_other _ rq _ Hu); discriminate. }
    intros locRes. apply sends_then; [apply sends_getUser|].
    intros user. apply (sends_bind _ _ _ ["/api/signals/"] []).
    { apply sends_authFetch; [apply submission_event_refresh|].
      intros rq Hu Hb. now apply (submission_event_signal _ rq masjidID user). }
    intros _.
    apply sends_then;
      [|intros _; apply sends_then; [apply sends_lift | intros ?; apply sends_ret]].
    destruct (isAdmin && truthy (getOpt user "username")); [|apply sends_ret].
    apply (sends_weaken _ _ (["/api/masjid-admins/"] ++ [])).
    apply sends_bind; [|intros _; apply sends_ret].
    apply sends_authFetch; [apply submission_event_refresh|].
    intros rq Hu Hb. apply (submission_event_other _ rq _ Hu); discriminate. }
  match goal with
  | |- context [try_catch ?b ?h] => set (tried := b) in *
  end.
  destruct (Hbody w) as (evs & Hlog & Hall & Hneed).
  exists evs. unfold try_catch. destruct (tried w) as [[a|e] w'] eqn:E; cbn [fst snd] in *.
  - split; [assumption|]. split; [assumption|]. intros n _.
    specialize (Hneed a eq_refl).
    apply Forall_cons in Hneed as [Hm Hneed].
    apply Forall_cons in Hneed as [_ Hneed].
    apply Forall_cons in Hneed as [Hs _]. now split.
  - split; [assumption|]. split; [assumption|].
    intros n [H | H]; discriminate H.
Qed.

End Report.

Section Roles.

Variable server : list Event -> Request -> FetchOutcome.
Variable JSON_parse : string -> option JSVal.

(** C5.  In a submission by a masjid admin every request that creates the
    masjid carries [isActive = true], and every signal request carries the
    type ADMIN_VERIFY and the source ADMIN; a submission that ends with the
    success alert has sent both. *)
Theorem admin_submission_is_active (f : ReportForm) (w : World) :
  log (submitMasjidReport server JSON_parse true f w).2
  = (log w ++ sent (submitMasjidReport server JSON_parse true f) w)%list
  /\ (forall e, In e (sent (submitMasjidReport server JSON_parse true f) w) ->
        url e.2 = "/api/masjids/" -> field e.2 "isActive" = JBool true)
  /\ (forall e, In e (sent (submitMasjidReport server JSON_parse true f) w) ->
        url e.2 = "/api/signals/" ->
        field e.2 "signalType" = JStr "ADMIN_VERIFY"
        /\ field e.2 "sourceType" = JStr "ADMIN")
  /\ (forall n, (submitMasjidReport server JSON_parse true f w).1 = Ok (Added n) ->
        (exists e, In e (sent (submitMasjidReport server JSON_parse true f) w)
                   /\ url e.2 = "/api/masjids/")
        /\ (exists e, In e (sent (submitMasjidReport server JSON_parse true f) w)
                      /\ url e.2 = "/api/signals/")).
Proof.
  destruct (submitMasjidReport_sends server JSON_parse true f w)
    as (evs & Hlog & Hall & Hneed).
  rewrite (sent_of_log _ _ _ Hlog). rewrite List.Forall_forall in Hall.
  split; [assumption|]. split; [|split].
  - intros e He. apply (Hall e He).
  - intros e He. apply (Hall e He).
  - intros n Hn. destruct (Hneed n (or_introl Hn)) as [Hm Hs].
    split; apply List.Exists_exists; assumption.
Qed.

(** C1 (as amended).  In a submission by a user who is no admin every
    request that creates the masjid carries [isActive = false], and every
    signal request carries the type ACTIVE and the source USER; a
    submission that ends with the success alert has sent both. *)
Theorem user_submission_is_inactive (f : ReportForm) (w : World) :
  log (submitMasjidReport server JSON_parse false f w).2
  = (log w ++ sent (submitMasjidReport server JSON_parse false f) w)%list
  /\ (forall e, In e (sent (submitMasjidReport server JSON_parse false f) w) ->
        url e.2 = "/api/masjids/" -> field e.2 "isActive" = JBool false)
  /\ (forall e, In e (sent (submitMasjidReport server JSON_parse false f) w) ->
        url e.2 = "/api/signals/" ->
        field e.2 "signalType" = JStr "ACTIVE"
        /\ field e.2 "sourceType" = JStr "USER")
  /\ (forall n, (submitMasjidReport server JSON_parse false f w).1 = Ok (Reported n) ->
        (exists e, In e (sent (submitMasjidReport server JSON_parse false f) w)
                   /\ url e.2 = "/api/masjids/")
        /\ (exists e, In e (sent (submitMasjidReport server JSON_parse false f) w)
                      /\ url e.2 = "/api/signals/")).
Proof.
  destruct (submitMasjidReport_sends server JSON_parse false f w)
    as (evs & Hlog & Hall & Hneed).
  rewrite (sent_of_log _ _ _ Hlog). rewrite List.Forall_forall in Hall.
  split; [assumption|]. split; [|split].
  - intros e He. apply (Hall e He).
  - intros e He. apply (Hall e He).
  - intros n Hn. destruct (Hneed n (or_intror Hn)) as [Hm Hs].
    split; apply List.Exists_exists; assumption.
Qed.

End Roles.

(** An admin adds Al-Noor: the alert is the success of an admin, and what
    was sent to the masjid endpoint carries [isActive = true]. *)
Lemma admin_submission_witness :
  (submitMasjidReport accepting parse_known true al_noor (session "access-1" "refresh-1")).1
  = Ok (Added "Al-Noor")
  /\ (exists e,
        In e (sent (submitMasjidReport accepting parse_known true al_noor)
                (session "access-1" "refresh-1"))
        /\ url e.2 = "/api/masjids/" /\ field e.2 "isActive" = JBool true)
  /\ (exists e,
        In e (sent (submitMasjidReport accepting parse_known true al_noor)
                (session "access-1" "refresh-1"))
        /\ url e.2 = "/api/signals/" /\ field e.2 "signalType" = JStr "ADMIN_VERIFY").
Proof.
  destruct (admin_submission_is_active accepting parse_known al_noor
              (session "access-1" "refresh-1")) as (_ & Hactive & Hsignal & Hsent).
  destruct (Hsent "Al-Noor" eq_refl) as ((em & Hem & Hum) & (es & Hes & Hus)).
  split; [reflexivity|]. split.
  - exists em. split; [assumption|]. split; [assumption|]. now apply Hactive.
  - exists es. split; [assumption|]. split; [assumption|]. now apply Hsignal.
Defined.

(** A user reports Al-Noor: the masjid is created inactive and the signal
    is of type ACTIVE. *)
Lemma user_submission_witness :
  (submitMasjidReport accepting parse_known false al_noor (session "access-1" "refresh-1")).1
  = Ok (Reported "Al-Noor")
  /\ (exists e,
        In e (sent (submitMasjidReport accepting parse_known false al_noor)
                (session "access-1" "refresh-1"))
        /\ url e.2 = "/api/masjids/" /\ field e.2 "isActive" = JBool false)
  /\ (exists e,
        In e (sent (submitMasjidReport accepting parse_known false al_noor)
                (session "access-1" "refresh-1"))
        /\ url e.2 = "/api/signals/" /\ field e.2 "signalType" = JStr "ACTIVE").
Proof.
  destruct (user_submission_is_inactive accepting parse_known al_noor
              (session "access-1" "refresh-1")) as (_ & Hactive & Hsignal & Hsent).
  destruct (Hsent "Al-Noor" eq_refl) as ((em & Hem & Hum) & (es & Hes & Hus)).
  split; [reflexivity|]. split.
  - exists em. split; [assumption|]. split; [assumption|]. now apply Hactive.
  - exists es. split; [assumption|]. split; [assumption|]. now apply Hsignal.
Defined.

(** C1 (as stated) fails: the signal that accompanies a user's report has
    the type ACTIVE, not INITIAL. *)
Lemma user_signal_is_not_INITIAL :
  ~ (forall (server : list Event -> Request -> FetchOutcome)
            (JSON_parse : string -> option JSVal) (f : ReportForm) (w : World) (e : Event),
       In e (sent (submitMasjidReport server JSON_parse false f) w) ->
       (url e.2 = "/api/masjids/" -> field e.2 "isActive" = JBool false)
       /\ (url e.2 = "/api/signals/" ->
           field e.2 "signalType" = JStr "INITIAL"
           /\ field e.2 "sourceType" = JStr "USER")).
Proof.
  intros H.
  pose (evs := sent (submitMasjidReport accepting parse_known false al_noor)
                 (session "access-1" "refresh-1")).
  pose (e := nth 2 evs (ByApiFetch, verify_request "")).
  assert (In e evs) as Hin.
  { vm_compute. right. right. left. reflexivity. }
  destruct (H accepting parse_known al_noor (session "access-1" "refresh-1") e Hin)
    as [_ Hsignal].
  destruct (Hsignal eq_refl) as [Htype _].
  vm_compute in Htype. discriminate Htype.
Qed.

(** * Further facts about the display helpers *)

(** X1.  The two ways the client reads the level of a record agree on every
    record, and the card, which reads it a third way, shows the same badge. *)
Theorem level_readings_agree (m : JSVal) :
  level_guarded m = level_chained m
  /\ match masjidCardHTML_level m, level_guarded m with
     | Ok a, Ok b => confidenceBadgeHTML a = confidenceBadgeHTML b
     | Throw e, Throw e' => e = e'
     | _, _ => False
     end.
Proof.
  destruct m as [| | | | | |fields]; try (split; reflexivity).
  unfold level_guarded, level_chained, masjidCardHTML_level.
  cbn [getProp mbind Result_bind].
  destruct (own fields "confidence_record") as [cr|]; [|split; reflexivity].
  cbn [default from_option id].
  destruct cr as [| |b|n|s|items|cf]; try (split; reflexivity).
  - destruct b; split; reflexivity.
  - cbn. destruct (n =? 0)%Z; split; reflexivity.
  - cbn. destruct (String.eqb s ""); split; reflexivity.
  - cbn. destruct (own cf "confidenceLevel") as [[]|]; split; reflexivity.
Qed.

Lemma levels_agree (m : JSVal) : level_guarded m = level_chained m.
Proof.
  destruct m as [| | | | | |fields]; try reflexivity.
  unfold level_guarded, level_chained. cbn [getProp mbind Result_bind].
  destruct (own fields "confidence_record") as [cr|]; [|reflexivity].
  cbn [default from_option id].
  destruct cr as [| |b|n|s|items|cf]; try reflexivity.
  - now destruct b.
  - cbn. now destruct (n =? 0)%Z.
  - cbn. now destruct (String.eqb s "").
  - cbn. now destruct (own cf "confidenceLevel") as [[]|].
Qed.

Lemma keeps_level_out_of_range (chips : list string) (n : Z) :
  ~ (0 <= n <= 3)%Z ->
  Forall (fun c => In c ["0"; "1"; "2"; "3"]) chips ->
  keeps_level chips (JNum n) = Ok false.
Proof.
  intros Hn Hchips. unfold keeps_level. cbn [ToString mbind Result_bind]. f_equal.
  induction Hchips as [|c chips Hc _ IH]; [reflexivity|].
  cbn [existsb]. rewrite IH, orb_false_r. apply String.eqb_neq. intros E.
  destruct Hc as [H | [H | [H | [H | []]]]]; subst c;
    [ change "0" with (string_of_Z 0) in E | change "1" with (string_of_Z 1) in E
    | change "2" with (string_of_Z 2) in E | change "3" with (string_of_Z 3) in E ];
    apply string_of_Z_inj in E; lia.
Qed.

(** X2.  A record whose level is a number outside 0..3 is shown with the badge
    of level 0, and yet, once a confidence chip of the explore page is
    active, no choice of chips keeps it in the list, the chip of level 0
    included; with no chip active the list is not filtered and it stays. *)
Theorem out_of_range_level_shown_but_not_filtered (m : JSVal) (n : Z) (chips : list string) :
  level_guarded m = Ok (JNum n) ->
  ~ (0 <= n <= 3)%Z ->
  Forall (fun c => In c ["0"; "1"; "2"; "3"]) chips ->
  chips <> [] ->
  initDetail_confidence m = Ok (level_markup 0)
  /\ searchMasjids_filter chips m = Ok false
  /\ searchMasjids_filter' chips m = Ok false
  /\ searchMasjids_filter [] m = Ok true
  /\ searchMasjids_filter' [] m = Ok true.
Proof.
  intros Hl Hn Hchips Hactive. pose proof (levels_agree m) as Hsame.
  unfold initDetail_confidence, searchMasjids_filter, searchMasjids_filter'.
  rewrite <- Hsame, Hl. cbn [mbind Result_bind].
  rewrite (badge_of_other_number n Hn), (keeps_level_out_of_range chips n Hn Hchips).
  destruct chips; [contradiction|]. repeat split.
Qed.

Lemma out_of_range_level_witness :
  level_guarded (JObj [("confidence_record", JObj [("confidenceLevel", JNum 7)])])
  = Ok (JNum 7)
  /\ searchMasjids_filter ["0"; "1"; "2"; "3"]
       (JObj [("confidence_record", JObj [("confidenceLevel", JNum 7)])]) = Ok false
  /\ initDetail_confidence
       (JObj [("confidence_record", JObj [("confidenceLevel", JNum 7)])])
     = Ok (level_markup 0).
Proof.
  split; [reflexivity|].
  destruct (out_of_range_level_shown_but_not_filtered
              (JObj [("confidence_record", JObj [("confidenceLevel", JNum 7)])]) 7
              ["0"; "1"; "2"; "3"] eq_refl ltac:(lia)
              ltac:(repeat constructor; simpl; tauto) ltac:(discriminate))
    as (Hb & Hf & _).
  split; [exact Hf | exact Hb].
Defined.

Lemma string_app_assoc (a b c : string) : (a ++ b) ++ c = a ++ (b ++ c).
Proof.
  induction a as [|x a IH]; [reflexivity|].
  change ((String x a ++ b) ++ c) with (String x ((a ++ b) ++ c)).
  now rewrite IH.
Qed.

Lemma serializeText_app (a b : string) :
  serializeText (a ++ b) = serializeText a ++ serializeText b.
Proof.
  induction a as [|c a IH]; [reflexivity|].
  change (String c a ++ b) with (String c (a ++ b)). cbn [serializeText].
  rewrite IH. symmetry. apply string_app_assoc.
Qed.

Lemma escapeChar_plain (c : ascii) :
  needs_escape c = false -> escapeChar c = String c EmptyString.
Proof.
  unfold needs_escape, escapeChar. intros H.
  apply orb_false_iff in H as [H H4]. apply orb_false_iff in H as [H H3].
  apply orb_false_iff in H as [H1 H2]. now rewrite H1, H2, H3, H4.
Qed.

Lemma escapeChar_escaped (c : ascii) :
  needs_escape c = true -> (2 <= String.length (escapeChar c))%nat.
Proof.
  unfold needs_escape, escapeChar. intros H.
  destruct (Ascii.eqb c "&"); [cbn; lia|]. destruct (Ascii.eqb c "<"); [cbn; lia|].
  destruct (Ascii.eqb c ">"); [cbn; lia|].
  destruct (Ascii.eqb c (ascii_of_nat 160)); [cbn; lia | discriminate H].
Qed.

Lemma serializeText_length (s : string) :
  (String.length s <= String.length (serializeText s))%nat.
Proof.
  induction s as [|c s IH]; [reflexivity|].
  cbn [serializeText]. rewrite length_app_string. cbn [String.length].
  destruct (needs_escape c) eqn:E.
  - pose proof (escapeChar_escaped c E). lia.
  - rewrite (escapeChar_plain c E). cbn. lia.
Qed.

(** X3.  escHTML works piece by piece: the escape of a concatenation is the
    concatenation of the escapes; and it leaves a string as it is exactly
    when the string holds none of the four code units it rewrites. *)
Theorem escHTML_piecewise :
  (forall a b, exists ha hb,
     escHTML (JStr a) = Ok ha /\ escHTML (JStr b) = Ok hb
     /\ escHTML (JStr (a ++ b)) = Ok (ha ++ hb))
  /\ (forall s, escHTML (JStr s) = Ok s <-> plain_text s = true).
Proof.
  split.
  - intros a b. exists (serializeText a), (serializeText b).
    rewrite !escHTML_string, serializeText_app. now repeat split.
  - intros s. rewrite escHTML_string.
    assert (serializeText s = s <-> plain_text s = true) as Hplain.
    { induction s as [|c s IH]; [easy|].
      cbn [serializeText plain_text]. destruct (needs_escape c) eqn:E; cbn [negb andb].
      + split; [|discriminate]. intros H. exfalso.
        apply (f_equal String.length) in H. rewrite length_app_string in H.
        pose proof (escapeChar_escaped c E). pose proof (serializeText_length s).
        cbn [String.length] in H. lia.
      + rewrite (escapeChar_plain c E).
        change (String c "" ++ serializeText s) with (String c (serializeText s)).
        rewrite <- IH. split; [intros H; now injection H | intros ->; reflexivity]. }
    rewrite <- Hplain. split; [intros H; now injection H | intros ->; reflexivity].
Qed.

(** X4.  Every falsy value, the number 0 and [false] among them, is rendered
    by escHTML as the empty string. *)
Theorem escHTML_falsy_is_empty (v : JSVal) :
  truthy v = false -> escHTML v = Ok "".
Proof. intros H. unfold escHTML, js_or. now rewrite H. Qed.

Lemma escHTML_falsy_witness :
  truthy (JNum 0) = false /\ escHTML (JNum 0) = Ok "" /\ escHTML (JBool false) = Ok "".
Proof.
  split; [reflexivity|].
  split; [apply (escHTML_falsy_is_empty (JNum 0)) | apply (escHTML_falsy_is_empty (JBool false))];
    reflexivity.
Defined.

Lemma occurs_escapeChar_quote (q c : ascii) :
  q = ascii_of_nat 34 \/ q = ascii_of_nat 39 ->
  occurs q (escapeChar c) = Ascii.eqb q c.
Proof.
  intros Hq. unfold escapeChar.
  destruct (Ascii.eqb_spec c "&") as [-> | _];
    [destruct Hq as [-> | ->]; reflexivity|].
  destruct (Ascii.eqb_spec c "<") as [-> | _];
    [destruct Hq as [-> | ->]; reflexivity|].
  destruct (Ascii.eqb_spec c ">") as [-> | _];
    [destruct Hq as [-> | ->]; reflexivity|].
  destruct (Ascii.eqb_spec c (ascii_of_nat 160)) as [-> | _];
    [destruct Hq as [-> | ->]; reflexivity|].
  cbn [occurs]. apply orb_false_r.
Qed.

Lemma occurs_serializeText_quote (q : ascii) (s : string) :
  q = ascii_of_nat 34 \/ q = ascii_of_nat 39 ->
  occurs q (serializeText s) = occurs q s.
Proof.
  intros Hq. induction s as [|c s IH]; [reflexivity|].
  cbn [serializeText occurs]. now rewrite occurs_app, IH, occurs_escapeChar_quote.
Qed.

(** X5.  Whenever the info table of the detail page is built, the name of
    the masjid is in its cell as it is, angle brackets included, and the
    website address is in the [href] attribute as escHTML returns it,
    with every double quote of the address in place. *)
Theorem initDetail_rows_unescaped (fields : list (string * JSVal)) (loc : JSVal)
        (name site : string) (rows : list (string * Cell)) :
  own fields "name" = Some (JStr name) ->
  own fields "websiteURL" = Some (JStr site) -> site <> "" ->
  initDetail_rows (JObj fields) loc = Ok rows ->
  In ("Name", CellHTML name) rows
  /\ (exists href,
        escHTML (JStr site) = Ok href
        /\ In ("Website",
               CellHTML ("<a href=" ++ dq ++ href ++ dq ++ " target="
                         ++ dq ++ "_blank" ++ dq ++ ">" ++ href ++ "</a>")) rows
        /\ occurs (ascii_of_nat 34) href = occurs (ascii_of_nat 34) site)
  /\ row_html "Name" name = "<tr><th>Name</th><td>" ++ name ++ "</td></tr>".
Proof.
  intros Hname Hsite Hne H. unfold initDetail_rows in H.
  cbn [getProp mbind Result_bind] in H. rewrite Hname, Hsite in H.
  cbn [default from_option id ToString] in H.
  assert (truthy (JStr site) = true) as Htruthy.
  { cbn. apply negb_true_iff, String.eqb_neq, Hne. }
  rewrite Htruthy, escHTML_string in H. cbn [mbind Result_bind] in H.
  bind_inv H. injection H as <-.
  split; [cbn; tauto|]. split; [|reflexivity].
  exists (serializeText site). split; [apply escHTML_string|]. split; [cbn; tauto|].
  apply occurs_serializeText_quote. now left.
Qed.

Lemma strip_trailing_comma_no_comma (s : string) :
  occurs "," s = false -> strip_trailing_comma s = s.
Proof.
  induction s as [|c s IH]; [reflexivity|]. cbn [occurs strip_trailing_comma].
  intros H. apply orb_false_iff in H as [Hc Hs].
  rewrite Ascii.eqb_sym, Hc. cbn [andb]. now rewrite IH.
Qed.

Lemma drop_spaces_no_comma (s : string) :
  occurs "," s = false -> occurs "," (drop_spaces s) = false.
Proof.
  induction s as [|c s IH]; [reflexivity|]. cbn [drop_spaces]. intros H.
  destruct (is_space c); [|exact H].
  cbn [occurs] in H. apply orb_false_iff in H as [_ Hs]. now apply IH.
Qed.

Lemma strip_trailing_comma_line (c k : string) :
  occurs "," c = false -> occurs "," k = false ->
  strip_trailing_comma (c ++ ", " ++ k) = if all_spaces k then c else c ++ ", " ++ k.
Proof.
  intros Hc Hk. induction c as [|x c IH].
  - change ("" ++ ", " ++ k) with (String "," (String " " k)).
    cbn [strip_trailing_comma]. change (all_spaces (String " " k)) with (all_spaces k).
    change (Ascii.eqb "," ",") with true. cbn [andb].
    destruct (all_spaces k); [reflexivity|].
    change (Ascii.eqb " " ",") with false. cbn [andb].
    now rewrite (strip_trailing_comma_no_comma k Hk).
  - cbn [occurs] in Hc. apply orb_false_iff in Hc as [Hx Hc].
    change (String x c ++ ", " ++ k) with (String x (c ++ ", " ++ k)).
    cbn [strip_trailing_comma]. rewrite Ascii.eqb_sym, Hx. cbn [andb].
    rewrite (IH Hc). now destruct (all_spaces k).
Qed.

Lemma strip_commas_line (c k : string) :
  occurs "," c = false -> occurs "," k = false ->
  strip_commas (c ++ ", " ++ k) = city_line c k.
Proof.
  intros Hc Hk. unfold city_line. destruct c as [|x c].
  - change ("" ++ ", " ++ k) with (String "," (String " " k)).
    cbn [strip_commas]. change (Ascii.eqb "," ",") with true. cbn iota.
    change (drop_spaces (String " " k)) with (drop_spaces k).
    apply strip_trailing_comma_no_comma, drop_spaces_no_comma, Hk.
  - change (String.eqb (String x c) "") with false. cbn iota.
    pose proof Hc as Hc'. cbn [occurs] in Hc'. apply orb_false_iff in Hc' as [Hx _].
    change (String x c ++ ", " ++ k) with (String x (c ++ ", " ++ k)).
    cbn [strip_commas]. rewrite Ascii.eqb_sym, Hx.
    change (String x (c ++ ", " ++ k)) with (String x c ++ ", " ++ k).
    now apply strip_trailing_comma_line.
Qed.

Lemma js_or_string (s : string) : ToString (js_or (JStr s) (JStr "")) = Ok s.
Proof. unfold js_or. destruct s; reflexivity. Qed.

Lemma location_line_strings (lf : list (string * JSVal)) (c k : string) :
  own lf "city" = Some (JStr c) -> own lf "country" = Some (JStr k) ->
  location_line (JObj lf) = Ok (strip_commas (c ++ ", " ++ k)).
Proof.
  intros Hc Hk. unfold location_line. cbn [getProp mbind Result_bind].
  rewrite Hc, Hk. cbn [default from_option id].
  now rewrite !js_or_string.
Qed.

(** X6.  The location line of a card.  On every card that is built, a city
    and a country without commas read as the two joined by a comma, or as
    the one that is there when the other is empty (without a stray comma),
    and a record without location reads Location unknown. *)
Theorem card_location_line (fields : list (string * JSVal)) (card : Card) :
  masjidCardHTML (JObj fields) = Ok card ->
  (forall lf c k,
     own fields "location_record" = Some (JObj lf) ->
     own lf "city" = Some (JStr c) -> own lf "country" = Some (JStr k) ->
     occurs "," c = false -> occurs "," k = false ->
     escHTML (JStr (city_line c k)) = Ok (card_city card))
  /\ (own fields "location_record" = None ->
      card_city card = "Location unknown").
Proof.
  intros H. unfold masjidCardHTML in H. cbn [getProp mbind Result_bind] in H.
  split.
  - intros lf c k Hloc Hcity Hcountry Hc Hk. rewrite Hloc in H.
    cbn [default from_option id truthy] in H.
    rewrite (location_line_strings lf c k Hcity Hcountry) in H.
    rewrite (strip_commas_line c k Hc Hk) in H. cbn [mbind Result_bind] in H.
    bind_inv H. injection H as <-. cbn [card_city]. reflexivity.
  - intros Hloc. rewrite Hloc in H.
    cbn [default from_option id truthy mbind Result_bind] in H.
    bind_inv H. injection H as <-. cbn [card_city].
    match goal with E : escHTML (JStr "Location unknown") = Ok _ |- _ =>
      now injection E end.
Qed.

Lemma card_location_line_witness :
  (exists card,
     masjidCardHTML (JObj [("name", JStr "Al-Noor");
                           ("location_record",
                             JObj [("city", JStr "Doha"); ("country", JStr "")])])
     = Ok card
     /\ card_city card = "Doha").
Proof.
  eexists. split; [reflexivity|].
  match goal with
  | |- card_city ?card = _ =>
      destruct (card_location_line
                  [("name", JStr "Al-Noor");
                   ("location_record", JObj [("city", JStr "Doha"); ("country", JStr "")])]
                  card eq_refl) as [H _];
      specialize (H [("city", JStr "Doha"); ("country", JStr "")] "Doha" ""
                    eq_refl eq_refl eq_refl eq_refl eq_refl)
  end.
  exact (f_equal (fun r => match r with Ok text => text | Throw _ => "" end) (eq_sym H)).
Defined.

(** * Further facts about the session *)

Section SessionMore.

Variable server : list Event -> Request -> FetchOutcome.

Lemma world_eta (w : World) : {| storage := storage w; log := log w |} = w.
Proof. now destruct w. Qed.

Lemma logged_nil (w : World) : logged w [] (storage w) = w.
Proof. unfold logged. rewrite app_nil_r. apply world_eta. Qed.

(** Without a refresh token (none stored, or an empty one)
    [Auth.refreshToken] answers false at once: nothing is sent and the
    storage is left as it is. *)
Lemma refreshToken_without_token (w : World) :
  truthy (stored (storage w !! "al_refresh")) = false ->
  Auth.refreshToken server w = (Ok false, w).
Proof.
  intros H. unfold Auth.refreshToken, Auth.getRefresh, getItem, mbind, M_bind.
  now rewrite H.
Qed.

(** X7.  A granted refresh (an ok answer whose tokens can be stored) stores
    the new access token and leaves the stored user as it is; the refresh
    token is replaced when the answer carries a new one and kept
    otherwise. *)
Theorem refreshToken_granted_storage (w : World) (rt access : string)
        (new_refresh : option string) :
  storage w !! "al_refresh" = Some rt -> rt <> "" ->
  refresh_data (server (log w) (refresh_request rt)) = Some (access, new_refresh) ->
  (Auth.refreshToken server w).1 = Ok true
  /\ storage (Auth.refreshToken server w).2 !! "al_access" = Some access
  /\ storage (Auth.refreshToken server w).2 !! "al_refresh" = Some (default rt new_refresh)
  /\ storage (Auth.refreshToken server w).2 !! "al_user" = storage w !! "al_user".
Proof.
  intros Hrt Hne Hgrant.
  rewrite (refreshToken_succeeds server w rt (access, new_refresh) Hrt Hne Hgrant).
  cbn [fst snd storage logged]. split; [reflexivity|].
  split; [apply (renewed_access (access, new_refresh))|].
  unfold renewed. cbn [fst snd]. destruct new_refresh as [r|].
  - split; [apply lookup_insert_eq|]. now rewrite !lookup_insert_ne by discriminate.
  - rewrite !lookup_insert_ne by discriminate. now split.
Qed.

(** X8.  After [Auth.clear] nobody is logged in, a refresh is refused without a
    request, authFetch sends its requests without an Authorization header
    of its own, and what else the storage holds is untouched. *)
Theorem clear_ends_session (w : World) :
  (Auth.isLoggedIn (Auth.clear w).2).1 = Ok false
  /\ Auth.refreshToken server (Auth.clear w).2 = (Ok false, (Auth.clear w).2)
  /\ (forall u options,
        headers (first_request u options (Auth.clear w).2)
        = default ∅ (opt_headers options))
  /\ (forall k, k <> "al_access" -> k <> "al_refresh" -> k <> "al_user" ->
        storage (Auth.clear w).2 !! k = storage w !! k).
Proof.
  rewrite clear_run. cbn [snd].
  destruct (cleared_lookup (storage w)) as (Ha & Hr & Hu).
  split; [|split; [|split]].
  - unfold Auth.isLoggedIn, Auth.getAccess, getItem, mbind, M_bind. cbn [storage fst].
    now rewrite Ha.
  - apply refreshToken_without_token. cbn [storage]. now rewrite Hr.
  - intros u options. unfold first_request, with_token. cbn [storage]. rewrite Ha.
    cbn [stored truthy]. now destruct options as [m [h|] b].
  - intros k H1 H2 H3. cbn [storage]. unfold cleared.
    now rewrite !lookup_delete_ne by congruence.
Qed.

Lemma save_run (JSON_stringify : JSVal -> string) (access refresh user : JSVal)
      (w : World) (a r : string) :
  ToString access = Ok a -> ToString refresh = Ok r ->
  Auth.save JSON_stringify access refresh user w
  = (Ok tt, {| storage := <["al_user" := JSON_stringify user]>
                            (<["al_refresh" := r]> (<["al_access" := a]> (storage w)));
               log := log w |}).
Proof.
  intros Ha Hr. unfold Auth.save, setItem_value, lift, setItem, mbind, M_bind.
  now rewrite Ha, Hr.
Qed.

(** X9.  When the two tokens given can be converted to strings, what
    [Auth.save] stores is what the getters read back, the user through
    [JSON.parse] of its [JSON.stringify], and the client counts as logged
    in exactly when the text of the access token is not empty, so also
    after saving [undefined].  When the access token cannot be converted,
    [Auth.save] throws and stores nothing. *)
Theorem save_then_read (JSON_parse : string -> option JSVal)
        (JSON_stringify : JSVal -> string) (access refresh user : JSVal) (w : World) :
  JSON_parse (JSON_stringify user) = Some user ->
  JSON_stringify user <> "" ->
  (forall a r, ToString access = Ok a -> ToString refresh = Ok r ->
     (Auth.getAccess (Auth.save JSON_stringify access refresh user w).2).1 = Ok (Some a)
     /\ (Auth.getRefresh (Auth.save JSON_stringify access refresh user w).2).1
        = Ok (Some r)
     /\ (Auth.getUser JSON_parse (Auth.save JSON_stringify access refresh user w).2).1
        = Ok user
     /\ (Auth.isLoggedIn (Auth.save JSON_stringify access refresh user w).2).1
        = Ok (negb (String.eqb a ""))
     /\ (Auth.isLoggedIn (Auth.save JSON_stringify JUndefined refresh user w).2).1
        = Ok true)
  /\ (forall e, ToString access = Throw e ->
        Auth.save JSON_stringify access refresh user w = (Throw e, w)).
Proof.
  intros Hround Hne. split.
  - intros a r Ha Hr.
    rewrite (save_run JSON_stringify access refresh user w a r Ha Hr).
    rewrite (save_run JSON_stringify JUndefined refresh user w "undefined" r eq_refl Hr).
    cbn [snd].
    unfold Auth.isLoggedIn, Auth.getAccess, Auth.getRefresh, Auth.getUser,
      getItem, mbind, M_bind. cbn [fst snd storage].
    rewrite !lookup_insert_eq. rewrite !(lookup_insert_ne _ "al_user") by discriminate.
    rewrite !lookup_insert_eq. rewrite !(lookup_insert_ne _ "al_refresh") by discriminate.
    rewrite !lookup_insert_eq.
    split; [reflexivity|]. split; [reflexivity|]. split; [|split; reflexivity].
    unfold stored_or. cbn [stored truthy stored_text].
    apply String.eqb_neq in Hne. rewrite Hne. cbn [negb]. cbn. now rewrite Hround.
  - intros e He. unfold Auth.save, setItem_value, lift, mbind, M_bind. now rewrite He.
Qed.

Lemma with_token_headers (token : option string) (options : Options) (k : string) :
  k <> "Authorization" ->
  default ∅ (opt_headers (with_token token options)) !! k
  = default ∅ (opt_headers options) !! k.
Proof.
  intros Hk. destruct options as [m [h|] b]; unfold with_token, set_header;
    cbn [opt_headers opt_method opt_body default from_option id];
    destruct (truthy (stored token));
    cbn [opt_headers default from_option id]; try reflexivity;
    now rewrite lookup_insert_ne by congruence.
Qed.

(** X10.  The request authFetch sends first is the caller's: the address, the
    method (GET when none is given) and the body are the caller's, and so
    is every header but Authorization, which is set to Bearer and the
    stored access token when one is stored, and left to the caller when
    none is. *)
Theorem authFetch_first_request (u : string) (options : Options) (w : World) :
  (exists rest,
     sent (authFetch server u options) w = (ByAuthFetch, first_request u options w) :: rest)
  /\ url (first_request u options w) = u
  /\ method (first_request u options w) = default "GET" (opt_method options)
  /\ body (first_request u options w) = opt_body options
  /\ (forall k, k <> "Authorization" ->
        headers (first_request u options w) !! k = default ∅ (opt_headers options) !! k)
  /\ headers (first_request u options w) !! "Authorization"
     = (if truthy (stored (storage w !! "al_access"))
        then Some ("Bearer " ++ stored_text (storage w !! "al_access"))
        else default ∅ (opt_headers options) !! "Authorization").
Proof.
  split.
  { destruct (authFetch_cases server u options w) as (res & evs & st & Hrun & Htrace).
    rewrite (sent_logged _ _ _ _ _ Hrun). destruct Htrace; eauto. }
  unfold first_request, request_of. cbn [url method body headers].
  split; [reflexivity|]. split.
  { unfold with_token. now destruct options as [m [h|] b], (truthy _). }
  split; [apply with_token_body|]. split; [intros k Hk; now apply with_token_headers|].
  destruct options as [m [h|] b]; unfold with_token, set_header;
    cbn [opt_headers opt_method opt_body default from_option id];
    destruct (truthy (stored (storage w !! "al_access")));
    cbn [opt_headers default from_option id]; try reflexivity; apply lookup_insert_eq.
Qed.

(** X11.  A response that is no 401, and a 401 when no refresh token is held,
    comes back from authFetch as it is: one request was sent and the
    storage is untouched, so a 401 without a refresh token leaves the
    stored access token in place. *)
Theorem authFetch_passes_through (u : string) (options : Options) (w : World) (r : Response) :
  server (log w) (first_request u options w) = Responded r ->
  status r <> 401%Z \/ truthy (stored (storage w !! "al_refresh")) = false ->
  (authFetch server u options w).1 = Ok r
  /\ storage (authFetch server u options w).2 = storage w
  /\ sent (authFetch server u options) w = [(ByAuthFetch, first_request u options w)].
Proof.
  intros H Hor.
  assert ((status r =? 401)%Z && truthy (stored (storage w !! "al_refresh")) = false) as Hc.
  { destruct Hor as [Hs | Ht].
    - apply Z.eqb_neq in Hs. now rewrite Hs.
    - rewrite Ht. apply andb_false_r. }
  pose proof (authFetch_plain server u options w r H Hc) as Hrun.
  rewrite (sent_logged _ _ _ _ _ Hrun), Hrun. now repeat split.
Qed.

(** X12.  After a refresh that was not granted the session is gone for the calls
    that follow: the next authFetch sends its request once, without an
    Authorization header of its own, and attempts no refresh. *)
Theorem authFetch_after_failed_refresh
        (u : string) (options : Options) (w : World) (r : Response) (rt : string)
        (u' : string) (options' : Options) :
  server (log w) (first_request u options w) = Responded r ->
  status r = 401%Z ->
  storage w !! "al_refresh" = Some rt -> rt <> "" ->
  refresh_data (server (log w ++ [(ByAuthFetch, first_request u options w)])
                       (refresh_request rt)) = None ->
  headers (first_request u' options' (authFetch server u options w).2)
  = default ∅ (opt_headers options')
  /\ sent (authFetch server u' options') (authFetch server u options w).2
     = [(ByAuthFetch, first_request u' options' (authFetch server u options w).2)].
Proof.
  intros H H401 Hrt Hne Hfail.
  rewrite (authFetch_refresh_fails server u options w r rt H H401 Hrt Hne Hfail).
  cbn [snd]. set (w' := logged w _ _).
  destruct (cleared_lookup (storage w)) as (Ha & Hr & _).
  split.
  - unfold first_request, with_token. cbn [storage w' logged]. rewrite Ha.
    cbn [stored truthy]. now destruct options' as [m [h|] b].
  - destruct (server (log w') (first_request u' options' w')) as [|r'] eqn:E.
    + apply (sent_logged _ _ _ _ _ (authFetch_no_response server u' options' w' E)).
    + refine (sent_logged _ _ _ _ _ (authFetch_plain server u' options' w' r' E _)).
      cbn [storage w' logged]. rewrite Hr. apply andb_false_r.
Qed.


(** X13.  After a granted refresh (an ok answer whose tokens can be stored)
    authFetch returns whatever the second attempt brings, a second 401
    included, and throws when it gets no response; there is no further
    refresh, and the renewed session stays stored. *)
Theorem authFetch_retry_result
        (u : string) (options : Options) (w : World) (r : Response) (rt : string)
        (access : string) (new_refresh : option string) :
  server (log w) (first_request u options w) = Responded r ->
  status r = 401%Z ->
  storage w !! "al_refresh" = Some rt -> rt <> "" ->
  refresh_data (server (log w ++ [(ByAuthFetch, first_request u options w)])
                       (refresh_request rt)) = Some (access, new_refresh) ->
  (authFetch server u options w).1
  = match server (log w ++ [(ByAuthFetch, first_request u options w);
                            (ByRefreshToken, refresh_request rt)])
                 (retry_request u options w access) with
    | NoResponse => Throw NetworkError
    | Responded r' => Ok r'
    end
  /\ storage (authFetch server u options w).2 = renewed (access, new_refresh) (storage w)
  /\ storage (authFetch server u options w).2 !! "al_access" = Some access
  /\ storage (authFetch server u options w).2 !! "al_user" = storage w !! "al_user"
  /\ is_Some (storage (authFetch server u options w).2 !! "al_refresh").
Proof.
  intros H H401 Hrt Hne Hgrant.
  rewrite (authFetch_retries server u options w r rt (access, new_refresh)
             H H401 Hrt Hne Hgrant).
  cbn [fst snd storage logged]. split; [reflexivity|]. split; [reflexivity|].
  split; [apply (renewed_access (access, new_refresh))|].
  unfold renewed. cbn [fst snd]. destruct new_refresh as [nr|].
  - split; [now rewrite !lookup_insert_ne by discriminate|].
    rewrite lookup_insert_eq. eauto.
  - rewrite !lookup_insert_ne by discriminate. rewrite Hrt. split; eauto.
Qed.

Lemma apiFetch_run (endpoint : string) (params : list (string * JSVal)) (w : World) :
  apiFetch server endpoint params w
  = match search_params params with
    | Throw e => (Throw e, w)
    | Ok q =>
        (match server (log w) (api_request endpoint q) with
         | NoResponse => Throw NetworkError
         | Responded r =>
             if ok r then
               match json r with
               | Some data => Ok data
               | None => Throw SyntaxError
               end
             else Throw (ErrorMsg ("API " ++ string_of_Z (status r)))
         end,
         logged w [(ByApiFetch, api_request endpoint q)] (storage w))
    end.
Proof.
  unfold apiFetch, lift, mbind, M_bind, fetch.
  destruct (search_params params) as [q|e]; [|reflexivity].
  destruct (server (log w) (api_request endpoint q)) as [|r]; [reflexivity|].
  destruct (ok r); [|reflexivity]. cbn [negb]. unfold res_json.
  now destruct (json r).
Qed.

(** X14.  For an endpoint below [/api/], apiFetch sends at most one request,
    a GET without any header or body whatever session is stored, and
    leaves the storage as it is.  When a parameter cannot be converted to
    a string it throws before anything is sent; otherwise it sends the
    request, returns the parsed body of an ok response, and throws on no
    response, on a status that is not ok (with the status in the message)
    and on a body that is not JSON. *)
Theorem apiFetch_outcomes (endpoint : string) (params : list (string * JSVal)) (w : World) :
  String.prefix "/api/" endpoint = true ->
  (forall q, search_params params = Ok q ->
     exists rq,
       sent (apiFetch server endpoint params) w = [(ByApiFetch, rq)]
       /\ method rq = "GET" /\ headers rq = ∅ /\ body rq = None
       /\ (apiFetch server endpoint params w).1
          = match server (log w) rq with
            | NoResponse => Throw NetworkError
            | Responded r =>
                if ok r then
                  match json r with
                  | Some data => Ok data
                  | None => Throw SyntaxError
                  end
                else Throw (ErrorMsg ("API " ++ string_of_Z (status r)))
            end)
  /\ (forall e, search_params params = Throw e ->
        apiFetch server endpoint params w = (Throw e, w))
  /\ storage (apiFetch server endpoint params w).2 = storage w.
Proof.
  intros _. pose proof (apiFetch_run endpoint params w) as Hrun.
  destruct (search_params params) as [q|e].
  - rewrite (sent_logged _ _ _ _ _ Hrun), Hrun. split; [|split; [discriminate | reflexivity]].
    intros q' E. injection E as <-. exists (api_request endpoint q). now repeat split.
  - rewrite Hrun. split; [discriminate|]. split; [|reflexivity].
    intros e' E. now injection E as <-.
Qed.

End SessionMore.

Lemma save_then_read_witness :
  parse_known (stringify_known (JObj [("username", JStr "amina")]))
  = Some (JObj [("username", JStr "amina")])
  /\ (Auth.getUser parse_known
        (Auth.save stringify_known (JStr "access-1") (JStr "refresh-1")
           (JObj [("username", JStr "amina")]) anonymous).2).1
     = Ok (JObj [("username", JStr "amina")])
  /\ Auth.save stringify_known unprintable (JStr "refresh-1")
       (JObj [("username", JStr "amina")]) anonymous
     = (Throw TypeError, anonymous).
Proof.
  split; [reflexivity|]. split.
  - destruct (save_then_read parse_known stringify_known (JStr "access-1")
                (JStr "refresh-1") (JObj [("username", JStr "amina")]) anonymous
                eq_refl ltac:(discriminate)) as [H _].
    destruct (H "access-1" "refresh-1" eq_refl eq_refl) as (_ & _ & Hu & _).
    exact Hu.
  - destruct (save_then_read parse_known stringify_known unprintable
                (JStr "refresh-1") (JObj [("username", JStr "amina")]) anonymous
                eq_refl ltac:(discriminate)) as [_ H].
    exact (H TypeError eq_refl).
Defined.

Lemma authFetch_after_failed_refresh_witness :
  sent (authFetch expired_for_good "/api/signals/" (post_json JNull))
       (authFetch expired_for_good "/api/masjids/" (post_json JNull)
          (session "access-1" "refresh-1")).2
  = [(ByAuthFetch,
      first_request "/api/signals/" (post_json JNull)
        (authFetch expired_for_good "/api/masjids/" (post_json JNull)
           (session "access-1" "refresh-1")).2)]
  /\ headers (first_request "/api/signals/" (post_json JNull)
                (authFetch expired_for_good "/api/masjids/" (post_json JNull)
                   (session "access-1" "refresh-1")).2) !! "Authorization"
     = None.
Proof.
  destruct (authFetch_after_failed_refresh expired_for_good "/api/masjids/" (post_json JNull)
              (session "access-1" "refresh-1")
              {| status := 401; json := Some (JObj [("detail", JStr "Token expired")]) |}
              "refresh-1" "/api/signals/" (post_json JNull)
              eq_refl eq_refl eq_refl ltac:(discriminate) eq_refl) as [Hh Hs].
  split; [exact Hs|]. rewrite Hh. reflexivity.
Defined.

Lemma refreshToken_without_token_witness :
  truthy (stored (storage anonymous !! "al_refresh")) = false
  /\ Auth.refreshToken granting anonymous = (Ok false, anonymous).
Proof.
  split; [reflexivity|]. now apply (refreshToken_without_token granting anonymous).
Defined.

Lemma refreshToken_granted_witness :
  storage (Auth.refreshToken granting (session "access-1" "refresh-1")).2 !! "al_access"
  = Some "access-2"
  /\ storage (Auth.refreshToken granting (session "access-1" "refresh-1")).2 !! "al_refresh"
     = Some "refresh-1"
  /\ storage (Auth.refreshToken granting (session "access-1" "refresh-1")).2 !! "al_user"
     = Some amina_text.
Proof.
  destruct (refreshToken_granted_storage granting (session "access-1" "refresh-1")
              "refresh-1" "access-2" None
              eq_refl ltac:(discriminate) eq_refl) as (_ & Ha & Hr & Hu).
  split; [exact Ha|]. split; [exact Hr | exact Hu].
Defined.

Lemma authFetch_passes_through_witness :
  (authFetch expired_for_good "/api/signals/" (post_json JNull) (session "access-1" "")).1
  = Ok {| status := 401; json := Some (JObj [("detail", JStr "Token expired")]) |}
  /\ storage (authFetch expired_for_good "/api/signals/" (post_json JNull)
                (session "access-1" "")).2 !! "al_access"
     = Some "access-1".
Proof.
  destruct (authFetch_passes_through expired_for_good "/api/signals/" (post_json JNull)
              (session "access-1" "")
              {| status := 401; json := Some (JObj [("detail", JStr "Token expired")]) |}
              eq_refl (or_intror eq_refl)) as (Hres & Hst & _).
  split; [exact Hres|]. now rewrite Hst.
Defined.

Lemma authFetch_retry_result_witness :
  (authFetch refused_again "/api/signals/" (post_json JNull) (session "access-1" "refresh-1")).1
  = Ok {| status := 401; json := Some (JObj [("detail", JStr "Token expired")]) |}
  /\ storage (authFetch refused_again "/api/signals/" (post_json JNull)
                (session "access-1" "refresh-1")).2 !! "al_access"
     = Some "access-2".
Proof.
  destruct (authFetch_retry_result refused_again "/api/signals/" (post_json JNull)
              (session "access-1" "refresh-1")
              {| status := 401; json := Some (JObj [("detail", JStr "Token expired")]) |}
              "refresh-1" "access-2" None
              eq_refl eq_refl eq_refl ltac:(discriminate) eq_refl) as (Hres & _ & Ha & _).
  split; [exact Hres | exact Ha].
Defined.

Lemma apiFetch_outcomes_witness :
  (exists rq,
     sent (apiFetch eight_pending "/api/masjids/" [("ordering", JStr "-created_at")])
          (session "access-1" "refresh-1")
     = [(ByApiFetch, rq)]
     /\ headers rq = ∅)
  /\ apiFetch eight_pending "/api/masjids/" [("search", unprintable)]
       (session "access-1" "refresh-1")
     = (Throw TypeError, session "access-1" "refresh-1").
Proof.
  split.
  - destruct (apiFetch_outcomes eight_pending "/api/masjids/"
                [("ordering", JStr "-created_at")] (session "access-1" "refresh-1")
                eq_refl) as [H _].
    destruct (H [("ordering", "-created_at")] eq_refl) as (rq & Hs & _ & Hh & _).
    now exists rq.
  - destruct (apiFetch_outcomes eight_pending "/api/masjids/"
                [("search", unprintable)] (session "access-1" "refresh-1")
                eq_refl) as (_ & H & _).
    exact (H TypeError eq_refl).
Defined.

(** * Further facts about the pages *)

Lemma mapM_ok {A : Type} (f : JSVal -> Result A) (l : list JSVal) :
  Forall (fun x => exists y, f x = Ok y) l ->
  exists ys, mapM f l = Ok ys /\ length ys = length l.
Proof.
  induction 1 as [|x l [y Hy] _ (ys & Hys & Hlen)]; [now exists []|].
  exists (y :: ys). cbn [mapM]. rewrite Hy. cbn [mbind Result_bind]. rewrite Hys.
  cbn. now rewrite Hlen.
Qed.

Lemma mapM_throws {A : Type} (f : JSVal -> Result A) (l : list JSVal) :
  Exists (fun x => exists e, f x = Throw e) l -> exists e, mapM f l = Throw e.
Proof.
  induction 1 as [x l [e He] | x l _ [e He]]; cbn [mapM].
  - rewrite He. eauto.
  - destruct (f x); cbn [mbind Result_bind]; [|eauto]. rewrite He. eauto.
Qed.

Lemma mapM_each {A : Type} (f : JSVal -> Result A) (P : A -> Prop) (l : list JSVal) (ys : list A) :
  (forall x y, f x = Ok y -> P y) -> mapM f l = Ok ys ->
  Forall P ys /\ length ys = length l.
Proof.
  intros HP. revert ys. induction l as [|x l IH]; intros ys H; cbn [mapM] in H.
  - injection H as <-. now split.
  - destruct (f x) as [y|] eqn:Hy; [|discriminate H]. cbn [mbind Result_bind] in H.
    destruct (mapM f l) as [ys'|]; [|discriminate H]. injection H as <-.
    destruct (IH ys' eq_refl) as [Hall Hlen]. split; [|cbn; now rewrite Hlen].
    constructor; [now apply (HP x)|assumption].
Qed.

Lemma getProp_getOpt (v : JSVal) (k : string) (x : JSVal) :
  getProp v k = Ok x -> x = getOpt v k.
Proof. destruct v; cbn; intros H; try discriminate H; now injection H. Qed.

Lemma masjidCardHTML_null (m : JSVal) :
  nullish m = true -> masjidCardHTML m = Throw TypeError.
Proof. destruct m; try discriminate; reflexivity. Qed.

Lemma escHTML_unconvertible (v : JSVal) :
  converts v = false -> exists e, escHTML v = Throw e.
Proof.
  unfold converts. intros H.
  assert (truthy v = true) as Hv by (destruct v as [| |[]| | | |]; try discriminate H; reflexivity).
  rewrite (escHTML_truthy v Hv). destruct (ToString v); [discriminate H | eauto].
Qed.

(** A card needs the name of its record. *)
Lemma masjidCardHTML_name (m : JSVal) :
  converts (getOpt m "name") = false -> exists e, masjidCardHTML m = Throw e.
Proof.
  intros Hname. unfold masjidCardHTML.
  repeat match goal with
  | |- exists e, mbind _ (getProp m "name") = Throw e =>
      let E := fresh "E" in
      destruct (getProp m "name") as [name|] eqn:E; cbn [mbind Result_bind]; [|eauto];
      apply getProp_getOpt in E; subst name;
      destruct (escHTML_unconvertible _ Hname) as [e ->]; cbn [mbind Result_bind]; eauto
  | |- exists e, mbind _ ?r = Throw e =>
      destruct r; cbn [mbind Result_bind]; [|eauto]
  end.
Qed.

Lemma pending_card_escaped (m : JSVal) (c : PendingCard) :
  pending_card m = Ok c ->
  occurs "<" (pending_name c) = false /\ occurs "<" (pending_desc c) = false
  /\ occurs "<" (pending_city c) = false.
Proof.
  unfold pending_card. intros H. bind_inv H. injection H as <-.
  cbn [pending_name pending_desc pending_city].
  repeat match goal with
  | E : escHTML _ = Ok _ |- _ => apply escHTML_no_angle in E; destruct E
  end.
  now repeat split.
Qed.

Section PagesMore.

Variable server : list Event -> Request -> FetchOutcome.
Variable JSON_parse : string -> option JSVal.

Lemma getUser_run (w : World) :
  Auth.getUser JSON_parse w
  = (match JSON_parse (user_text w) with
     | Some user => Ok user
     | None => Throw SyntaxError
     end, w).
Proof.
  unfold Auth.getUser, getItem, mbind, M_bind, user_text.
  now destruct (JSON_parse _).
Qed.

Lemma authFetch_responds (u : string) (options : Options) (w : World) :
  (forall past rq, server past rq <> NoResponse) ->
  exists r, (authFetch server u options w).1 = Ok r.
Proof.
  intros Hs.
  destruct (server (log w) (first_request u options w)) as [|r] eqn:H;
    [now apply Hs in H|].
  destruct ((status r =? 401)%Z && truthy (stored (storage w !! "al_refresh"))) eqn:Hc.
  2:{ exists r. now rewrite (authFetch_plain server u options w r H Hc). }
  apply andb_true_iff in Hc as [H401 Hheld]. apply Z.eqb_eq in H401.
  destruct (storage w !! "al_refresh") as [rt|] eqn:Hrt; [|discriminate Hheld].
  assert (rt <> "") as Hne by (intros ->; discriminate Hheld).
  destruct (refresh_data (server (log w ++ [(ByAuthFetch, first_request u options w)])
                                 (refresh_request rt))) as [tokens|] eqn:Hd.
  - rewrite (authFetch_retries server u options w r rt tokens H H401 Hrt Hne Hd). cbn [fst].
    destruct (server _ (retry_request u options w tokens.1)) as [|r'] eqn:E;
      [now apply Hs in E | eauto].
  - exists r. now rewrite (authFetch_refresh_fails server u options w r rt H H401 Hrt Hne Hd).
Qed.

Lemma pending_params :
  search_params [("isActive", JBool false); ("ordering", JStr "-created_at")]
  = Ok [("isActive", "false"); ("ordering", "-created_at")].
Proof. reflexivity. Qed.

Lemma featured_params :
  search_params [("page_size", JNum 6); ("ordering", JStr "-created_at")]
  = Ok [("page_size", "6"); ("ordering", "-created_at")].
Proof. reflexivity. Qed.

Lemma loadPendingMasjids_run (w : World) :
  exists out,
    loadPendingMasjids server w
    = (Ok out, logged w [(ByApiFetch, pending_request)] (storage w))
    /\ (forall cards, out = PendingShown cards ->
          (length cards <= 6)%nat
          /\ Forall (fun c => occurs "<" (pending_name c) = false
                              /\ occurs "<" (pending_desc c) = false
                              /\ occurs "<" (pending_city c) = false) cards)
    /\ (forall r items,
          server (log w) pending_request = Responded r ->
          ok r = true -> json r = Some (JArr items) ->
          (items = [] -> out = PendingHidden)
          /\ (items <> [] ->
              Forall (fun m => exists c, pending_card m = Ok c) (take 6 items) ->
              exists cards, out = PendingShown cards
                            /\ length cards = Nat.min 6 (length items))
          /\ (items <> [] ->
              Exists (fun m => exists e, pending_card m = Throw e) (take 6 items) ->
              out = PendingBroken)).
Proof.
  unfold loadPendingMasjids, try_catch at 1, mbind at 1, M_bind.
  rewrite apiFetch_run, pending_params. fold pending_request.
  destruct (server (log w) pending_request) as [|r] eqn:Hs.
  { eexists. split; [reflexivity|]. split; [discriminate|]. intros ? ? E. discriminate E. }
  destruct (ok r) eqn:Hok.
  2:{ eexists. split; [reflexivity|]. split; [discriminate|].
      intros r' items E Hok' Hj'. injection E as <-.
      rewrite Hok in Hok'. discriminate Hok'. }
  destruct (json r) as [data|] eqn:Hj.
  2:{ eexists. split; [reflexivity|]. split; [discriminate|].
      intros r' items E Hok' Hj'. injection E as <-.
      rewrite Hj in Hj'. discriminate Hj'. }
  unfold mbind, M_bind, lift.
  assert (forall r' items, Responded r = Responded r' -> json r' = Some (JArr items) ->
            data = JArr items) as Hdata.
  { intros r' items E Hj'. injection E as <-. rewrite Hj in Hj'. now injection Hj'. }
  destruct (results_of data) as [masjids|] eqn:Hres.
  2:{ eexists. split; [reflexivity|]. split; [discriminate|].
      intros r' items E Hok' Hj'. rewrite (Hdata r' items E Hj') in Hres.
      discriminate Hres. }
  destruct (js_length masjids) as [len|] eqn:Hlen.
  2:{ eexists. split; [reflexivity|]. split; [discriminate|].
      intros r' items E Hok' Hj'. rewrite (Hdata r' items E Hj') in Hres.
      change (results_of (JArr items)) with (Ok (JArr items)) in Hres.
      injection Hres as <-. discriminate Hlen. }
  destruct (strict_eq_zero len) eqn:Hz.
  { eexists. split; [reflexivity|]. split; [discriminate|].
    intros r' items E Hok' Hj'. rewrite (Hdata r' items E Hj') in Hres.
    change (results_of (JArr items)) with (Ok (JArr items)) in Hres.
    injection Hres as <-. injection Hlen as <-.
    split; [reflexivity|].
    split; intros Hne; (destruct items; [congruence | discriminate Hz]). }
  unfold try_catch.
  destruct (slice_map 6 pending_card masjids) as [cards|] eqn:Hmap.
  2:{ exists PendingBroken. split; [reflexivity|]. split; [discriminate|].
      intros r' items E Hok' Hj'. rewrite (Hdata r' items E Hj') in Hres.
      change (results_of (JArr items)) with (Ok (JArr items)) in Hres.
      injection Hres as <-. cbn [slice_map] in Hmap.
      split; [intros ->; injection Hlen as <-; discriminate Hz|].
      split; [|reflexivity].
      intros _ Hall. exfalso.
      destruct (mapM_ok pending_card (take 6 items) Hall) as (ys & Hys & _). congruence. }
  exists (PendingShown cards). split; [reflexivity|].
  assert (exists items, masjids = JArr items /\ mapM pending_card (take 6 items) = Ok cards)
    as (items0 & -> & Hm).
  { destruct masjids; try discriminate Hmap. eauto. }
  destruct (mapM_each pending_card
              (fun c => occurs "<" (pending_name c) = false
                        /\ occurs "<" (pending_desc c) = false
                        /\ occurs "<" (pending_city c) = false)
              (take 6 items0) cards pending_card_escaped Hm) as [Hesc Hlen'].
  split.
  - intros cards' E. injection E as <-. split; [|assumption].
    rewrite Hlen', length_take. lia.
  - intros r' items E Hok' Hj'. rewrite (Hdata r' items E Hj') in Hres.
    change (results_of (JArr items)) with (Ok (JArr items)) in Hres.
    injection Hres as <-. split; [|split].
    + intros ->. injection Hlen as <-. discriminate Hz.
    + intros _ _. exists cards. split; [reflexivity|]. now rewrite Hlen', length_take.
    + intros _ Hex. exfalso.
      destruct (mapM_throws pending_card (take 6 items) Hex) as [e He]. congruence.
Qed.

End PagesMore.

Section PageFacts.

Variable server : list Event -> Request -> FetchOutcome.
Variable JSON_parse : string -> option JSVal.

(** X15.  The list of pending masjids never throws and asks once, without any
    header, for the masjids with [isActive] false, newest first.  It shows
    at most six cards, none of whose texts holds an angle bracket.  For an
    answer that is an array it stays hidden when the array is empty; when
    each of the first six records can be rendered it shows a card for each
    of them, and when one of them cannot the section stays revealed with
    the grid as it was. *)
Theorem loadPendingMasjids_shows_six (w : World) :
  sent (loadPendingMasjids server) w = [(ByApiFetch, pending_request)]
  /\ storage (loadPendingMasjids server w).2 = storage w
  /\ exists out,
       (loadPendingMasjids server w).1 = Ok out
       /\ (forall cards, out = PendingShown cards ->
             (length cards <= 6)%nat
             /\ Forall (fun c => occurs "<" (pending_name c) = false
                                 /\ occurs "<" (pending_desc c) = false
                                 /\ occurs "<" (pending_city c) = false) cards)
       /\ (forall r items,
             server (log w) pending_request = Responded r ->
             ok r = true -> json r = Some (JArr items) ->
             (items = [] -> out = PendingHidden)
             /\ (items <> [] ->
                 Forall (fun m => exists c, pending_card m = Ok c) (take 6 items) ->
                 exists cards, out = PendingShown cards
                               /\ length cards = Nat.min 6 (length items))
             /\ (items <> [] ->
                 Exists (fun m => exists e, pending_card m = Throw e) (take 6 items) ->
                 out = PendingBroken)).
Proof.
  destruct (loadPendingMasjids_run server w) as (out & Hrun & Hcards & Hpos).
  rewrite (sent_logged _ _ _ _ _ Hrun), Hrun. cbn [fst snd storage logged].
  split; [reflexivity|]. split; [reflexivity|].
  exists out. split; [reflexivity|]. split; [exact Hcards | exact Hpos].
Qed.

(** X16.  The featured grid shows either a card for every record of the answer
    or the notice that the masjids could not be loaded, and nothing is
    ever thrown: it shows the cards when every record can be rendered, and
    the notice as soon as one record cannot, for which a record that is
    [null], or one whose name cannot be converted, is enough. *)
Theorem loadFeatured_all_or_nothing (w : World) (r : Response) (items : list JSVal) :
  server (log w) featured_request = Responded r ->
  ok r = true -> json r = Some (JArr items) ->
  (Forall (fun m => exists c, masjidCardHTML m = Ok c) items ->
   exists cards, (loadFeatured server w).1 = Ok (FeaturedCards cards)
                 /\ length cards = length items)
  /\ (Exists (fun m => exists e, masjidCardHTML m = Throw e) items ->
      (loadFeatured server w).1 = Ok FeaturedUnavailable)
  /\ (Exists (fun m => nullish m = true \/ converts (getOpt m "name") = false) items ->
      (loadFeatured server w).1 = Ok FeaturedUnavailable).
Proof.
  intros Hs Hok Hj.
  assert ((loadFeatured server w).1
          = match mapM masjidCardHTML items with
            | Ok cards => Ok (FeaturedCards cards)
            | Throw _ => Ok FeaturedUnavailable
            end) as Hrun.
  { unfold loadFeatured, try_catch, mbind at 1, M_bind.
    rewrite apiFetch_run, featured_params. fold featured_request.
    rewrite Hs, Hok, Hj. unfold mbind, M_bind, lift. cbv beta iota zeta.
    change (results_of (JArr items)) with (Ok (JArr items)). cbv beta iota zeta.
    cbn [array_map]. now destruct (mapM masjidCardHTML items). }
  rewrite Hrun.
  assert (Exists (fun m => exists e, masjidCardHTML m = Throw e) items ->
          match mapM masjidCardHTML items with
          | Ok cards => Ok (FeaturedCards cards)
          | Throw _ => Ok FeaturedUnavailable
          end = Ok FeaturedUnavailable) as Hthrow.
  { intros Hex. destruct (mapM_throws masjidCardHTML items Hex) as (e & He).
    now rewrite He. }
  split; [|split; [exact Hthrow|]].
  - intros Hall. destruct (mapM_ok masjidCardHTML items Hall) as (cards & Hc & Hlen).
    rewrite Hc. eauto.
  - intros Hex. apply Hthrow. eapply Exists_impl; [exact Hex|].
    intros m [Hm | Hm]; [|now apply masjidCardHTML_name].
    exists TypeError. now apply masjidCardHTML_null.
Qed.

Lemma initVerify_run (token : string) (w : World) :
  token <> "" ->
  exists page,
    initVerify server (Some token) w
    = (Ok (Some page), logged w [(ByApiFetch, verify_request token)] (storage w))
    /\ (forall r, server (log w) (verify_request token) = Responded r -> ok r = true ->
          json r = None \/ json r = Some JNull -> page = page_not_found).
Proof.
  intros Ht. unfold initVerify. rewrite (token_truthy token Ht). cbn [negb].
  unfold try_catch, mbind at 1, M_bind. rewrite apiFetch_run. cbn [search_params].
  change (api_request ("/api/verify/" ++ token ++ "/") []) with (verify_request token).
  destruct (server (log w) (verify_request token)) as [|r];
    [eexists; split; [reflexivity | discriminate]|].
  destruct (ok r) eqn:Hok.
  2:{ eexists. split; [reflexivity|]. intros r' E Hok'. injection E as <-.
      rewrite Hok in Hok'. discriminate Hok'. }
  destruct (json r) as [data|] eqn:Hj; [|eexists; split; reflexivity].
  unfold mbind, M_bind, lift.
  destruct (getProp data "valid") as [valid|] eqn:Hv.
  2:{ eexists. split; reflexivity. }
  assert (nullish data = false) as Hd by (destruct data; try discriminate Hv; reflexivity).
  assert (forall page : VerifyPage,
            forall r', Responded r = Responded r' -> ok r' = true ->
                       json r' = None \/ json r' = Some JNull -> page = page_not_found)
    as Hnever.
  { intros page r' E _ [Hn | Hn]; injection E as <-; rewrite Hj in Hn;
      [discriminate Hn | injection Hn as ->; discriminate Hd]. }
  destruct (truthy valid).
  - destruct (verified_details data) as [page|e]; eexists; (split; [reflexivity|]);
      apply Hnever.
  - eexists. split; [reflexivity|]. apply Hnever.
Qed.

(** X17.  The badge verification is a public lookup: whatever session is stored
    it sends one GET request without any header or body and leaves the
    storage as it is; without a token it sends nothing and shows nothing;
    an ok answer whose body is [null] or no JSON shows Badge Not Found. *)
Theorem initVerify_public (w : World) :
  (forall token, token <> "" ->
     exists rq,
       sent (initVerify server (Some token)) w = [(ByApiFetch, rq)]
       /\ method rq = "GET" /\ headers rq = ∅ /\ body rq = None
       /\ storage (initVerify server (Some token) w).2 = storage w
       /\ (forall r, server (log w) rq = Responded r -> ok r = true ->
             json r = None \/ json r = Some JNull ->
             (initVerify server (Some token) w).1 = Ok (Some page_not_found)))
  /\ initVerify server None w = (Ok None, w)
  /\ initVerify server (Some "") w = (Ok None, w).
Proof.
  split; [|split; reflexivity].
  intros token Ht. destruct (initVerify_run token w Ht) as (page & Hrun & Hnull).
  exists (verify_request token).
  rewrite (sent_logged _ _ _ _ _ Hrun), Hrun. cbn [fst snd storage logged].
  split; [reflexivity|]. split; [reflexivity|]. split; [reflexivity|].
  split; [reflexivity|]. split; [reflexivity|].
  intros r Hs Hok Hn. now rewrite (Hnull r Hs Hok Hn).
Qed.

Lemma verify_pending_click_run (masjidId : string) (w : World) (user : JSVal) :
  JSON_parse (user_text w) = Some user ->
  verify_pending_click server JSON_parse masjidId w
  = (match (authFetch server "/api/signals/"
              (post_json (corroboration_body masjidId user)) w).1 with
     | Ok _ => Ok ButtonVerified
     | Throw _ => Ok ButtonFailed
     end,
     (authFetch server "/api/signals/" (post_json (corroboration_body masjidId user)) w).2).
Proof.
  intros Hu. unfold verify_pending_click, mbind at 1, M_bind.
  rewrite getUser_run, Hu. unfold try_catch, mbind, M_bind.
  now destruct (authFetch server "/api/signals/" _ w) as [[r|e] w'].
Qed.

(** X18.  A click on a verify button sends a signal of type ACTIVE from source
    USER for the masjid of the button, with the stored user name or
    [null]; the button reads Verified whenever the request got a response,
    whatever its status, and Failed only when it got none. *)
Theorem verify_pending_click_signal (masjidId : string) (w : World) (user : JSVal) :
  JSON_parse (user_text w) = Some user ->
  (forall e, In e (sent (verify_pending_click server JSON_parse masjidId) w) ->
     url e.2 = "/api/signals/" ->
     field e.2 "signalType" = JStr "ACTIVE" /\ field e.2 "sourceType" = JStr "USER"
     /\ field e.2 "masjid" = JStr masjidId
     /\ field e.2 "user" = js_or (getOpt user "username") JNull)
  /\ ((forall past rq, server past rq <> NoResponse) ->
      (verify_pending_click server JSON_parse masjidId w).1 = Ok ButtonVerified)
  /\ (server (log w) (first_request "/api/signals/"
                        (post_json (corroboration_body masjidId user)) w) = NoResponse ->
      (verify_pending_click server JSON_parse masjidId w).1 = Ok ButtonFailed).
Proof.
  intros Hu. pose proof (verify_pending_click_run masjidId w user Hu) as Hrun.
  split; [|split].
  - destruct (authFetch_cases server "/api/signals/"
                (post_json (corroboration_body masjidId user)) w)
      as (res & evs & st & Ha & Htrace).
    rewrite Ha in Hrun. cbn [fst snd] in Hrun.
    rewrite (sent_logged _ _ _ _ _ Hrun).
    assert (forall rq, body rq = Some (corroboration_body masjidId user) ->
              field rq "signalType" = JStr "ACTIVE" /\ field rq "sourceType" = JStr "USER"
              /\ field rq "masjid" = JStr masjidId
              /\ field rq "user" = js_or (getOpt user "username") JNull) as Hfields.
    { intros rq Hb. unfold field. rewrite Hb. now repeat split. }
    intros e He Hurl.
    destruct Htrace as [|rt|rt data]; cbn [In] in He;
      repeat (destruct He as [<- | He]; [try discriminate Hurl; apply Hfields; apply with_token_body|]);
      destruct He.
  - intros Hs. rewrite Hrun. cbn [fst].
    destruct (authFetch_responds server "/api/signals/"
                (post_json (corroboration_body masjidId user)) w Hs) as [r Hr].
    now rewrite Hr.
  - intros Hno. rewrite Hrun. cbn [fst].
    now rewrite (authFetch_no_response server _ _ w Hno).
Qed.

Lemma initReport_run (w : World) (user : JSVal) :
  JSON_parse (user_text w) = Some user ->
  exists page evs,
    initReport server JSON_parse w = (Ok page, logged w evs (storage w))
    /\ Forall (fun e => body e.2 = None) evs
    /\ page = (if negb (truthy (stored (storage w !! "al_access"))) then AuthWall
               else if strict_eq_string (getOpt user "accountType") "masjid_admin"
                    then ReportFormFor true None
                    else ReportFormFor false
                           (Some (default PendingHidden
                                    (match (loadPendingMasjids server w).1 with
                                     | Ok out => Some out
                                     | Throw _ => None
                                     end))))
    /\ (evs = [] <-> (truthy (stored (storage w !! "al_access")) = false
                      \/ strict_eq_string (getOpt user "accountType") "masjid_admin" = true)).
Proof.
  intros Hu. unfold initReport, mbind, M_bind. rewrite getUser_run, Hu.
  change (Auth.isLoggedIn w) with (Ok (truthy (stored (storage w !! "al_access"))), w).
  cbv beta iota zeta. unfold mret, M_ret.
  destruct (truthy (stored (storage w !! "al_access"))) eqn:Hl; cbn [negb].
  2:{ exists AuthWall, []. rewrite logged_nil.
      split; [reflexivity|]. split; [constructor|]. split; [reflexivity|].
      split; [now left | reflexivity]. }
  destruct (strict_eq_string (getOpt user "accountType") "masjid_admin") eqn:Ha.
  { exists (ReportFormFor true None), []. rewrite logged_nil.
    split; [reflexivity|]. split; [constructor|]. split; [reflexivity|].
    split; [now right | reflexivity]. }
  destruct (loadPendingMasjids_run server w) as (out & Hrun & _).
  rewrite Hrun. cbn [fst].
  eexists _, _. split; [reflexivity|]. split; [repeat constructor|].
  split; [reflexivity|]. split; [discriminate|]. intros [H | H]; discriminate H.
Qed.

(** X19.  The report page takes the role from the stored user record alone:
    without an access token it shows the wall and sends nothing; with one,
    the form is that of an admin exactly when the stored [accountType] is
    the text masjid_admin, and only a user who is no admin is shown (and
    asks the server for) the pending masjids. *)
Theorem initReport_role (w : World) (user : JSVal) :
  JSON_parse (user_text w) = Some user ->
  (truthy (stored (storage w !! "al_access")) = false ->
   initReport server JSON_parse w = (Ok AuthWall, w))
  /\ (truthy (stored (storage w !! "al_access")) = true ->
      exists pending,
        (initReport server JSON_parse w).1
        = Ok (ReportFormFor (strict_eq_string (getOpt user "accountType") "masjid_admin")
                pending)
        /\ (pending = None <->
            strict_eq_string (getOpt user "accountType") "masjid_admin" = true)
        /\ (sent (initReport server JSON_parse) w = [] <->
            strict_eq_string (getOpt user "accountType") "masjid_admin" = true)
        /\ storage (initReport server JSON_parse w).2 = storage w).
Proof.
  intros Hu. destruct (initReport_run w user Hu) as (page & evs & Hrun & _ & Hpage & Hevs).
  rewrite (sent_logged _ _ _ _ _ Hrun), Hrun. cbn [fst snd storage logged].
  split.
  - intros Hl. rewrite Hl in Hpage. cbn [negb] in Hpage. subst page.
    assert (evs = []) as -> by (apply Hevs; now left). now rewrite logged_nil.
  - intros Hl. rewrite Hl in Hpage, Hevs. cbn [negb] in Hpage.
    destruct (strict_eq_string (getOpt user "accountType") "masjid_admin"); subst page.
    + exists None. split; [reflexivity|]. split; [easy|]. split; [|reflexivity].
      split; [reflexivity|]. intros _. apply Hevs. now right.
    + eexists. split; [reflexivity|]. split; [easy|]. split; [|reflexivity].
      split; [|discriminate]. intros E. apply Hevs in E as [E | E]; discriminate E.
Qed.

(** X20.  On the report page the visibility a submission asks for is decided by
    the stored user record: every request that creates a masjid carries
    [isActive] equal to whether the stored [accountType] is the text
    masjid_admin. *)
Theorem report_page_role_decides (f : ReportForm) (w : World) (user : JSVal) (e : Event) :
  JSON_parse (user_text w) = Some user ->
  In e (sent (report_then_submit server JSON_parse f) w) ->
  url e.2 = "/api/masjids/" -> body e.2 <> None ->
  field e.2 "isActive"
  = JBool (strict_eq_string (getOpt user "accountType") "masjid_admin").
Proof.
  intros Hu He Hurl Hbody.
  destruct (initReport_run w user Hu) as (page & evs & Hrun & Hnone & Hpage & _).
  unfold sent, report_then_submit, mbind, M_bind in He. rewrite Hrun in He.
  cbv beta iota zeta in He. unfold mret, M_ret in He.
  rewrite List.Forall_forall in Hnone.
  assert (forall isAdmin p, page = ReportFormFor isAdmin p ->
            field e.2 "isActive" = JBool isAdmin) as Hsub.
  { intros isAdmin p ->.
    destruct (submitMasjidReport_sends server JSON_parse isAdmin f (logged w evs (storage w)))
      as (evs' & Hlog & Hall & _).
    rewrite List.Forall_forall in Hall.
    assert (In e (evs ++ evs')) as Hin.
    { destruct (submitMasjidReport server JSON_parse isAdmin f (logged w evs (storage w)))
        as [[a|err] w']; cbn [snd] in He, Hlog; rewrite Hlog in He;
        cbn [log logged] in He; now rewrite <- app_assoc, drop_app_length in He. }
    apply in_app_or in Hin as [Hin | Hin].
    - now apply Hnone in Hin.
    - now apply (Hall e Hin). }
  destruct (negb (truthy (stored (storage w !! "al_access")))).
  { subst page. cbn [snd log logged] in He. rewrite drop_app_length in He.
    now apply Hnone in He. }
  destruct (strict_eq_string (getOpt user "accountType") "masjid_admin");
    now apply (Hsub _ _ Hpage).
Qed.

End PageFacts.

(** * Further facts about the submission *)

Section SubmissionMore.

Variable server : list Event -> Request -> FetchOutcome.
Variable JSON_parse : string -> option JSVal.

Lemma submit_incomplete_run (isAdmin : bool) (f : ReportForm) (w : World) :
  incomplete f = true ->
  submitMasjidReport server JSON_parse isAdmin f w = (Ok MissingFields, w).
Proof.
  unfold incomplete, submitMasjidReport. intros H.
  destruct (report_lat f); [|reflexivity]. destruct (report_lng f); [|reflexivity].
  rewrite !orb_false_r in H. now rewrite H.
Qed.

Lemma complete_form (f : ReportForm) :
  incomplete f = false ->
  exists lat lng,
    report_lat f = Some lat /\ report_lng f = Some lng
    /\ negb (truthy (JStr (report_name f))) || negb (truthy (JStr (report_city f)))
       || negb (truthy (JStr (report_country f))) = false.
Proof.
  unfold incomplete. intros H.
  destruct (report_lat f) as [lat|]; [|now rewrite orb_true_r in H].
  destruct (report_lng f) as [lng|]; [|now rewrite orb_true_r in H].
  rewrite !orb_false_r in H. eauto.
Qed.

Lemma bind_returns {A B : Type} (Q : B -> Prop) (m : M A) (k : A -> M B) :
  (forall a w b, (k a w).1 = Ok b -> Q b) ->
  forall w b, ((m ≫= k) w).1 = Ok b -> Q b.
Proof.
  intros Hk w b. unfold mbind, M_bind. destruct (m w) as [[a|e] w1]; cbn [fst].
  - apply Hk.
  - intros H. discriminate H.
Qed.

Ltac grows :=
  repeat first
    [ apply sends_ret | apply sends_lift | apply sends_throw | apply sends_res_json
    | apply sends_getUser
    | match goal with
      | |- sends _ [] (authFetch _ _ _) =>
          eapply sends_weaken; apply sends_authFetch; intros; exact I
      | |- sends _ [] (if ?c then _ else _) => destruct c
      end
    | apply sends_then; [|intros ?] ].

(** X21.  A submission sends nothing exactly when the form is incomplete.  A
    form that lacks a required text or a coordinate is answered with the
    request to fill in the fields and leaves the world as it is; a
    complete form is never answered so, and what it sends begins with the
    request that creates the masjid. *)
Theorem submit_complete_or_silent (isAdmin : bool) (f : ReportForm) (w : World) :
  (incomplete f = true ->
   submitMasjidReport server JSON_parse isAdmin f w = (Ok MissingFields, w))
  /\ (incomplete f = false ->
      (submitMasjidReport server JSON_parse isAdmin f w).1 <> Ok MissingFields
      /\ exists rest,
           sent (submitMasjidReport server JSON_parse isAdmin f) w
           = (ByAuthFetch,
              first_request "/api/masjids/" (post_json (masjid_body isAdmin f)) w) :: rest).
Proof.
  split; [apply submit_incomplete_run|].
  intros Hc. destruct (complete_form f Hc) as (lat & lng & Hlat & Hlng & Hreq).
  assert (exists res rest st,
            submitMasjidReport server JSON_parse isAdmin f w
            = (res, logged w
                      ((ByAuthFetch,
                        first_request "/api/masjids/" (post_json (masjid_body isAdmin f)) w)
                       :: rest) st)
            /\ res <> Ok MissingFields) as (res & rest & st & Hrun & Hres).
  { unfold submitMasjidReport. rewrite Hlat, Hlng, Hreq.
    match goal with
    | |- context [try_catch (?m ≫= ?k) ?h] => set (rest_of := k)
    end.
    assert (forall a, sends (fun _ => True) [] (rest_of a)) as Hgrow.
    { intros a. subst rest_of. cbv beta. grows. }
    assert (forall a w1 b, (rest_of a w1).1 = Ok b -> b <> MissingFields) as Hret.
    { intros a. subst rest_of. cbv beta.
      repeat (apply (bind_returns (fun b => b <> MissingFields)); intros ?).
      intros w1 b H. injection H as <-. destruct isAdmin; discriminate. }
    destruct (authFetch_cases server "/api/masjids/" (post_json (masjid_body isAdmin f)) w)
      as (res & evs & st & Hrun & Htrace).
    assert (exists rest,
              evs = (ByAuthFetch,
                     first_request "/api/masjids/" (post_json (masjid_body isAdmin f)) w)
                    :: rest) as [rest ->].
    { destruct Htrace; eauto. }
    unfold try_catch, mbind, M_bind. rewrite Hrun.
    destruct res as [r|err].
    - destruct (Hgrow r (logged w
                           ((ByAuthFetch,
                             first_request "/api/masjids/"
                               (post_json (masjid_body isAdmin f)) w) :: rest) st))
        as (evs2 & Hlog2 & _).
      pose proof (Hret r (logged w
                            ((ByAuthFetch,
                              first_request "/api/masjids/"
                                (post_json (masjid_body isAdmin f)) w) :: rest) st)) as Hr.
      destruct (rest_of r _) as [[b|err] [st2 log2]]; cbn [fst snd log logged] in *;
        subst log2; rewrite <- app_assoc.
      + eexists _, _, st2. split; [reflexivity|].
        intros H. injection H as ->. now apply (Hr _ eq_refl).
      + eexists _, _, st2. split; [reflexivity | discriminate].
    - eexists _, _, st. split; [reflexivity | discriminate]. }
  rewrite (sent_logged _ _ _ _ _ Hrun), Hrun. cbn [fst]. split; [exact Hres | now eexists].
Qed.

(** X22.  When the server refuses to create the masjid the submission stops
    there: the alert shows the failure, and neither a location nor a
    signal nor an admin link is sent. *)
Theorem submit_creation_refused (isAdmin : bool) (f : ReportForm) (w : World) (r : Response) :
  incomplete f = false ->
  (authFetch server "/api/masjids/" (post_json (masjid_body isAdmin f)) w).1 = Ok r ->
  ok r = false ->
  exists e,
    submitMasjidReport server JSON_parse isAdmin f w
    = (Ok (Failed e),
       (authFetch server "/api/masjids/" (post_json (masjid_body isAdmin f)) w).2).
Proof.
  intros Hc Hr Hok. destruct (complete_form f Hc) as (lat & lng & Hlat & Hlng & Hreq).
  unfold submitMasjidReport. rewrite Hlat, Hlng, Hreq.
  unfold try_catch, mbind at 1, M_bind.
  destruct (authFetch server "/api/masjids/" _ w) as [[r'|err] w']; cbn [fst snd] in *;
    [|discriminate Hr].
  injection Hr as ->. unfold mbind at 1, M_bind. rewrite Hok. cbn [negb].
  unfold mbind, M_bind, lift, throw.
  destruct (creation_error _); eauto.
Qed.

Lemma storage_logged (w : World) (evs : list Event) (st : gmap string string) :
  storage (logged w evs st) = st.
Proof. reflexivity. Qed.

Lemma first_request_logged (u : string) (options : Options) (w : World) (evs : list Event) :
  first_request u options (logged w evs (storage w)) = first_request u options w.
Proof. reflexivity. Qed.

Lemma user_text_logged (w : World) (evs : list Event) :
  user_text (logged w evs (storage w)) = user_text w.
Proof. reflexivity. Qed.

Ltac tidy_world :=
  rewrite ?storage_logged, ?logged_logged, ?first_request_logged, ?user_text_logged.

Lemma authFetch_without_401 (u : string) (options : Options) (w : World) :
  (forall past rq, exists r, server past rq = Responded r /\ status r <> 401%Z) ->
  exists r,
    server (log w) (first_request u options w) = Responded r
    /\ authFetch server u options w
       = (Ok r, logged w [(ByAuthFetch, first_request u options w)] (storage w)).
Proof.
  intros Hs. destruct (Hs (log w) (first_request u options w)) as (r & Hr & Hn).
  exists r. split; [assumption|]. apply authFetch_plain; [assumption|].
  apply Z.eqb_neq in Hn. now rewrite Hn.
Qed.

(** X23.  When no answer is a 401 and the masjid is created, a submission sends
    the masjid, then its location, then the signal, and for an admin with
    a stored user name the admin link, each once; the location and the
    signal carry the identifier the server gave the masjid, and the alert
    is the success, whatever the answers to the later requests are. *)
Theorem submit_sequence (isAdmin : bool) (f : ReportForm) (w : World)
        (lat lng : Z) (r : Response) (masjid user : JSVal) :
  incomplete f = false ->
  report_lat f = Some lat -> report_lng f = Some lng ->
  (forall past rq, exists r', server past rq = Responded r' /\ status r' <> 401%Z) ->
  server (log w) (first_request "/api/masjids/" (post_json (masjid_body isAdmin f)) w)
  = Responded r ->
  ok r = true -> json r = Some masjid -> nullish masjid = false ->
  JSON_parse (user_text w) = Some user ->
  (exists name_html,
     escHTML (JStr (report_name f)) = Ok name_html
     /\ (submitMasjidReport server JSON_parse isAdmin f w).1
        = Ok (if isAdmin then Added name_html else Reported name_html))
  /\ sent (submitMasjidReport server JSON_parse isAdmin f) w
     = submission_requests isAdmin f lat lng (getOpt masjid "masjidID") user w
  /\ storage (submitMasjidReport server JSON_parse isAdmin f w).2 = storage w.
Proof.
  intros Hc Hlat Hlng Hs Hr Hok Hj Hm Hu.
  destruct (complete_form f Hc) as (lat' & lng' & Hlat' & Hlng' & Hreq).
  assert (exists res evs,
            submitMasjidReport server JSON_parse isAdmin f w
            = (res, logged w evs (storage w))
            /\ res = Ok (if isAdmin then Added (serializeText (report_name f))
                         else Reported (serializeText (report_name f)))
            /\ evs = submission_requests isAdmin f lat lng (getOpt masjid "masjidID") user w)
    as (res & evs & Hrun & -> & ->).
  { unfold submitMasjidReport. rewrite Hlat, Hlng, Hreq, escHTML_string.
    unfold try_catch, mbind, M_bind.
    destruct (authFetch_without_401 "/api/masjids/" (post_json (masjid_body isAdmin f)) w Hs)
      as (r1 & Hr1 & ->).
    rewrite Hr in Hr1. injection Hr1 as <-.
    rewrite Hok. cbn [negb]. unfold mret at 1, M_ret. unfold res_json. rewrite Hj.
    unfold mret at 1, M_ret, lift. rewrite (getProp_ok masjid) by assumption.
    match goal with
    | |- context [authFetch server "/api/location-records/" ?o ?w0] =>
        destruct (authFetch_without_401 "/api/location-records/" o w0 Hs) as (r2 & _ & ->)
    end.
    tidy_world. rewrite getUser_run. tidy_world. rewrite Hu.
    match goal with
    | |- context [authFetch server "/api/signals/" ?o ?w0] =>
        destruct (authFetch_without_401 "/api/signals/" o w0 Hs) as (r3 & _ & ->)
    end.
    tidy_world. unfold submission_requests.
    destruct (isAdmin && truthy (getOpt user "username")).
    - match goal with
      | |- context [authFetch server "/api/masjid-admins/" ?o ?w0] =>
          destruct (authFetch_without_401 "/api/masjid-admins/" o w0 Hs) as (r4 & _ & ->)
      end.
      tidy_world. unfold mret, M_ret. eexists _, _.
      split; [reflexivity|]. split; reflexivity.
    - unfold mret, M_ret. eexists _, _. split; [reflexivity|]. split; [reflexivity|].
      now rewrite app_nil_r. }
  rewrite (sent_logged _ _ _ _ _ Hrun), Hrun. split; [|now split].
  exists (serializeText (report_name f)). split; [apply escHTML_string | reflexivity].
Qed.

(** X24.  The admin link is only ever created by the submission of an admin,
    for a stored user name that is not empty, and always with
    [verifiedIdentity] false. *)
Theorem admin_link_only_for_admin (isAdmin : bool) (f : ReportForm) (w : World) (e : Event) :
  In e (sent (submitMasjidReport server JSON_parse isAdmin f) w) ->
  url e.2 = "/api/masjid-admins/" ->
  isAdmin = true
  /\ truthy (field e.2 "user") = true
  /\ field e.2 "verifiedIdentity" = JBool false.
Proof.
  set (P := fun e : Event =>
              url e.2 = "/api/masjid-admins/" ->
              isAdmin = true /\ truthy (field e.2 "user") = true
              /\ field e.2 "verifiedIdentity" = JBool false).
  assert (forall rt, P (ByRefreshToken, refresh_request rt)) as Hrefresh.
  { intros rt H. discriminate H. }
  assert (forall u (c : Caller) rq, url rq = u -> u <> "/api/masjid-admins/" -> P (c, rq))
    as Hother.
  { intros u c rq Hu Hne H. cbn [snd] in H. congruence. }
  assert (sends P [] (submitMasjidReport server JSON_parse isAdmin f)) as Hsends.
  { unfold submitMasjidReport.
    destruct (report_lat f); [|apply sends_ret].
    destruct (report_lng f); [|apply sends_ret].
    match goal with |- context [if ?c then _ else _] => destruct c end; [apply sends_ret|].
    match goal with
    | |- context [try_catch ?b ?h] =>
        assert (sends P ["/api/masjids/"; "/api/location-records/"; "/api/signals/"] b)
          as Hbody
    end.
    { apply (sends_bind _ _ _ ["/api/masjids/"] ["/api/location-records/"; "/api/signals/"]).
      { apply sends_authFetch; [apply Hrefresh|].
        intros rq Hu _. apply (Hother _ _ rq Hu). discriminate. }
      intros masjidRes. apply sends_then.
      { destruct (negb (ok masjidRes)); [|apply sends_ret].
        apply sends_then; [apply sends_lift | intros msg; apply sends_throw]. }
      intros _. apply sends_then; [apply sends_res_json|].
      intros masjid. apply sends_then; [apply sends_lift|].
      intros masjidID.
      apply (sends_bind _ _ _ ["/api/location-records/"] ["/api/signals/"]).
      { apply sends_authFetch; [apply Hrefresh|].
        intros rq Hu _. apply (Hother _ _ rq Hu). discriminate. }
      intros locRes. apply sends_then; [apply sends_getUser|].
      intros user. apply (sends_bind _ _ _ ["/api/signals/"] []).
      { apply sends_authFetch; [apply Hrefresh|].
        intros rq Hu _. apply (Hother _ _ rq Hu). discriminate. }
      intros _.
    apply sends_then;
      [|intros _; apply sends_then; [apply sends_lift | intros ?; apply sends_ret]].
      destruct (isAdmin && truthy (getOpt user "username")) eqn:Hadmin; [|apply sends_ret].
      destruct (andb_prop _ _ Hadmin) as [Ha Hname].
      apply (sends_weaken _ _ (["/api/masjid-admins/"] ++ [])).
      apply sends_bind; [|intros _; apply sends_ret].
      apply sends_authFetch; [apply Hrefresh|].
      intros rq _ Hb _. cbn [snd]. unfold field. rewrite Hb. cbn [opt_body post_json].
      split; [assumption|]. split; [exact Hname | reflexivity]. }
    match goal with
    | |- context [try_catch ?b ?h] => set (tried := b) in *
    end.
    intros w0. destruct (Hbody w0) as (evs & Hlog & Hall & _). exists evs.
    unfold try_catch. destruct (tried w0) as [[a|err] w1]; cbn [fst snd] in *;
      (split; [assumption|]); (split; [assumption|]); intros; constructor. }
  destruct (Hsends w) as (evs & Hlog & Hall & _).
  rewrite (sent_of_log _ _ _ Hlog). rewrite List.Forall_forall in Hall.
  intros Hin. apply (Hall e Hin).
Qed.

End SubmissionMore.

(** ** The facts above on the scenarios *)

Lemma initDetail_rows_unescaped_witness :
  exists rows,
    initDetail_rows (JObj [("name", JStr "<b>Al-Noor</b>");
                           ("websiteURL", JStr "https://alnoor.example")])
                    (JObj [])
    = Ok rows
    /\ In ("Name", CellHTML "<b>Al-Noor</b>") rows.
Proof.
  eexists. split; [reflexivity|].
  refine (proj1 (initDetail_rows_unescaped
                   [("name", JStr "<b>Al-Noor</b>");
                    ("websiteURL", JStr "https://alnoor.example")]
                   (JObj []) "<b>Al-Noor</b>" "https://alnoor.example" _
                   eq_refl eq_refl ltac:(discriminate) eq_refl)).
Defined.

Lemma loadFeatured_all_or_nothing_witness :
  (exists cards,
     (loadFeatured eight_pending anonymous).1 = Ok (FeaturedCards cards)
     /\ length cards = 8%nat)
  /\ (loadFeatured one_unprintable anonymous).1 = Ok FeaturedUnavailable.
Proof.
  split.
  - destruct (loadFeatured_all_or_nothing eight_pending anonymous
                {| status := 200;
                   json := Some (JArr (map (fun n => JObj [("masjidID", JNum n);
                                                           ("name", JStr "Masjid <b>")])
                                           [1; 2; 3; 4; 5; 6; 7; 8]%Z)) |}
                (map (fun n => JObj [("masjidID", JNum n); ("name", JStr "Masjid <b>")])
                     [1; 2; 3; 4; 5; 6; 7; 8]%Z)
                eq_refl eq_refl eq_refl) as [Hall _].
    apply Hall. repeat (constructor; [eexists; reflexivity|]). constructor.
  - destruct (loadFeatured_all_or_nothing one_unprintable anonymous
                {| status := 200;
                   json := Some (JArr [JObj [("masjidID", JNum 1);
                                             ("name", unprintable)]]) |}
                [JObj [("masjidID", JNum 1); ("name", unprintable)]]
                eq_refl eq_refl eq_refl) as (_ & _ & Hbad).
    apply Hbad. constructor. right. reflexivity.
Defined.

Lemma verify_pending_click_signal_witness :
  (verify_pending_click refusing parse_known "7" (session "access-1" "refresh-1")).1
  = Ok ButtonVerified
  /\ (verify_pending_click offline parse_known "7" (session "access-1" "refresh-1")).1
     = Ok ButtonFailed.
Proof.
  split.
  - destruct (verify_pending_click_signal refusing parse_known "7"
                (session "access-1" "refresh-1") (JObj [("username", JStr "amina")])
                eq_refl) as (_ & Hverified & _).
    apply Hverified. intros past rq H. discriminate H.
  - destruct (verify_pending_click_signal offline parse_known "7"
                (session "access-1" "refresh-1") (JObj [("username", JStr "amina")])
                eq_refl) as (_ & _ & Hfailed).
    now apply Hfailed.
Defined.

Lemma initReport_role_witness :
  (exists pending,
     (initReport offline parse_roles admin_session).1 = Ok (ReportFormFor true pending))
  /\ initReport offline parse_roles anonymous = (Ok AuthWall, anonymous).
Proof.
  split.
  - destruct (initReport_role offline parse_roles admin_session bilal eq_refl) as [_ Hin].
    destruct (Hin eq_refl) as (pending & Hpage & _). now exists pending.
  - destruct (initReport_role offline parse_roles anonymous JNull eq_refl) as [Hout _].
    now apply Hout.
Defined.

Lemma report_page_role_decides_witness :
  field (first_request "/api/masjids/" (post_json (masjid_body true al_noor)) admin_session)
        "isActive"
  = JBool true.
Proof.
  apply (report_page_role_decides accepting parse_roles al_noor admin_session bilal
           (ByAuthFetch,
            first_request "/api/masjids/" (post_json (masjid_body true al_noor))
              admin_session)
           eq_refl).
  - vm_compute. left. reflexivity.
  - reflexivity.
  - discriminate.
Defined.

Lemma submit_creation_refused_witness :
  exists e,
    (submitMasjidReport refusing parse_known false al_noor (session "access-1" "refresh-1")).1
    = Ok (Failed e).
Proof.
  destruct (submit_creation_refused refusing parse_known false al_noor
              (session "access-1" "refresh-1")
              {| status := 400;
                 json := Some (JObj [("name", JArr [JStr "This field is required."])]) |}
              eq_refl eq_refl eq_refl) as [e He].
  exists e. now rewrite He.
Defined.

Lemma submit_sequence_witness :
  (submitMasjidReport accepting parse_roles true al_noor admin_session).1
  = Ok (Added "Al-Noor")
  /\ sent (submitMasjidReport accepting parse_roles true al_noor) admin_session
     = submission_requests true al_noor 25 51 (JNum 7) bilal admin_session.
Proof.
  destruct (submit_sequence accepting parse_roles true al_noor admin_session 25 51
              {| status := 201; json := Some (JObj [("masjidID", JNum 7)]) |}
              (JObj [("masjidID", JNum 7)]) bilal
              eq_refl eq_refl eq_refl
              ltac:(intros past rq; eexists; split; [reflexivity | cbn; discriminate])
              eq_refl eq_refl eq_refl eq_refl eq_refl)
    as ((name_html & Hname & Hres) & Hsent & _).
  vm_compute in Hname. injection Hname as <-.
  split; [exact Hres | exact Hsent].
Defined.

Lemma admin_link_only_for_admin_witness :
  truthy (field (first_request "/api/masjid-admins/"
                   (post_json (admin_link_body (JNum 7) bilal)) admin_session) "user")
  = true
  /\ field (first_request "/api/masjid-admins/"
              (post_json (admin_link_body (JNum 7) bilal)) admin_session) "verifiedIdentity"
     = JBool false.
Proof.
  destruct (admin_link_only_for_admin accepting parse_roles true al_noor admin_session
              (ByAuthFetch,
               first_request "/api/masjid-admins/"
                 (post_json (admin_link_body (JNum 7) bilal)) admin_session))
    as (_ & Huser & Hflag).
  - vm_compute. right. right. right. left. reflexivity.
  - reflexivity.
  - split; [exact Huser | exact Hflag].
Defined.
